(** * Callbacks of the training loop (src/dl/callbacks.py)

    A shallow embedding of the callback classes of [dl/callbacks.py]:
    the learning-rate updaters ([LRUpdater], [OneCycleLR], [LRFinder]),
    the optimizer callback ([BasicOptimizerCallback]) and the checkpoint
    callback ([CheckpointCallback]).

    Conventions.
    - Python [int] is [Z]; Python [float] is an exact rational [Q]
      (rounding is not modelled, so equalities between floats are stated
      with [==]); a tensor is the list of its entries.
    - A Python exception leaves the objects mutated so far as they are:
      a method is a function [S -> result A * S] which returns the state
      reached together with either a value or the exception raised.
    - A [dict] that the code iterates over is an association list in
      insertion order; a [dict] that is only read and written by key is
      a [gmap]. *)

From Stdlib Require Import QArith Qpower Qabs Lqa ZArith Lia List String Sorted Permutation.
From stdpp Require Import gmap strings list.

Local Open Scope string_scope.

(** ** Python values and exceptions *)

Module Py.

Inductive exn :=
| ZeroDivisionError
| KeyError
| IndexError
| TypeError
| AttributeError
| AssertionError
| NotImplementedError
| FileNotFoundError
| Exception.

Inductive result (A : Type) :=
| Ok (a : A)
| Raise (e : exn).
Arguments Ok {A} a.
Arguments Raise {A} e.

(** A method over a mutable state [S]: the state survives an exception. *)
Definition M (S A : Type) : Type := S -> result A * S.

Definition ret {S A} (a : A) : M S A := fun s => (Ok a, s).
Definition raise {S A} (e : exn) : M S A := fun s => (Raise e, s).
Definition bind {S A B} (m : M S A) (k : A -> M S B) : M S B :=
  fun s => match m s with
           | (Ok a, s') => k a s'
           | (Raise e, s') => (Raise e, s')
           end.
Definition get {S} : M S S := fun s => (Ok s, s).
Definition modify {S} (f : S -> S) : M S unit := fun s => (Ok tt, f s).

(** A pure computation that may raise. *)
Definition lift {S A} (r : result A) : M S A := fun s => (r, s).

(** Run a method of a sub-object (field [prj], written back by [upd]). *)
Definition zoom {S T A} (prj : S -> T) (upd : T -> S -> S) (m : M T A) : M S A :=
  fun s => let (r, t') := m (prj s) in (r, upd t' s).

Definition of_option {A} (e : exn) (o : option A) : result A :=
  match o with Some a => Ok a | None => Raise e end.

(** [for x in l: body(x)] where [body] mutates the state. *)
Fixpoint for_each {S A} (l : list A) (body : A -> M S unit) : M S unit :=
  match l with
  | [] => ret tt
  | x :: l' => bind (body x) (fun _ => for_each l' body)
  end.

(** [a / b] on numbers: true division. *)
Definition truediv (a b : Q) : result Q :=
  if Qeq_bool b 0 then Raise ZeroDivisionError else Ok (a / b)%Q.

(** [a // b] on [int]: floor division ([Z.div] rounds towards minus
    infinity, as Python does). *)
Definition floordiv (a b : Z) : result Z :=
  if (b =? 0)%Z then Raise ZeroDivisionError else Ok (a / b)%Z.

(** [d[k]] and [d[k] = v] on an insertion-ordered dict. *)
Definition dict (V : Type) : Type := list (string * V).

Fixpoint dict_get {V} (k : string) (d : dict V) : option V :=
  match d with
  | [] => None
  | (k', v) :: d' => if String.eqb k k' then Some v else dict_get k d'
  end.

Fixpoint dict_set {V} (k : string) (v : V) (d : dict V) : dict V :=
  match d with
  | [] => [(k, v)]
  | (k', v') :: d' =>
      if String.eqb k k' then (k, v) :: d' else (k', v') :: dict_set k v d'
  end.

Definition keys {V} (d : dict V) : list string := map fst d.

End Py.

Import Py.

Declare Scope py_scope.
Delimit Scope py_scope with py.
Notation "x <- m ;; k" := (bind m (fun x => k))
  (at level 20, m at level 99, k at level 200, right associativity) : py_scope.
Notation "m ;; k" := (bind m (fun _ => k))
  (at level 100, k at level 200, right associativity) : py_scope.

Local Open Scope py_scope.

(** In-place iteration over a list of objects: [body] sees the outer
    state together with the current element and may mutate both; an
    exception stops the loop and the elements not yet visited stay as
    they were. *)
Fixpoint for_items {S A} (body : M (S * A) unit) (l : list A) (s : S)
  : result unit * (S * list A) :=
  match l with
  | [] => (Ok tt, (s, []))
  | x :: l' =>
      match body (s, x) with
      | (Ok _, (s', x')) =>
          let '(r, (s'', l'')) := for_items body l' s' in (r, (s'', x' :: l''))
      | (Raise e, (s', x')) => (Raise e, (s', x' :: l'))
      end
  end.

(** ** The objects the callbacks act on *)

(** Values stored in metric dicts and checkpoints. [PyFloat q] is a
    finite [float], taken as the rational [q]; [PyNaN] is the [float]
    [nan]. *)
#[warnings="-register-all"]
Inductive pyval :=
| PyNone
| PyInt (z : Z)
| PyFloat (q : Q)
| PyNaN
| PyStr (s : string)
| PyTensor (t : list Q)
| PyDict (d : list (string * pyval)).

Module Torch.

(** [torch.nn.Parameter]: [name] stands for the identity of the object. *)
Record param := mk_param {
  name : string;
  data : list Q;
  grad : list Q;
  requires_grad : bool
}.

(** One entry of [optimizer.param_groups]: a dict with the keys
    ["params"] and ["lr"], and optionally ["weight_decay"], ["betas"],
    ["momentum"]. *)
Record param_group := mk_group {
  params : list param;
  lr : Q;
  weight_decay : option Q;
  betas : option (Q * Q);
  momentum : option Q
}.

Record optimizer := mk_optimizer {
  param_groups : list param_group
}.

Definition set_data (d : list Q) (p : param) : param :=
  mk_param (name p) d (grad p) (requires_grad p).
Definition set_grad (g : list Q) (p : param) : param :=
  mk_param (name p) (data p) g (requires_grad p).

Definition set_params (ps : list param) (g : param_group) : param_group :=
  mk_group ps (lr g) (weight_decay g) (betas g) (momentum g).
Definition set_lr (v : Q) (g : param_group) : param_group :=
  mk_group (params g) v (weight_decay g) (betas g) (momentum g).
Definition set_weight_decay (v : Q) (g : param_group) : param_group :=
  mk_group (params g) (lr g) (Some v) (betas g) (momentum g).
Definition set_betas (v : Q * Q) (g : param_group) : param_group :=
  mk_group (params g) (lr g) (weight_decay g) (Some v) (momentum g).
Definition set_momentum (v : Q) (g : param_group) : param_group :=
  mk_group (params g) (lr g) (weight_decay g) (betas g) (Some v).

Definition set_param_groups (gs : list param_group) (o : optimizer) : optimizer :=
  mk_optimizer gs.

(** A model: a network, possibly inside [torch.nn.DataParallel] (field
    [module]) or [Fp16Wrap] (field [network]). *)
Inductive model :=
| Network (ps : list param)
| DataParallel (module : model)
| Fp16Wrap (network : model).

Fixpoint parameters (m : model) : list param :=
  match m with
  | Network ps => ps
  | DataParallel m' => parameters m'
  | Fp16Wrap m' => parameters m'
  end.

Fixpoint set_parameters (ps : list param) (m : model) : model :=
  match m with
  | Network _ => Network ps
  | DataParallel m' => DataParallel (set_parameters ps m')
  | Fp16Wrap m' => Fp16Wrap (set_parameters ps m')
  end.

(** Entrywise tensor arithmetic. *)
Definition tadd (a b : list Q) : list Q := zip_with Qplus a b.
Definition tscale (c : Q) (a : list Q) : list Q := map (Qmult c) a.

(** [zero_grad()]: every gradient entry becomes 0. *)
Definition zero_grad_param (p : param) : param :=
  set_grad (map (fun _ => 0%Q) (grad p)) p.
Definition zero_grad_group (g : param_group) : param_group :=
  set_params (map zero_grad_param (params g)) g.
Definition zero_grad (o : optimizer) : optimizer :=
  set_param_groups (map zero_grad_group (param_groups o)) o.

End Torch.

(** The run state handed to every hook (the fields the callbacks of
    this file read or write). [loader_len] is [len(state.loader)]. *)
Module RunState.

Record t := mk {
  loader_mode : string;
  is_train : bool;
  loader_len : Z;
  epoch : pyval;
  best_metrics : pyval;
  epoch_metrics : dict pyval;
  lr : gmap string Q;
  momentum : gmap string Q
}.

Definition set_epoch (v : pyval) (s : t) : t :=
  mk (loader_mode s) (is_train s) (loader_len s) v (best_metrics s)
     (epoch_metrics s) (lr s) (momentum s).
Definition set_best_metrics (v : pyval) (s : t) : t :=
  mk (loader_mode s) (is_train s) (loader_len s) (epoch s) v
     (epoch_metrics s) (lr s) (momentum s).
Definition set_lr (k : string) (v : Q) (s : t) : t :=
  mk (loader_mode s) (is_train s) (loader_len s) (epoch s) (best_metrics s)
     (epoch_metrics s) (<[k := v]> (lr s)) (momentum s).
Definition set_momentum (k : string) (v : Q) (s : t) : t :=
  mk (loader_mode s) (is_train s) (loader_len s) (epoch s) (best_metrics s)
     (epoch_metrics s) (lr s) (<[k := v]> (momentum s)).

End RunState.

(** ** class LRUpdater *)

Module LRUpdater.

(** What a subclass provides: [calc_lr] and [calc_momentum] return
    [None] for "no change". *)
Class Schedule (Self : Type) := {
  optimizer_key : Self -> string;
  calc_lr : M Self (option Q);
  calc_momentum : M Self (option Q)
}.

(** The callback object together with the arguments of its hooks. *)
Record world (Self : Type) := mk_world {
  self : Self;
  state : RunState.t;
  optimizer : dict Torch.optimizer
}.
Arguments mk_world {Self}.
Arguments self {Self}.
Arguments state {Self}.
Arguments optimizer {Self}.

Section Hooks.
Context {Self : Type} `{Schedule Self}.

Definition set_self (x : Self) (w : world Self) : world Self :=
  mk_world x (state w) (optimizer w).
Definition set_state (s : RunState.t) (w : world Self) : world Self :=
  mk_world (self w) s (optimizer w).
Definition set_optimizer (o : dict Torch.optimizer) (w : world Self) : world Self :=
  mk_world (self w) (state w) o.

Definition update_lr (o : Torch.optimizer) (new_lr : Q) : Torch.optimizer :=
  Torch.set_param_groups (map (Torch.set_lr new_lr) (Torch.param_groups o)) o.

Definition update_momentum_group (has_betas : bool) (new_momentum : Q)
  : M (unit * Torch.param_group) unit :=
  fun '(u, pg) =>
    if has_betas then
      match Torch.betas pg with
      | Some b => (Ok tt, (u, Torch.set_betas (new_momentum, snd b) pg))
      | None => (Raise KeyError, (u, pg))
      end
    else (Ok tt, (u, Torch.set_momentum new_momentum pg)).

Definition update_momentum (new_momentum : Q) : M Torch.optimizer unit :=
  fun o =>
    match Torch.param_groups o with
    | [] => (Raise IndexError, o)
    | g0 :: _ =>
        let has_betas := match Torch.betas g0 with Some _ => true | None => false end in
        let '(r, (_, gs)) :=
          for_items (update_momentum_group has_betas new_momentum)
                    (Torch.param_groups o) tt in
        (r, Torch.set_param_groups gs o)
    end.

(** [optimizer[self.optimizer_key]] as a sub-object of the world. *)
Definition with_optimizer {A} (key : string) (m : M Torch.optimizer A)
  : M (world Self) A :=
  fun w =>
    match dict_get key (optimizer w) with
    | None => (Raise KeyError, w)
    | Some o => let (r, o') := m o in (r, set_optimizer (dict_set key o' (optimizer w)) w)
    end.

Definition update_optimizer : M (world Self) unit :=
  w <- get ;;
  let key := optimizer_key (self w) in
  if RunState.is_train (state w) then
    new_lr <- zoom self set_self calc_lr ;;
    match new_lr with
    | Some v =>
        with_optimizer key (modify (fun o => update_lr o v)) ;;
        zoom state set_state (modify (RunState.set_lr key v))
    | None => ret tt
    end ;;
    new_momentum <- zoom self set_self calc_momentum ;;
    match new_momentum with
    | Some v =>
        with_optimizer key (update_momentum v) ;;
        zoom state set_state (modify (RunState.set_momentum key v))
    | None => ret tt
    end
  else
    zoom state set_state (modify (RunState.set_lr key 0)) ;;
    zoom state set_state (modify (RunState.set_momentum key 0)).

Definition on_loader_start : M (world Self) unit := update_optimizer.
Definition on_batch_end : M (world Self) unit := update_optimizer.

End Hooks.

(** The base class itself: both computations answer "no change". *)
Record t := mk { init_lr : Q; base_optimizer_key : string }.

#[export] Instance base_schedule : Schedule t := {
  optimizer_key := base_optimizer_key;
  calc_lr := ret None;
  calc_momentum := ret None
}.

End LRUpdater.

(** ** class OneCycleLR(LRUpdater) *)

Module OneCycleLR.

Record t := mk {
  init_lr : Q;
  optimizer_key : string;
  total_iter : option Z;
  div : Z;
  cut_div : Z;
  cycle_iter : Z;
  cycle_count : Z;
  cycle_len : Z;
  cut_point : option Z;
  momentum_range : Q * Q
}.

Definition __init__ (init_lr : Q) (cycle_len div cut_div : Z)
    (momentum_range : Q * Q) (optimizer_key : string) : t :=
  mk init_lr optimizer_key None div cut_div 0 0 cycle_len None momentum_range.

Definition set_cycle (iter count : Z) (s : t) : t :=
  mk (init_lr s) (optimizer_key s) (total_iter s) (div s) (cut_div s)
     iter count (cycle_len s) (cut_point s) (momentum_range s).
Definition set_total_iter (v : Z) (s : t) : t :=
  mk (init_lr s) (optimizer_key s) (Some v) (div s) (cut_div s)
     (cycle_iter s) (cycle_count s) (cycle_len s) (cut_point s) (momentum_range s).
Definition set_cut_point (v : Z) (s : t) : t :=
  mk (init_lr s) (optimizer_key s) (total_iter s) (div s) (cut_div s)
     (cycle_iter s) (cycle_count s) (cycle_len s) (Some v) (momentum_range s).

(** Reading [self.total_iter] or [self.cut_point] in arithmetic while it
    is still [None] is a [TypeError]. *)
Definition the_int (o : option Z) : result Z := of_option TypeError o.

Definition calc_lr : M t Q :=
  s <- get ;;
  cut <- lift (the_int (cut_point s)) ;;
  percent <-
    (if (cycle_iter s >? cut)%Z then
       total <- lift (the_int (total_iter s)) ;;
       d <- lift (truediv (inject_Z (cycle_iter s - cut))
                          (inject_Z (total - cut))) ;;
       ret (1 - d)%Q
     else
       lift (truediv (inject_Z (cycle_iter s)) (inject_Z cut))) ;;
  res <- lift (truediv (init_lr s * (1 + percent * inject_Z (div s - 1)))%Q
                       (inject_Z (div s))) ;;
  modify (fun s => set_cycle (cycle_iter s + 1) (cycle_count s) s) ;;
  s <- get ;;
  (if option_eq_dec (Some (cycle_iter s)) (total_iter s)
   then modify (set_cycle 0 (cycle_count s + 1))
   else ret tt) ;;
  ret res.

Definition calc_momentum : M t Q :=
  s <- get ;;
  cut <- lift (the_int (cut_point s)) ;;
  percent <-
    (if (cycle_iter s >? cut)%Z then
       let now_ := (cycle_iter s - cut)%Z in
       total <- lift (the_int (total_iter s)) ;;
       let all_ := (total - cut)%Z in
       lift (truediv (inject_Z now_) (inject_Z all_))
     else
       d <- lift (truediv (inject_Z (cycle_iter s)) (inject_Z cut)) ;;
       ret (1 - d)%Q) ;;
  ret (snd (momentum_range s)
       + percent * (fst (momentum_range s) - snd (momentum_range s)))%Q.

#[export] Instance schedule : LRUpdater.Schedule t := {
  LRUpdater.optimizer_key := optimizer_key;
  LRUpdater.calc_lr := (v <- calc_lr ;; ret (Some v));
  LRUpdater.calc_momentum := (v <- calc_momentum ;; ret (Some v))
}.

Definition on_loader_start : M (LRUpdater.world t) unit :=
  w <- get ;;
  (if RunState.is_train (LRUpdater.state w) then
     let total := (RunState.loader_len (LRUpdater.state w)
                   * cycle_len (LRUpdater.self w))%Z in
     zoom LRUpdater.self LRUpdater.set_self (modify (set_total_iter total)) ;;
     cut <- lift (floordiv total (cut_div (LRUpdater.self w))) ;;
     zoom LRUpdater.self LRUpdater.set_self (modify (set_cut_point cut))
   else ret tt) ;;
  LRUpdater.on_loader_start.

Definition on_batch_end : M (LRUpdater.world t) unit := LRUpdater.on_batch_end.

End OneCycleLR.

(** ** class LRFinder(LRUpdater) *)

Module LRFinder.

Record t := mk {
  init_lr : Q;
  optimizer_key : string;
  final_lr : Q;
  n_steps : option Z;
  multiplier : Q;
  find_iter : Z
}.

Definition __init__ (init_lr final_lr : Q) (n_steps : option Z)
    (optimizer_key : string) : t :=
  mk init_lr optimizer_key final_lr n_steps 0 0.

Definition set_find_iter (v : Z) (s : t) : t :=
  mk (init_lr s) (optimizer_key s) (final_lr s) (n_steps s) (multiplier s) v.
Definition set_n_steps (v : Z) (s : t) : t :=
  mk (init_lr s) (optimizer_key s) (final_lr s) (Some v) (multiplier s) (find_iter s).
Definition set_multiplier (v : Q) (s : t) : t :=
  mk (init_lr s) (optimizer_key s) (final_lr s) (n_steps s) v (find_iter s).

(** [self.multiplier ** self.find_iter]: a power with an [int] exponent. *)
Definition calc_lr : M t Q :=
  s <- get ;;
  let res := (init_lr s * multiplier s ^ find_iter s)%Q in
  modify (set_find_iter (find_iter s + 1)) ;;
  ret res.

#[export] Instance schedule : LRUpdater.Schedule t := {
  LRUpdater.optimizer_key := optimizer_key;
  LRUpdater.calc_lr := (v <- calc_lr ;; ret (Some v));
  LRUpdater.calc_momentum := ret None
}.

Definition on_batch_end : M (LRUpdater.world t) unit :=
  LRUpdater.on_batch_end ;;
  w <- get ;;
  n <- lift (of_option TypeError (n_steps (LRUpdater.self w))) ;;
  if (find_iter (LRUpdater.self w) >? n)%Z
  then raise NotImplementedError
  else ret tt.

Section FloatPow.

(** [x ** y] with a [float] exponent (the [n_steps]-th root is not a
    rational function; its value is left to the parameter). *)
Variable float_pow : Q -> Q -> Q.

(** [self.n_steps or len(state.loader)]: [None] and [0] are falsy. *)
Definition n_steps_or (n : option Z) (len : Z) : Z :=
  match n with
  | Some v => if (v =? 0)%Z then len else v
  | None => len
  end.

Definition on_loader_start : M (LRUpdater.world t) unit :=
  w <- get ;;
  (if RunState.is_train (LRUpdater.state w) then
     let s := LRUpdater.self w in
     lr_ <- lift (truediv (final_lr s) (init_lr s)) ;;
     let n := n_steps_or (n_steps s) (RunState.loader_len (LRUpdater.state w)) in
     zoom LRUpdater.self LRUpdater.set_self (modify (set_n_steps n)) ;;
     e <- lift (truediv 1 (inject_Z n)) ;;
     zoom LRUpdater.self LRUpdater.set_self
       (modify (set_multiplier (float_pow lr_ e)))
   else ret tt) ;;
  LRUpdater.on_loader_start.

(** One training loader as the runner drives it: the loader-start hook,
    then the batch-end hook once per batch. *)
Fixpoint batches (j : nat) : M (LRUpdater.world t) unit :=
  match j with
  | O => ret tt
  | S j' => batches j' ;; on_batch_end
  end.

Definition run_loader (j : nat) : M (LRUpdater.world t) unit :=
  on_loader_start ;; batches j.

End FloatPow.

End LRFinder.

(** ** class BasicOptimizerCallback *)

Module BasicOptimizerCallback.
Import Torch.

Record t := mk {
  optimizer_wds : dict Q;
  grad_clip : option Q;
  fp16 : bool;
  fp16_grad_scale : Q
}.

Definition __init__ (grad_clip : option Q) (fp16_grad_scale : Q) : t :=
  mk [] grad_clip false fp16_grad_scale.

Definition set_optimizer_wds (v : dict Q) (s : t) : t :=
  mk v (grad_clip s) (fp16 s) (fp16_grad_scale s).
Definition set_fp16 (v : bool) (s : t) : t :=
  mk (optimizer_wds s) (grad_clip s) v (fp16_grad_scale s).

(** The callback with the arguments of its hooks. In standard precision
    the optimizers hold the model's own parameter objects, which the
    world keeps once, under [optimizer]; [model] matters in reduced
    precision, where its parameters are separate objects. *)
Record world := mk_world {
  self : t;
  state : RunState.t;
  model : Torch.model;
  optimizer : dict Torch.optimizer
}.

Definition set_self (x : t) (w : world) : world :=
  mk_world x (state w) (model w) (optimizer w).
Definition set_model (m : Torch.model) (w : world) : world :=
  mk_world (self w) (state w) m (optimizer w).
Definition set_optimizer (o : dict Torch.optimizer) (w : world) : world :=
  mk_world (self w) (state w) (model w) o.

Definition on_train_start : M world unit :=
  w <- get ;;
  let is_fp16 := match model w with Fp16Wrap _ => true | _ => false end in
  modify (set_self (set_fp16 is_fp16 (self w))).

(** Body of the loop of [on_epoch_start], on [self] and one item. *)
Definition on_epoch_start_item : M (t * (string * Torch.optimizer)) unit :=
  fun '(s, (key, optimizer_)) =>
    match param_groups optimizer_ with
    | [] => (Raise IndexError, (s, (key, optimizer_)))
    | g0 :: gs =>
        let wd := match weight_decay g0 with Some v => v | None => 0%Q end in
        if Qlt_le_dec 0 wd then
          (Ok tt, (set_optimizer_wds (dict_set key wd (optimizer_wds s)) s,
                   (key, set_param_groups (set_weight_decay 0 g0 :: gs) optimizer_)))
        else (Ok tt, (s, (key, optimizer_)))
    end.

Definition on_epoch_start : M world unit :=
  fun w =>
    let '(r, (s, o)) :=
      for_items on_epoch_start_item (optimizer w) (set_optimizer_wds [] (self w)) in
    (r, set_optimizer o (set_self s w)).

(** [optimizer[key].param_groups[0]["weight_decay"] = value] *)
Definition restore_weight_decay (key : string) (value : Q) : M world unit :=
  fun w =>
    match dict_get key (optimizer w) with
    | None => (Raise KeyError, w)
    | Some o =>
        match param_groups o with
        | [] => (Raise IndexError, w)
        | g0 :: gs =>
            (Ok tt, set_optimizer
                      (dict_set key (set_param_groups (set_weight_decay value g0 :: gs) o)
                                (optimizer w)) w)
        end
    end.

Definition on_epoch_end : M world unit :=
  w <- get ;;
  for_each (optimizer_wds (self w))
           (fun '(key, value) => restore_weight_decay key value).

Section External.

(** [optimizer.step()] and [torch.nn.utils.clip_grad_norm_(params,
    max_norm)] belong to the library; [loss_grad name] is the gradient of
    the batch loss with respect to the parameter [name], as autograd
    computes it. *)
Variable step : Torch.optimizer -> Torch.optimizer.
Variable clip_grad_norm_ : list param -> Q -> list param.
Variable loss_grad : string -> list Q.

(** [(scale * loss).backward()]: gradients accumulate. *)
Definition backward_param (scale : Q) (p : param) : param :=
  if requires_grad p
  then set_grad (tadd (grad p) (tscale scale (loss_grad (name p)))) p
  else p.
Definition backward_group (scale : Q) (g : param_group) : param_group :=
  set_params (map (backward_param scale) (params g)) g.
Definition backward (scale : Q) (o : Torch.optimizer) : Torch.optimizer :=
  set_param_groups (map (backward_group scale) (param_groups o)) o.

(** [param.data = param.data.add(-wd * group["lr"], param.data)] *)
Definition decay_param (wd lr_ : Q) (p : param) : param :=
  set_data (tadd (data p) (tscale (- wd * lr_) (data p))) p.

(** Body of [for group in value.param_groups] under
    [if key in self.optimizer_wds]. *)
Definition grad_step_group (s : t) (wd : Q) (group : param_group) : param_group :=
  let ps := map (decay_param wd (lr group)) (params group) in
  let ps := match grad_clip s with
            | Some c => clip_grad_norm_ ps c
            | None => ps
            end in
  set_params ps group.

Definition grad_step_item (s : t) (key : string) (value : Torch.optimizer)
  : Torch.optimizer :=
  let value :=
    match dict_get key (optimizer_wds s) with
    | Some wd =>
        set_param_groups (map (grad_step_group s wd) (param_groups value)) value
    | None => value
    end in
  step value.

Definition grad_step (s : t) (optimizer : dict Torch.optimizer)
  : dict Torch.optimizer :=
  map (fun '(key, value) => (key, grad_step_item s key value)) optimizer.

(** Modelled from the spec: [copy_grads] and [copy_params] of
    [common.utils.fp16], which is not part of the sources at hand. The
    gradients (resp. the values) of [source] are copied, position by
    position, into the parameters of [target]. *)
Fixpoint copy_grads (source target : list param) : list param :=
  match source, target with
  | s :: ss, t :: ts => set_grad (grad s) t :: copy_grads ss ts
  | _, _ => target
  end.

Fixpoint copy_params (source target : list param) : list param :=
  match source, target with
  | s :: ss, t :: ts => set_data (data s) t :: copy_params ss ts
  | _, _ => target
  end.

(** The list [filter(lambda p: p.requires_grad, model.parameters())]
    holds the model's own parameter objects: [write_back] puts the
    updated objects in their places. *)
Fixpoint write_back (ps updated : list param) : list param :=
  match ps with
  | [] => []
  | p :: ps' =>
      if requires_grad p then
        match updated with
        | u :: us => u :: write_back ps' us
        | [] => p :: ps'
        end
      else p :: write_back ps' updated
  end.

(** [optimizer["main"].param_groups[0]["params"]] as a sub-object. *)
Definition with_master_params {A} (m : M (list param) A) : M world A :=
  fun w =>
    match dict_get "main" (optimizer w) with
    | None => (Raise KeyError, w)
    | Some o =>
        match param_groups o with
        | [] => (Raise IndexError, w)
        | g0 :: gs =>
            let (r, ps) := m (params g0) in
            (r, set_optimizer
                  (dict_set "main" (set_param_groups (set_params ps g0 :: gs) o)
                            (optimizer w)) w)
        end
    end.

(** [param.grad.data.mul_(1. / self.fp16_grad_scale)] *)
Definition unscale_grad (scale : Q) : M (unit * param) unit :=
  fun '(u, p) =>
    match truediv 1 scale with
    | Ok c => (Ok tt, (u, set_grad (tscale c (grad p)) p))
    | Raise e => (Raise e, (u, p))
    end.

Definition on_batch_end : M world unit :=
  w <- get ;;
  if negb (RunState.is_train (state w)) then ret tt
  else if negb (fp16 (self w)) then
    modify (fun w => set_optimizer
                       (map (fun '(k, value) => (k, zero_grad value)) (optimizer w)) w) ;;
    w <- get ;;
    if (0 <? length (optimizer w))%nat then
      modify (fun w => set_optimizer
                         (map (fun '(k, value) => (k, backward 1 value)) (optimizer w)) w) ;;
      modify (fun w => set_optimizer (grad_step (self w) (optimizer w)) w)
    else ret tt
  else
    modify (fun w => set_model
                       (set_parameters (map zero_grad_param (parameters (model w)))
                                       (model w)) w) ;;
    w <- get ;;
    if (0 <? length (optimizer w))%nat then
      (if (length (optimizer w) =? 1)%nat then ret tt else raise AssertionError) ;;
      let scale := fp16_grad_scale (self w) in
      modify (fun w => set_model
                         (set_parameters
                            (map (backward_param scale) (parameters (model w)))
                            (model w)) w) ;;
      (* master_params *)
      with_master_params (ret tt) ;;
      w <- get ;;
      let model_params := filter (fun p => requires_grad p = true) (parameters (model w)) in
      with_master_params (modify (copy_grads model_params)) ;;
      with_master_params
        (fun ps => let '(r, (_, ps')) := for_items (unscale_grad scale) ps tt in (r, ps')) ;;
      modify (fun w => set_optimizer (grad_step (self w) (optimizer w)) w) ;;
      master_params <- with_master_params get ;;
      modify (fun w => set_model
                         (set_parameters
                            (write_back (parameters (model w))
                                        (copy_params master_params model_params))
                            (model w)) w)
    else ret tt.

End External.

End BasicOptimizerCallback.

(** ** class CheckpointCallback *)

Module CheckpointCallback.
Import Torch.

(** [d[k]] on a value: only a dict can be subscripted by a string. *)
Definition getitem (v : pyval) (k : string) : result pyval :=
  match v with
  | PyDict d => of_option KeyError (dict_get k d)
  | _ => Raise TypeError
  end.

(** [v.items()] *)
Definition items (v : pyval) : result (dict pyval) :=
  match v with
  | PyDict d => Ok d
  | _ => Raise AttributeError
  end.

(** The rational a value stands for, if it is an [int] or a finite
    [float]. *)
Definition number (v : pyval) : result Q :=
  match v with
  | PyFloat q => Ok q
  | PyInt z => Ok (inject_Z z)
  | _ => Raise TypeError
  end.

(** [a > b]: a comparison of numbers; with [nan] on either side of a
    number, or on both sides, it is [False]. *)
Definition py_gt (a b : pyval) : result bool :=
  match a, b with
  | PyNaN, PyNaN | PyNaN, PyInt _ | PyNaN, PyFloat _
  | PyInt _, PyNaN | PyFloat _, PyNaN => Ok false
  | _, _ =>
      match number a, number b with
      | Ok x, Ok y => Ok (negb (Qle_bool x y))
      | _, _ => Raise TypeError
      end
  end.

(** [{key: value for key, value in d.items() if isinstance(value, float)}]:
    [nan] is a [float]. *)
Definition only_floats (d : dict pyval) : dict pyval :=
  List.filter (fun kv => match snd kv with
                         | PyFloat _ | PyNaN => true
                         | _ => false
                         end) d.

(** [self.top_best_metrics] holds pairs of a file path and the metric
    value as it was read from the checkpoint, whatever it is. *)
Record t := mk {
  logdir : option string;
  save_n_best : Z;
  resume : option string;
  main_metric : string;
  minimize : bool;
  top_best_metrics : list (string * pyval)
}.

Definition __init__ (logdir : option string) (save_n_best : Z)
    (resume : option string) (main_metric : string) (minimize : bool) : t :=
  mk logdir save_n_best resume main_metric minimize [].

Definition set_top_best_metrics (v : list (string * pyval)) (s : t) : t :=
  mk (logdir s) (save_n_best s) (resume s) (main_metric s) (minimize s) v.

(** The callback with the arguments of its hooks and the checkpoint
    files on disk ([fs] maps a path to the mapping stored there). *)
Record world := mk_world {
  self : t;
  state : RunState.t;
  fs : gmap string pyval;
  model : option Torch.model;
  optimizer : option (dict Torch.optimizer);
  scheduler : option (dict pyval)
}.

Definition set_self (x : t) (w : world) : world :=
  mk_world x (state w) (fs w) (model w) (optimizer w) (scheduler w).
Definition set_state (x : RunState.t) (w : world) : world :=
  mk_world (self w) x (fs w) (model w) (optimizer w) (scheduler w).
Definition set_fs (x : gmap string pyval) (w : world) : world :=
  mk_world (self w) (state w) x (model w) (optimizer w) (scheduler w).
Definition set_model (x : option Torch.model) (w : world) : world :=
  mk_world (self w) (state w) (fs w) x (optimizer w) (scheduler w).
Definition set_optimizer (x : option (dict Torch.optimizer)) (w : world) : world :=
  mk_world (self w) (state w) (fs w) (model w) x (scheduler w).
Definition set_scheduler (x : option (dict pyval)) (w : world) : world :=
  mk_world (self w) (state w) (fs w) (model w) (optimizer w) x.

(** [process_epoch_metrics] (a static method). *)
Definition last_valid (epoch_metrics : dict pyval) : pyval :=
  fold_left (fun valid_metrics kv =>
               if String.prefix "valid" (fst kv) then snd kv else valid_metrics)
            epoch_metrics PyNone.

Definition process_epoch_metrics (epoch_metrics : dict pyval) (best_metrics : pyval)
    (main_metric : string) (minimize : bool) : result (pyval * pyval * bool) :=
  let valid_metrics := last_valid epoch_metrics in
  match
    match best_metrics with
    | PyNone => Ok true
    | _ =>
        match getitem valid_metrics main_metric with
        | Ok new =>
            match getitem best_metrics main_metric with
            | Ok old =>
                match py_gt new old with
                | Ok gt => Ok (negb (Bool.eqb minimize gt))
                | Raise e => Raise e
                end
            | Raise e => Raise e
            end
        | Raise e => Raise e
        end
    end
  with
  | Ok is_best =>
      Ok (if is_best then valid_metrics else best_metrics, valid_metrics, is_best)
  | Raise e => Raise e
  end.

Section External.

(** [load_state_dict] of a module and of an optimizer, and their
    [state_dict], belong to the library; so does [str]. *)
Variable module_load_state_dict : Torch.model -> pyval -> result Torch.model.
Variable optimizer_load_state_dict : Torch.optimizer -> pyval -> result Torch.optimizer.
Variable module_state_dict : Torch.model -> pyval.
Variable optimizer_state_dict : Torch.optimizer -> pyval.
Variable py_str : pyval -> string.

(** [sorted(l, key=lambda x: x[1], reverse=r)] belongs to the language:
    [sorted r l] is its outcome on the list [l] of (path, metric) pairs.
    It raises when two metrics do not compare, and what it returns when a
    metric is [nan] depends on the comparisons the sort happens to make;
    nothing is fixed about it here. *)
Variable sorted : bool -> list (string * pyval) -> result (list (string * pyval)).

(** The names the checkpoint helpers give to the files they write. *)
Variable checkpoint_path : option string -> string -> string.
Variable best_path : option string -> string.

(** Modelled from the spec: [load_checkpoint], [save_checkpoint] and
    [prepare_checkpoint] of [common.utils.helpers], which is not part of
    the sources at hand. A checkpoint is a mapping with the keys
    [epoch], [best_metrics], [model_state_dict],
    [optimizer_<key>_state_dict], [scheduler_<key>], [valid_metrics] and
    [epoch_metrics]; one file is written per save, named after the epoch
    number, plus the designated best file when [is_best]. *)
Definition helpers_load_checkpoint (filename : string) : M world pyval :=
  w <- get ;; lift (of_option FileNotFoundError (fs w !! filename)).

Definition helpers_save_checkpoint (logdir : option string) (checkpoint : pyval)
    (is_best : bool) (suffix : string) : M world string :=
  let filepath := checkpoint_path logdir suffix in
  modify (fun w => set_fs (<[filepath := checkpoint]> (fs w)) w) ;;
  (if is_best
   then modify (fun w => set_fs (<[best_path logdir := checkpoint]> (fs w)) w)
   else ret tt) ;;
  ret filepath.

Definition helpers_prepare_checkpoint (model : option Torch.model)
    (optimizer : option (dict Torch.optimizer)) (scheduler : option (dict pyval))
    (valid_metrics : pyval) (epoch_metrics : dict pyval) (best_metrics epoch : pyval)
  : pyval :=
  PyDict
    ([("epoch", epoch);
      ("best_metrics", best_metrics);
      ("valid_metrics", valid_metrics);
      ("epoch_metrics", PyDict epoch_metrics)]
     ++ match model with
        | Some m => [("model_state_dict", module_state_dict m)]
        | None => []
        end
     ++ match optimizer with
        | Some d =>
            map (fun kv => ("optimizer_" +:+ fst kv +:+ "_state_dict",
                            optimizer_state_dict (snd kv))) d
        | None => []
        end
     ++ match scheduler with
        | Some d => map (fun kv => ("scheduler_" +:+ fst kv, snd kv)) d
        | None => []
        end).

(** [load_checkpoint] (a static method). *)
Definition load_model (sd : pyval) (m : Torch.model) : result Torch.model :=
  let load m :=
    match m with
    | Fp16Wrap network =>
        match module_load_state_dict network sd with
        | Ok network' => Ok (Fp16Wrap network')
        | Raise e => Raise e
        end
    | _ => module_load_state_dict m sd
    end in
  match m with
  | DataParallel module =>
      match load module with
      | Ok module' => Ok (DataParallel module')
      | Raise e => Raise e
      end
  | _ => load m
  end.

Definition load_optimizer_item (checkpoint : pyval)
  : M (unit * (string * Torch.optimizer)) unit :=
  fun '(u, (key, o)) =>
    match getitem checkpoint ("optimizer_" +:+ key +:+ "_state_dict") with
    | Ok sd =>
        match optimizer_load_state_dict o sd with
        | Ok o' => (Ok tt, (u, (key, o')))
        | Raise e => (Raise e, (u, (key, o)))
        end
    | Raise e => (Raise e, (u, (key, o)))
    end.

Definition load_scheduler_item (checkpoint : pyval)
  : M (unit * (string * pyval)) unit :=
  fun '(u, (key, s)) =>
    match getitem checkpoint ("scheduler_" +:+ key) with
    | Ok s' => (Ok tt, (u, (key, s')))
    | Raise e => (Raise e, (u, (key, s)))
    end.

Definition load_checkpoint (filename : string) : M world unit :=
  w <- get ;;
  match fs w !! filename with
  | Some _ =>
      checkpoint <- helpers_load_checkpoint filename ;;
      epoch <- lift (getitem checkpoint "epoch") ;;
      modify (fun w => set_state (RunState.set_epoch epoch (state w)) w) ;;
      best_metrics <- lift (getitem checkpoint "best_metrics") ;;
      modify (fun w => set_state (RunState.set_best_metrics best_metrics (state w)) w) ;;
      (match model w with
       | Some m =>
           sd <- lift (getitem checkpoint "model_state_dict") ;;
           m' <- lift (load_model sd m) ;;
           modify (set_model (Some m'))
       | None => ret tt
       end) ;;
      (match optimizer w with
       | Some d =>
           fun w =>
             let '(r, (_, d')) := for_items (load_optimizer_item checkpoint) d tt in
             (r, set_optimizer (Some d') w)
       | None => ret tt
       end) ;;
      (match scheduler w with
       | Some d =>
           fun w =>
             let '(r, (_, d')) := for_items (load_scheduler_item checkpoint) d tt in
             (r, set_scheduler (Some d') w)
       | None => ret tt
       end)
  | None => raise Exception
  end.

(** [os.remove(path)] *)
Definition os_remove (path : string) : M world unit :=
  w <- get ;;
  match fs w !! path with
  | Some _ => modify (set_fs (delete path (fs w)))
  | None => raise FileNotFoundError
  end.

(** [l.pop(-1)]: the list without its last item, and that item. *)
Fixpoint pop_last {A} (l : list A) : option (list A * A) :=
  match l with
  | [] => None
  | [x] => Some ([], x)
  | x :: l' =>
      match pop_last l' with
      | Some (init, last) => Some (x :: init, last)
      | None => None
      end
  end.

Definition save_checkpoint (logdir : option string) (checkpoint : pyval)
    (is_best : bool) (save_n_best : Z) : M world unit :=
  epoch <- lift (match checkpoint with
                 | PyDict d => match dict_get "epoch" d with
                               | Some v => Ok v
                               | None => Ok (PyStr "")
                               end
                 | _ => Raise AttributeError
                 end) ;;
  filepath <- helpers_save_checkpoint logdir checkpoint is_best (py_str epoch) ;;
  w <- get ;;
  valid_metrics <- lift (getitem checkpoint "valid_metrics") ;;
  metric <- lift (getitem valid_metrics (main_metric (self w))) ;;
  modify (fun w => set_self
                     (set_top_best_metrics
                        (top_best_metrics (self w) ++ [(filepath, metric)])
                        (self w)) w) ;;
  w <- get ;;
  l <- lift (sorted (negb (minimize (self w))) (top_best_metrics (self w))) ;;
  modify (fun w => set_self (set_top_best_metrics l (self w)) w) ;;
  w <- get ;;
  if (Z.of_nat (length (top_best_metrics (self w))) >? save_n_best)%Z then
    match pop_last (top_best_metrics (self w)) with
    | Some (rest, last_item) =>
        modify (set_self (set_top_best_metrics rest (self w))) ;;
        let last_filepath := fst last_item in
        os_remove last_filepath
    | None => raise IndexError
    end
  else ret tt.

Definition prepare_checkpoint := helpers_prepare_checkpoint.

Definition on_mode_start : M world unit :=
  w <- get ;;
  match resume (self w) with
  | Some filename => load_checkpoint filename
  | None => ret tt
  end.

Definition on_train_start : M world unit := on_mode_start.
Definition on_infer_start : M world unit := on_mode_start.

Definition on_epoch_end : M world unit :=
  w <- get ;;
  if negb (String.prefix "valid" (RunState.loader_mode (state w))) then ret tt
  else
    r <- lift (process_epoch_metrics
                 (RunState.epoch_metrics (state w)) (RunState.best_metrics (state w))
                 (main_metric (self w)) (minimize (self w))) ;;
    let '(best_metrics, valid_metrics, is_best) := r in
    valid_items <- lift (items valid_metrics) ;;
    let valid_metrics := PyDict (only_floats valid_items) in
    best_items <- lift (items best_metrics) ;;
    modify (fun w => set_state
                       (RunState.set_best_metrics (PyDict (only_floats best_items))
                                                  (state w)) w) ;;
    w <- get ;;
    let checkpoint :=
      prepare_checkpoint (model w) (optimizer w) (scheduler w) valid_metrics
        (RunState.epoch_metrics (state w)) (RunState.best_metrics (state w))
        (RunState.epoch (state w)) in
    save_checkpoint (logdir (self w)) checkpoint is_best (save_n_best (self w)).

(** The save events of a run, one after the other, with the directory
    and the bound the callback was built with. *)
Fixpoint save_all (events : list (pyval * bool)) : M world unit :=
  match events with
  | [] => ret tt
  | (checkpoint, is_best) :: events' =>
      w <- get ;;
      save_checkpoint (logdir (self w)) checkpoint is_best (save_n_best (self w)) ;;
      save_all events'
  end.

End External.

End CheckpointCallback.

(** * Properties of OneCycleLR *)

Module OneCycleLRSpec.
Import OneCycleLR.

(** The schedule as the documentation words it: the fraction of the way
    to the peak at iteration [i], and the learning rate there. *)
Definition percent_spec (total_iter cut_point i : Z) : Q :=
  if (i <=? cut_point)%Z
  then inject_Z i / inject_Z cut_point
  else 1 - (inject_Z i - inject_Z cut_point)
           / (inject_Z total_iter - inject_Z cut_point).

Definition lr_spec (init_lr : Q) (div total_iter cut_point i : Z) : Q :=
  init_lr * (1 + percent_spec total_iter cut_point i * (inject_Z div - 1))
  / inject_Z div.

(** The momentum the code computes at iteration [i]: the interpolation
    runs on the complement of the learning-rate fraction. *)
Definition momentum_spec (momentum_range : Q * Q) (total_iter cut_point i : Z) : Q :=
  snd momentum_range
  + (1 - percent_spec total_iter cut_point i)
    * (fst momentum_range - snd momentum_range).

(** The momentum as the documentation words it: the same interpolation
    on the learning-rate fraction itself. *)
Definition momentum_same_percent (momentum_range : Q * Q)
    (total_iter cut_point i : Z) : Q :=
  snd momentum_range
  + percent_spec total_iter cut_point i
    * (fst momentum_range - snd momentum_range).

(** The schedule placed at iteration [i] of its cycle. *)
Definition at_iter (i : Z) (s : t) : t := set_cycle i (cycle_count s) s.

(** What [on_loader_start] fixes on a training loader of length [len]. *)
Definition fixed (len : Z) (s : t) : t :=
  set_cut_point (len * cycle_len s / cut_div s)%Z
    (set_total_iter (len * cycle_len s)%Z s).

(** The state in which the [k]-th call (counted from 0) runs. *)
Fixpoint after_calls (k : nat) (s : t) : t :=
  match k with
  | O => s
  | S k' => snd (calc_lr (after_calls k' s))
  end.

(** A schedule with [total_iter = 100] and [cut_point = 25]. *)
Definition one_cycle_example : LRUpdater.world t :=
  LRUpdater.mk_world
    (__init__ 1 1 10 4 (95 # 100, 85 # 100) "main")
    (RunState.mk "train" true 100 PyNone PyNone [] ∅ ∅)
    [("main", Torch.mk_optimizer [Torch.mk_group [] 1 None None (Some (9 # 10))])].

End OneCycleLRSpec.

(** * Properties of LRFinder *)

Module LRFinderSpec.
Import LRFinder.

(** The state in which the [k]-th call (counted from 0) runs. *)
Fixpoint after_calls (k : nat) (s : t) : t :=
  match k with
  | O => s
  | S k' => snd (calc_lr (after_calls k' s))
  end.

(** A stand-in for the float power, used where a closed example needs
    one: about [100000 ** 0.1] whatever the arguments. *)
Definition float_pow_example (x y : Q) : Q := 316228 # 100000.

Definition finder_example : LRUpdater.world t :=
  LRUpdater.mk_world
    (__init__ (1 # 100000) 1 (Some 10%Z) "main")
    (RunState.mk "train" true 50 PyNone PyNone [] ∅ ∅)
    [("main", Torch.mk_optimizer [Torch.mk_group [] 1 None None None])].

(** The same finder on a training loader of four batches. *)
Definition short_finder_example : LRUpdater.world t :=
  LRUpdater.mk_world
    (__init__ (1 # 100000) 1 (Some 10%Z) "main")
    (RunState.mk "train" true 4 PyNone PyNone [] ∅ ∅)
    [("main", Torch.mk_optimizer [Torch.mk_group [] 1 None None None])].

End LRFinderSpec.

(** * Properties of BasicOptimizerCallback *)

Module OptimizerSpec.
Import Torch BasicOptimizerCallback.

(** The weight decay an optimizer is configured with:
    [param_groups[0].get("weight_decay", 0.0)]. *)
Definition configured_wd (o : Torch.optimizer) : Q :=
  match param_groups o with
  | g0 :: _ => match weight_decay g0 with Some v => v | None => 0%Q end
  | [] => 0%Q
  end.

(** [param_groups[0]["weight_decay"] = v] *)
Definition with_wd (v : Q) (o : Torch.optimizer) : Torch.optimizer :=
  match param_groups o with
  | g0 :: gs => set_param_groups (set_weight_decay v g0 :: gs) o
  | [] => o
  end.

(** What [on_epoch_start] leaves in the optimizer dict and in
    [self.optimizer_wds]. *)
Definition zeroed_item (item : string * Torch.optimizer) : string * Torch.optimizer :=
  let (key, o) := item in
  (key, if Qlt_le_dec 0 (configured_wd o) then with_wd 0 o else o).

Definition wds_of (acc : dict Q) (l : dict Torch.optimizer) : dict Q :=
  fold_left (fun acc item =>
               if Qlt_le_dec 0 (configured_wd (snd item))
               then dict_set (fst item) (configured_wd (snd item)) acc
               else acc) l acc.

Definition has_groups (item : string * Torch.optimizer) : Prop :=
  param_groups (snd item) <> [].

(** What [on_epoch_end] leaves in the optimizer dict. *)
Definition restored (wds : dict Q) (d : dict Torch.optimizer) : dict Torch.optimizer :=
  fold_left (fun d item =>
               match dict_get (fst item) d with
               | Some o => dict_set (fst item) (with_wd (snd item) o) d
               | None => d
               end) wds d.

Definition has_optimizer (d : dict Torch.optimizer) (item : string * Q) : Prop :=
  exists o, dict_get (fst item) d = Some o /\ param_groups o <> [].

(** The update as the documentation words it: decay when it is active,
    clipping whenever it is configured, then the optimizer's own step. *)
Definition grad_step_item_spec (step : Torch.optimizer -> Torch.optimizer)
    (clip_grad_norm_ : list param -> Q -> list param)
    (s : t) (key : string) (value : Torch.optimizer) : Torch.optimizer :=
  let decay g :=
    match dict_get key (optimizer_wds s) with
    | Some wd => map (decay_param wd (lr g)) (params g)
    | None => params g
    end in
  let clip ps :=
    match grad_clip s with
    | Some c => clip_grad_norm_ ps c
    | None => ps
    end in
  step (set_param_groups
          (map (fun g => set_params (clip (decay g)) g) (param_groups value)) value).

(** Stand-ins for the library, used where a closed example needs them:
    plain gradient descent for [step], and clipping of the 1-norm of the
    gradients for [clip_grad_norm_]. *)
Definition sgd_param (lr_ : Q) (p : param) : param :=
  set_data (tadd (data p) (tscale (- lr_) (grad p))) p.
Definition sgd_step (o : Torch.optimizer) : Torch.optimizer :=
  set_param_groups
    (map (fun g => set_params (map (sgd_param (lr g)) (params g)) g) (param_groups o)) o.

Definition norm1 (ps : list param) : Q :=
  fold_right Qplus 0%Q (flat_map (fun p => map Qabs (grad p)) ps).
Definition clip_norm1 (ps : list param) (max_norm : Q) : list param :=
  if Qlt_le_dec max_norm (norm1 ps)
  then map (fun p => set_grad (tscale (max_norm / norm1 ps) (grad p)) p) ps
  else ps.

Definition gradient_example (name : string) : list Q := [10%Q].

Definition state_example (train : bool) : RunState.t :=
  RunState.mk "train" train 10 PyNone PyNone [] ∅ ∅.

(** One optimizer without weight decay, clipping configured. *)
Definition no_decay_example : world :=
  mk_world (mk [] (Some 1%Q) false 128)
           (state_example true)
           (Network [])
           [("main", mk_optimizer
                       [mk_group [mk_param "w" [1%Q] [0%Q] true] (1 # 10) None None None])].

(** Reduced precision, no optimizer configured. *)
Definition fp16_empty_example : world :=
  mk_world (mk [] None true 128)
           (state_example true)
           (Fp16Wrap (Network [mk_param "w" [1%Q] [0%Q] true]))
           [].

(** One optimizer with [weight_decay = 0.1] and [lr = 0.01]. *)
Definition decay_optimizer_example : Torch.optimizer :=
  mk_optimizer
    [mk_group [mk_param "w" [2%Q] [0%Q] true] (1 # 100) (Some (1 # 10)) None None].

Definition decay_example : world :=
  mk_world (mk [] None false 128) (state_example true) (Network [])
           [("main", decay_optimizer_example)].



(** Reduced precision, one optimizer, registered under [key]. *)
Definition fp16_example (key : string) : world :=
  mk_world (mk [] None true 128)
           (state_example true)
           (Fp16Wrap (Network [mk_param "w" [1%Q] [0%Q] true]))
           [(key, mk_optimizer
                    [mk_group [mk_param "master" [1%Q] [0%Q] true] (1 # 10) None None None])].

End OptimizerSpec.

(** * Properties of CheckpointCallback *)

Module CheckpointSpec.
Import Torch CheckpointCallback.

(** The number stored under [key] in a metrics dict. *)
Definition metric_of (metrics : dict pyval) (key : string) : result Q :=
  match dict_get key metrics with
  | Some v => number v
  | None => Raise KeyError
  end.

(** An entry whose metric is an ordered number: an [int] or a [float]
    other than [nan]; and the rational it is ranked by. *)
Definition ordered (x : string * pyval) : Prop := exists q, number (snd x) = Ok q.

Definition key_of (x : string * pyval) : Q :=
  match number (snd x) with
  | Ok q => q
  | Raise _ => 0%Q
  end.

(** [a] is at least as good as [b] under the comparison order. *)
Definition better_eq (minimize : bool) (a b : string * pyval) : Prop :=
  if minimize then (key_of a <= key_of b)%Q else (key_of b <= key_of a)%Q.

(** The stable sort on the metric, ascending when [minimize] and
    descending otherwise: entries with equal metrics keep their order. *)
Definition precedes (minimize : bool) (x y : string * pyval) : bool :=
  if minimize then negb (Qle_bool (key_of y) (key_of x))
  else negb (Qle_bool (key_of x) (key_of y)).

Fixpoint insert (minimize : bool) (x : string * pyval) (l : list (string * pyval))
  : list (string * pyval) :=
  match l with
  | [] => [x]
  | y :: l' =>
      if precedes minimize y x then y :: insert minimize x l' else x :: y :: l'
  end.

Fixpoint stable_sort (minimize : bool) (l : list (string * pyval))
  : list (string * pyval) :=
  match l with
  | [] => []
  | x :: l' => insert minimize x (stable_sort minimize l')
  end.

(** What the language promises of [sorted]: on metrics that are ordered
    numbers it returns the list stably sorted, ascending, or descending
    under [reverse] (which keeps equal entries in their order too). On
    other lists nothing is assumed. *)
Definition sorts_numbers
    (sorted : bool -> list (string * pyval) -> result (list (string * pyval)))
  : Prop :=
  forall reverse l,
    Forall ordered l -> sorted reverse l = Ok (stable_sort (negb reverse) l).

(** The path a save writes to, and the metric it reads. *)
Definition epoch_of (checkpoint : pyval) : result pyval :=
  match checkpoint with
  | PyDict d => match dict_get "epoch" d with
                | Some v => Ok v
                | None => Ok (PyStr "")
                end
  | _ => Raise AttributeError
  end.

Definition metric_read (checkpoint : pyval) (main_metric : string) : result pyval :=
  match getitem checkpoint "valid_metrics" with
  | Ok valid_metrics => getitem valid_metrics main_metric
  | Raise e => Raise e
  end.

(** The metric as a number, when it is an ordered one. *)
Definition ranked_by (checkpoint : pyval) (main_metric : string) : result Q :=
  match metric_read checkpoint main_metric with
  | Ok metric => number metric
  | Raise e => Raise e
  end.

(** A checkpoint whose metric, when the save can read one, is an ordered
    number. *)
Definition rankable (checkpoint : pyval) (main_metric : string) : Prop :=
  forall metric,
    metric_read checkpoint main_metric = Ok metric -> exists q, number metric = Ok q.

(** The files after the helper has written [checkpoint] to [path] and,
    when [is_best], to the best file [best]. *)
Definition written (best path : string) (checkpoint : pyval) (is_best : bool)
    (files : gmap string pyval) : gmap string pyval :=
  if is_best then <[best := checkpoint]> (<[path := checkpoint]> files)
  else <[path := checkpoint]> files.

(** The world with the retained list [l] and the files [files]. *)
Definition retaining (l : list (string * pyval)) (files : gmap string pyval) (w : world)
  : world :=
  set_fs files (set_self (set_top_best_metrics l (self w)) w).

(** The retained list holds ordered numbers, is sorted best first and
    is within the bound. *)
Definition bounded_sorted (w : world) : Prop :=
  Forall ordered (top_best_metrics (self w)) /\
  Sorted (better_eq (minimize (self w))) (top_best_metrics (self w)) /\
  (Z.of_nat (length (top_best_metrics (self w))) <= save_n_best (self w))%Z.

(** Every retained entry names its own file, and the file is there. *)
Definition files_kept (w : world) : Prop :=
  List.NoDup (map fst (top_best_metrics (self w))) /\
  Forall (fun e => is_Some (fs w !! fst e)) (top_best_metrics (self w)).

(** Save events whose metric is an ordered number, with the paths they
    write to. *)
Definition saves_to (py_str : pyval -> string)
    (checkpoint_path : option string -> string -> string)
    (logdir : option string) (main_metric : string)
    (events : list (pyval * bool)) (paths : list string) : Prop :=
  Forall2 (fun ev p =>
             (exists epoch, epoch_of (fst ev) = Ok epoch /\
                            p = checkpoint_path logdir (py_str epoch)) /\
             (exists v, ranked_by (fst ev) main_metric = Ok v))
          events paths.

(** Methods that leave the run state alone. *)
Definition keeps_state {A} (m : M world A) : Prop :=
  forall w, state (snd (m w)) = state w.

(** Stand-ins for the library and the helpers, used where a closed
    example needs them. *)
Definition load_example (m : Torch.model) (sd : pyval) : result Torch.model := Ok m.
Definition load_optimizer_example (o : Torch.optimizer) (sd : pyval)
  : result Torch.optimizer := Ok o.
Definition state_dict_example (m : Torch.model) : pyval := PyDict [].
Definition optimizer_state_dict_example (o : Torch.optimizer) : pyval := PyDict [].
Definition str_example (v : pyval) : string :=
  match v with
  | PyInt z => String (Ascii.ascii_of_N (48 + Z.to_N z)) ""
  | PyStr s => s
  | _ => "?"
  end.
Definition checkpoint_path_example (logdir : option string) (suffix : string) : string :=
  "checkpoint." +:+ suffix +:+ ".pth.tar".
Definition best_path_example (logdir : option string) : string :=
  "checkpoint.best.pth.tar".

(** A maximizing callback at the end of a validation loader whose
    accuracy ties the best one seen so far. *)
Definition tie_example : world :=
  mk_world
    (__init__ None 5 None "accuracy" false)
    (RunState.mk "valid" false 10 (PyInt 3)
       (PyDict [("accuracy", PyFloat (1 # 2))])
       [("train", PyDict [("accuracy", PyFloat (3 # 4))]);
        ("valid", PyDict [("accuracy", PyFloat (1 # 2)); ("loss", PyFloat (7 # 10))])]
       ∅ ∅)
    ∅ None None None.

(** A minimizing callback that keeps two checkpoints, and the
    checkpoint saved at the end of [epoch] with validation loss [loss]. *)
Definition retention_example : world :=
  mk_world (__init__ (Some "logs") 2 None "loss" true)
           (RunState.mk "valid" false 10 (PyInt 0) PyNone [] ∅ ∅)
           ∅ None None None.

Definition checkpoint_example (epoch : Z) (loss : Q) : pyval :=
  PyDict [("epoch", PyInt epoch); ("valid_metrics", PyDict [("loss", PyFloat loss)])].

(** The same with any value as the validation loss. *)
Definition checkpoint_with (epoch : Z) (loss : pyval) : pyval :=
  PyDict [("epoch", PyInt epoch); ("valid_metrics", PyDict [("loss", loss)])].

(** *** A stand-in for [sorted]

    CPython's [list.sort] on a list of fewer than 64 items, which is all
    the examples sort: [count_run] takes the longest run at the front that
    is ascending ([next < previous] never holds) or strictly descending
    (and reverses that one), and every remaining item is placed in the
    sorted part by bisection, to the right of the items it is not less
    than. Only [<] on the keys is asked. Under [reverse] the list is
    reversed before and after. *)
Section ListSort.
Context {A : Type} (lt : A -> A -> bool).

Fixpoint run_while (keep : A -> A -> bool) (prev : A) (l : list A)
  : list A * list A :=
  match l with
  | x :: l' =>
      if keep x prev
      then let (run, rest) := run_while keep x l' in (x :: run, rest)
      else ([], l)
  | [] => ([], [])
  end.

Definition count_run (l : list A) : list A * list A :=
  match l with
  | x0 :: x1 :: l' =>
      if lt x1 x0
      then let (run, rest) := run_while lt x1 l' in
           (rev (x0 :: x1 :: run), rest)
      else let (run, rest) := run_while (fun x prev => negb (lt x prev)) x1 l' in
           (x0 :: x1 :: run, rest)
  | _ => (l, [])
  end.

Fixpoint bisect (fuel : nat) (pivot : A) (s : list A) (l r : nat) : nat :=
  match fuel with
  | O => l
  | S fuel' =>
      if (l <? r)%nat then
        let p := (l + (r - l) / 2)%nat in
        match s !! p with
        | Some y => if lt pivot y then bisect fuel' pivot s l p
                    else bisect fuel' pivot s (S p) r
        | None => l
        end
      else l
  end.

Definition binary_insert (s : list A) (pivot : A) : list A :=
  let pos := bisect (S (length s)) pivot s 0 (length s) in
  (take pos s ++ pivot :: drop pos s)%list.

Definition list_sort (reverse : bool) (l : list A) : list A :=
  let a := if reverse then rev l else l in
  let (run, rest) := count_run a in
  let s := fold_left binary_insert rest run in
  if reverse then rev s else s.

End ListSort.

(** [<] on the metrics of two entries that are numbers or [nan]: with
    [nan] on either side it is [False]. *)
Definition key_lt (x y : string * pyval) : bool :=
  match number (snd x), number (snd y) with
  | Ok a, Ok b => negb (Qle_bool b a)
  | _, _ => false
  end.

Definition is_number_or_nan (x : string * pyval) : bool :=
  match snd x with PyInt _ | PyFloat _ | PyNaN => true | _ => false end.

(** The stand-in: the list sort when every metric is a number or [nan].
    A list with a metric of another kind is returned as it is when it has
    at most one item (no comparison is made) and raises [TypeError]
    otherwise, as the comparison of a number with [None] does; metrics
    that compare among themselves without being numbers are not needed by
    the examples. *)
Definition sorted_example (reverse : bool) (l : list (string * pyval))
  : result (list (string * pyval)) :=
  if forallb is_number_or_nan l then Ok (list_sort key_lt reverse l)
  else match l with
       | [] | [_] => Ok l
       | _ => Raise TypeError
       end.

(** The entries of [l] whose metric equals [k], in the order they have
    in [l]: a sort is stable when it keeps these for every [k]. *)
Definition with_key (k : Q) (l : list (string * pyval)) : list (string * pyval) :=
  List.filter (fun x => Qeq_bool (key_of x) k) l.

End CheckpointSpec.

(** * Resuming from a checkpoint *)

Module ResumeSpec.
Import Torch CheckpointCallback.

(** The module that receives [load_state_dict]: the model without its
    [DataParallel] layer, then without its [Fp16Wrap] layer; and the model
    with that module replaced. *)
Definition without_parallel (m : Torch.model) : Torch.model :=
  match m with DataParallel module => module | _ => m end.
Definition without_fp16 (m : Torch.model) : Torch.model :=
  match m with Fp16Wrap network => network | _ => m end.
Definition unwrapped (m : Torch.model) : Torch.model :=
  without_fp16 (without_parallel m).

Definition rewrapped (m inner : Torch.model) : Torch.model :=
  let fp16 x := match without_parallel m with Fp16Wrap _ => Fp16Wrap x | _ => x end in
  match m with
  | DataParallel _ => DataParallel (fp16 inner)
  | _ => fp16 inner
  end.

(** An optimizer after [load_state_dict] of the blob stored under its
    key, and a scheduler entry after its replacement. *)
Definition optimizer_loaded
    (optimizer_load_state_dict : Torch.optimizer -> pyval -> result Torch.optimizer)
    (checkpoint : pyval) (old new : string * Torch.optimizer) : Prop :=
  fst new = fst old /\
  exists sd,
    getitem checkpoint ("optimizer_" +:+ fst old +:+ "_state_dict") = Ok sd /\
    optimizer_load_state_dict (snd old) sd = Ok (snd new).

Definition scheduler_replaced (checkpoint : pyval) (old new : string * pyval) : Prop :=
  fst new = fst old /\
  getitem checkpoint ("scheduler_" +:+ fst old) = Ok (snd new).

(** The model after the load, when there is a model. *)
Definition model_loaded
    (module_load_state_dict : Torch.model -> pyval -> result Torch.model)
    (checkpoint : pyval) (old new : option Torch.model) : Prop :=
  match old with
  | None => new = None
  | Some m =>
      exists sd inner,
        getitem checkpoint "model_state_dict" = Ok sd /\
        module_load_state_dict (unwrapped m) sd = Ok inner /\
        new = Some (rewrapped m inner)
  end.

(** A resuming callback, a checkpoint on disk, and a wrapped model. *)
Definition stored_example : pyval :=
  PyDict [("epoch", PyInt 7);
          ("best_metrics", PyDict [("loss", PyFloat (1 # 4))]);
          ("model_state_dict", PyDict [("w", PyTensor [1%Q])]);
          ("optimizer_main_state_dict", PyDict []);
          ("scheduler_main", PyDict [("last_epoch", PyInt 7)])].

Definition resume_example (files : gmap string pyval) : world :=
  mk_world (__init__ None 5 (Some "last.pth.tar") "loss" true)
           (RunState.mk "train" true 10 (PyInt 0) PyNone [] ∅ ∅)
           files
           (Some (DataParallel (Fp16Wrap (Network [mk_param "w" [0%Q] [0%Q] true]))))
           (Some [("main", mk_optimizer [])])
           (Some [("main", PyDict [("last_epoch", PyInt 0); ("gamma", PyFloat (1 # 2))])]).

(** A stand-in for [load_state_dict] of a module: the stored tensors
    become the module's parameter values. *)
Definition load_values_example (m : Torch.model) (sd : pyval) : result Torch.model :=
  match m, sd with
  | Network ps, PyDict d =>
      Ok (Network (map (fun p => match dict_get (name p) d with
                                 | Some (PyTensor t) => set_data t p
                                 | _ => p
                                 end) ps))
  | _, _ => Raise KeyError
  end.

End ResumeSpec.

(** * Further properties of the learning-rate updaters *)

Module UpdaterSpec.

(** The run state with both readouts of [key] forced to 0. *)
Definition readouts_zeroed (key : string) (s : RunState.t) : RunState.t :=
  RunState.set_momentum key 0 (RunState.set_lr key 0 s).

(** What [update_momentum] does to one parameter group. *)
Definition with_first_beta (v : Q) (g : Torch.param_group) : Torch.param_group :=
  match Torch.betas g with
  | Some b => Torch.set_betas (v, snd b) g
  | None => g
  end.

Definition has_betas (g : Torch.param_group) : Prop := is_Some (Torch.betas g).

(** An optimizer whose groups all carry the field that the first group
    selects: [update_momentum] does not raise on it. *)
Definition momentum_ready (o : Torch.optimizer) : Prop :=
  match Torch.param_groups o with
  | [] => False
  | g0 :: _ =>
      Torch.betas g0 = None \/ Forall has_betas (Torch.param_groups o)
  end.

(** The groups after a successful [update_momentum]. *)
Definition momentum_written (m : Q) (gs : list Torch.param_group)
  : list Torch.param_group :=
  match gs with
  | [] => []
  | g0 :: _ =>
      match Torch.betas g0 with
      | Some _ => map (with_first_beta m) gs
      | None => map (Torch.set_momentum m) gs
      end
  end.

(** A validation loader for the one-cycle example. *)
Definition validation_example : LRUpdater.world OneCycleLR.t :=
  LRUpdater.mk_world
    (OneCycleLR.__init__ 1 1 10 4 (95 # 100, 85 # 100) "main")
    (RunState.mk "valid" false 20 PyNone PyNone [] ∅ ∅)
    [].

(** A parameter group of the Adam kind, one of the SGD kind, and an
    optimizer whose second group has no ["betas"]. *)
Definition adam_group (b : Q * Q) : Torch.param_group :=
  Torch.mk_group [] (1 # 1000) None (Some b) None.
Definition sgd_group : Torch.param_group :=
  Torch.mk_group [] (1 # 100) None None (Some (9 # 10)).
Definition mixed_example : Torch.optimizer :=
  Torch.mk_optimizer [adam_group (9 # 10, 999 # 1000); sgd_group].

(** A range finder with [n_steps] unset, on a validation loader and on
    an empty training loader. *)
Definition validation_finder_example : LRUpdater.world LRFinder.t :=
  LRUpdater.mk_world
    (LRFinder.__init__ (1 # 100000) 1 None "main")
    (RunState.mk "valid" false 20 PyNone PyNone [] ∅ ∅)
    [("main", Torch.mk_optimizer [Torch.mk_group [] 1 None None None])].
Definition empty_finder_example : LRUpdater.world LRFinder.t :=
  LRUpdater.mk_world
    (LRFinder.__init__ (1 # 100000) 1 None "main")
    (RunState.mk "train" true 0 PyNone PyNone [] ∅ ∅)
    [("main", Torch.mk_optimizer [Torch.mk_group [] 1 None None None])].

(** A range finder from 1 to 1024 in 10 steps: the exact root is 2. *)
Definition doubling_finder_example : LRUpdater.world LRFinder.t :=
  LRUpdater.mk_world
    (LRFinder.__init__ 1 1024 (Some 10%Z) "main")
    (RunState.mk "train" true 50 PyNone PyNone [] ∅ ∅)
    [("main", Torch.mk_optimizer [Torch.mk_group [] 1 None None None])].

(** The one-cycle example after its loader-start has fixed the cycle. *)
Definition prepared_example : LRUpdater.world OneCycleLR.t :=
  LRUpdater.set_self
    (OneCycleLRSpec.fixed 100 (LRUpdater.self OneCycleLRSpec.one_cycle_example))
    OneCycleLRSpec.one_cycle_example.

(** The base class on a training loader, with no optimizer at all. *)
Definition base_example : LRUpdater.world LRUpdater.t :=
  LRUpdater.mk_world (LRUpdater.mk (1 # 10) "main")
    (RunState.mk "train" true 50 PyNone PyNone [] ∅ ∅) [].

End UpdaterSpec.

(** * Further properties of BasicOptimizerCallback *)

Module BracketSpec.
Import Torch BasicOptimizerCallback OptimizerSpec.

(** Two optimizers, the first with [weight_decay = 0.1], the second
    without the field; and a stale record from an earlier epoch. *)
Definition plain_optimizer_example : Torch.optimizer :=
  mk_optimizer [mk_group [mk_param "v" [3%Q] [0%Q] true] (1 # 10) None None None].

Definition two_optimizers_example : world :=
  mk_world (mk [("old", 5%Q)] None false 128) (state_example true) (Network [])
           [("main", decay_optimizer_example); ("aux", plain_optimizer_example)].

(** An optimizer without parameter groups after a regular one. *)
Definition broken_example : world :=
  mk_world (mk [] None false 128) (state_example true) (Network [])
           [("main", decay_optimizer_example); ("empty", mk_optimizer []);
            ("aux", decay_optimizer_example)].

(** The gradient a parameter carries into the optimizer's step: the
    gradient of this batch's loss, and zero for a parameter that takes no
    gradient. *)
Definition fresh_grad (loss_grad : string -> list Q) (p : param) : Prop :=
  if requires_grad p
  then Forall2 Qeq (grad p) (loss_grad (name p))
  else Forall (Qeq 0) (grad p).

Definition all_params (o : Torch.optimizer) : list param :=
  flat_map params (param_groups o).

(** A parameter with a gradient left over from an earlier batch. *)
Definition stale_grad_example : world :=
  mk_world (mk [] None false 128) (state_example true) (Network [])
           [("main", mk_optimizer
                       [mk_group [mk_param "w" [1%Q] [7%Q] true] (1 # 10) None None None])].

(** Reduced precision with a gradient scale of 128. *)
Definition scaled_example : world :=
  mk_world (mk [] None true 128)
           (state_example true)
           (Fp16Wrap (Network [mk_param "w" [1%Q] [7%Q] true]))
           [("main", mk_optimizer
                       [mk_group [mk_param "master" [1%Q] [0%Q] true] (1 # 10) None None None])].

(** The shapes agree: the loss gradient of a parameter has as many
    entries as the parameter's gradient buffer. *)
Definition grad_shaped (loss_grad : string -> list Q) (p : param) : Prop :=
  length (grad p) = length (loss_grad (name p)).

End BracketSpec.

(** * Further properties of CheckpointCallback *)

Module EpochEndSpec.
Import Torch CheckpointCallback CheckpointSpec.

(** No key of the metrics dict starts with ["valid"]. *)
Definition no_valid (em : dict pyval) : Prop :=
  Forall (fun kv => String.prefix "valid" (fst kv) = false) em.

(** A full retained list of two, and a newcomer that ties the worst. *)
Definition full_example : world :=
  mk_world
    (mk (Some "logs") 2 None "loss" true
        [("checkpoint.1.pth.tar", PyFloat (3 # 10));
         ("checkpoint.2.pth.tar", PyFloat (4 # 10))])
    (RunState.mk "valid" false 10 (PyInt 3) PyNone [] ∅ ∅)
    (<["checkpoint.1.pth.tar" := checkpoint_example 1 (3 # 10)]>
       (<["checkpoint.2.pth.tar" := checkpoint_example 2 (4 # 10)]> ∅))
    None None None.

(** The end of a first validation epoch with two validation loaders;
    [loss] is the main metric's value in the last one. *)
Definition first_epoch_example (loss : pyval) : world :=
  mk_world
    (__init__ (Some "logs") 2 None "loss" true)
    (RunState.mk "valid_2" false 10 (PyInt 0) PyNone
       [("train", PyDict [("loss", PyFloat (9 # 10))]);
        ("valid", PyDict [("loss", PyFloat (8 # 10))]);
        ("valid_2", PyDict [("loss", loss); ("count", PyInt 4)])]
       ∅ ∅)
    ∅ None None None.

(** A checkpoint file without the key ["best_metrics"]. *)
Definition truncated_example : pyval := PyDict [("epoch", PyInt 7)].

End EpochEndSpec.

(** * Proofs *)

Section OneCycleFacts.
Import OneCycleLR OneCycleLRSpec.
Local Open Scope Q_scope.

Lemma truediv_nonzero (a : Q) (b : Z) :
  b <> 0%Z -> truediv a (inject_Z b) = Ok (a / inject_Z b)%Q.
Proof.
  intros Hb. unfold truediv.
  destruct (Qeq_bool (inject_Z b) 0) eqn:E; [|reflexivity].
  apply Qeq_bool_iff in E. unfold Qeq in E. simpl in E. lia.
Qed.

Lemma inject_Z_sub (a b : Z) : inject_Z (a - b) == inject_Z a - inject_Z b.
Proof. unfold Z.sub. rewrite inject_Z_plus, inject_Z_opp. reflexivity. Qed.

(** One call in a state whose counter is inside the cycle. *)
Lemma calc_lr_step (s : t) (total cut : Z) :
  total_iter s = Some total -> cut_point s = Some cut ->
  (0 <= cycle_iter s < total)%Z -> cut <> 0%Z -> div s <> 0%Z ->
  exists v,
    calc_lr s =
      (Ok v, set_cycle (if decide (cycle_iter s + 1 = total)%Z then 0 else cycle_iter s + 1)%Z
                       (if decide (cycle_iter s + 1 = total)%Z then cycle_count s + 1 else cycle_count s)%Z s)
    /\ v == lr_spec (init_lr s) (div s) total cut (cycle_iter s).
Proof.
  intros Ht Hc Hi Hcut Hdiv.
  unfold calc_lr, bind, get, lift, ret, modify, the_int. rewrite Hc. cbn [of_option].
  destruct (cycle_iter s >? cut)%Z eqn:Hgt.
  - rewrite Ht. cbn [of_option].
    rewrite truediv_nonzero by lia.
    rewrite truediv_nonzero by assumption.
    cbn [cycle_iter set_cycle total_iter]. rewrite Ht.
    eexists. split.
    + destruct (option_eq_dec _ _) as [E|E]; destruct (decide _) as [D|D];
        try reflexivity.
      * exfalso. apply D. congruence.
      * exfalso. apply E. congruence.
    + unfold lr_spec, percent_spec.
      destruct (cycle_iter s <=? cut)%Z eqn:Hle; [lia|].
      rewrite !inject_Z_sub. reflexivity.
  - rewrite truediv_nonzero by lia.
    rewrite truediv_nonzero by assumption.
    cbn [cycle_iter set_cycle total_iter]. rewrite Ht.
    eexists. split.
    + destruct (option_eq_dec _ _) as [E|E]; destruct (decide _) as [D|D];
        try reflexivity.
      * exfalso. apply D. congruence.
      * exfalso. apply E. congruence.
    + unfold lr_spec, percent_spec.
      destruct (cycle_iter s <=? cut)%Z eqn:Hle; [|lia].
      rewrite !inject_Z_sub. reflexivity.
Qed.

Lemma mod_succ (k total : Z) :
  (0 < total)%Z ->
  ((k + 1) mod total = if decide (k mod total + 1 = total) then 0 else k mod total + 1)%Z.
Proof.
  intros Ht.
  pose proof (Z.mod_pos_bound k total Ht) as Hb.
  pose proof (Z.div_mod k total ltac:(lia)) as Hk.
  destruct (decide _) as [D|D]; symmetry.
  - apply Z.mod_unique with (q := (k / total + 1)%Z); lia.
  - apply Z.mod_unique with (q := (k / total)%Z); lia.
Qed.

(** The configuration is kept and the counter is the number of calls
    made so far, modulo [total_iter]. *)
Lemma after_calls_inv (s : t) (total cut : Z) (k : nat) :
  total_iter s = Some total -> cut_point s = Some cut ->
  cycle_iter s = 0%Z -> (0 < total)%Z -> cut <> 0%Z -> div s <> 0%Z ->
  let s' := after_calls k s in
  total_iter s' = Some total /\ cut_point s' = Some cut /\
  div s' = div s /\ init_lr s' = init_lr s /\
  momentum_range s' = momentum_range s /\
  cycle_iter s' = (Z.of_nat k mod total)%Z /\
  cycle_len s' = cycle_len s /\ cut_div s' = cut_div s.
Proof.
  intros Ht Hc Hi Hpos Hcut Hdiv. induction k as [|k IH].
  - cbn. rewrite Hi, Z.mod_0_l by lia. tauto.
  - cbn zeta in *. destruct IH as (IHt & IHc & IHd & IHl & IHm & IHi & IHcl & IHcd).
    cbn [after_calls].
    destruct (calc_lr_step (after_calls k s) total cut) as (v & Hv & _);
      try assumption.
    { rewrite IHi. apply Z.mod_pos_bound. lia. }
    { congruence. }
    rewrite Hv. cbn [snd set_cycle total_iter cut_point div init_lr momentum_range
                     cycle_iter cycle_len cut_div].
    repeat split; try assumption.
    rewrite Nat2Z.inj_succ, <- Z.add_1_r, mod_succ by lia.
    rewrite IHi. reflexivity.
Qed.

Lemma floordiv_nonzero (a b : Z) : b <> 0%Z -> floordiv a b = Ok (a / b)%Z.
Proof. intros Hb. unfold floordiv. destruct (Z.eqb_spec b 0); [lia|reflexivity]. Qed.

(** On a training loader, [on_loader_start] fixes [total_iter] and
    [cut_point] and then runs the update of the base class. *)
Lemma on_loader_start_fixes (w : LRUpdater.world t) :
  RunState.is_train (LRUpdater.state w) = true ->
  cut_div (LRUpdater.self w) <> 0%Z ->
  on_loader_start w =
    LRUpdater.on_loader_start
      (LRUpdater.set_self
         (fixed (RunState.loader_len (LRUpdater.state w)) (LRUpdater.self w)) w).
Proof.
  intros Htrain Hcd. unfold on_loader_start at 1, bind, get. rewrite Htrain.
  unfold zoom, modify, lift. cbn [LRUpdater.self LRUpdater.set_self].
  rewrite floordiv_nonzero by assumption. reflexivity.
Qed.

Lemma lr_spec_0 (init_lr : Q) : lr_spec init_lr 10 100 25 0 == init_lr / 10.
Proof. unfold lr_spec, percent_spec. cbn [Z.leb Z.compare]. field. Qed.

Lemma lr_spec_25 (init_lr : Q) : lr_spec init_lr 10 100 25 25 == init_lr.
Proof. unfold lr_spec, percent_spec. cbn. field. Qed.

Lemma lr_spec_99 (init_lr : Q) :
  lr_spec init_lr 10 100 25 99 == init_lr * (84 # 750).
Proof. unfold lr_spec, percent_spec. cbn. field. Qed.

Lemma calc_momentum_pure (s : t) : snd (calc_momentum s) = s.
Proof.
  unfold calc_momentum, bind, get, lift, ret, the_int.
  destruct (cut_point s) as [cut|]; [|reflexivity]. cbn [of_option].
  destruct (cycle_iter s >? cut)%Z.
  - destruct (total_iter s) as [total|]; [|reflexivity]. cbn [of_option].
    destruct (truediv _ _); reflexivity.
  - destruct (truediv _ _); reflexivity.
Qed.

(** C1. On a training loader of length [len], [on_loader_start] fixes
    [total_iter = len * cycle_len] and [cut_point = total_iter // cut_div]
    before the update of the base class runs, and fixing them again at a
    later loader-start of the same length changes nothing, nor does
    [calc_momentum], which runs between two calls; from then on the
    [k]-th call of [calc_lr] (counted from 0) returns
    [init_lr * (1 + percent * (div - 1)) / div] for the iteration index
    [i = k mod total_iter], where [percent = i / cut_point] if
    [i <= cut_point] and [1 - (i - cut_point) / (total_iter - cut_point)]
    otherwise. For [div = 10], [cut_div = 4] and [total_iter = 100] the
    value at [i = 0] is [init_lr / 10], at [i = 25] it is [init_lr], and
    at [i = 99] it lies strictly between the two. *)
Theorem one_cycle_calc_lr (w : LRUpdater.world t) (k : nat) :
  let s0 := LRUpdater.self w in
  let len := RunState.loader_len (LRUpdater.state w) in
  let total := (len * cycle_len s0)%Z in
  let cut := (total / cut_div s0)%Z in
  RunState.is_train (LRUpdater.state w) = true ->
  cycle_iter s0 = 0%Z ->
  (0 < total)%Z -> cut <> 0%Z -> div s0 <> 0%Z ->
  on_loader_start w
    = LRUpdater.on_loader_start (LRUpdater.set_self (fixed len s0) w)
  /\ total_iter (fixed len s0) = Some total
  /\ cut_point (fixed len s0) = Some cut
  /\ fixed len (after_calls k (fixed len s0)) = after_calls k (fixed len s0)
  /\ snd (calc_momentum (after_calls k (fixed len s0))) = after_calls k (fixed len s0)
  /\ (exists v,
        fst (calc_lr (after_calls k (fixed len s0))) = Ok v /\
        v == lr_spec (init_lr s0) (div s0) total cut (Z.of_nat k mod total))
  /\ (div s0 = 10%Z -> cut_div s0 = 4%Z -> total = 100%Z ->
      exists v0 v25 v99,
        fst (calc_lr (after_calls 0 (fixed len s0))) = Ok v0 /\
        fst (calc_lr (after_calls 25 (fixed len s0))) = Ok v25 /\
        fst (calc_lr (after_calls 99 (fixed len s0))) = Ok v99 /\
        v0 == init_lr s0 / 10 /\
        v25 == init_lr s0 /\
        (0 < init_lr s0 -> init_lr s0 / 10 < v99 /\ v99 < init_lr s0)).
Proof.
  intros s0 len total cut Htrain Hi Hpos Hcut Hdiv.
  assert (Hcd : cut_div s0 <> 0%Z).
  { intros E. apply Hcut. unfold cut. rewrite E. apply Z.div_0_r. }
  assert (Hcall : forall n, exists v,
             fst (calc_lr (after_calls n (fixed len s0))) = Ok v /\
             v == lr_spec (init_lr s0) (div s0) total cut (Z.of_nat n mod total)).
  { intros n.
    destruct (after_calls_inv (fixed len s0) total cut n)
      as (Ht & Hc & Hd & Hl & _ & Hn & _); try reflexivity; try assumption.
    destruct (calc_lr_step (after_calls n (fixed len s0)) total cut)
      as (v & Hv & Hspec); try assumption.
    { rewrite Hn. apply Z.mod_pos_bound. lia. }
    { rewrite Hd. assumption. }
    exists v. rewrite Hv. split; [reflexivity|].
    rewrite Hspec, Hl, Hd, Hn. reflexivity. }
  split; [apply on_loader_start_fixes; assumption|].
  split; [reflexivity|]. split; [reflexivity|].
  split.
  { destruct (after_calls_inv (fixed len s0) total cut k)
      as (Ht & Hc & _ & _ & _ & _ & Hcl & Hcdv); try reflexivity; try assumption.
    cbn [fixed set_cut_point set_total_iter cycle_len cut_div] in Hcl, Hcdv.
    unfold fixed at 1. rewrite Hcl, Hcdv. fold total cut.
    destruct (after_calls k (fixed len s0)). cbn in *.
    unfold set_cut_point, set_total_iter. cbn. congruence. }
  split; [apply calc_momentum_pure|].
  split; [apply Hcall|].
  intros Hd10 Hc4 Ht100.
  assert (Hc25 : cut = 25%Z) by (unfold cut; rewrite Ht100, Hc4; reflexivity).
  destruct (Hcall 0%nat) as (v0 & E0 & S0).
  destruct (Hcall 25%nat) as (v25 & E25 & S25).
  destruct (Hcall 99%nat) as (v99 & E99 & S99).
  rewrite Hd10, Ht100, Hc25 in S0, S25, S99.
  change (Z.of_nat 0 mod 100)%Z with 0%Z in S0.
  change (Z.of_nat 25 mod 100)%Z with 25%Z in S25.
  change (Z.of_nat 99 mod 100)%Z with 99%Z in S99.
  rewrite lr_spec_0 in S0. rewrite lr_spec_25 in S25. rewrite lr_spec_99 in S99.
  exists v0, v25, v99. repeat split; try assumption.
  - rewrite S99. intros. apply Qlt_shift_div_r; [reflexivity|]. lra.
  - rewrite S99. lra.
Qed.

Lemma one_cycle_calc_lr_witness :
  exists v,
    fst (calc_lr (after_calls 99 (fixed 100 (LRUpdater.self one_cycle_example)))) = Ok v /\
    v == lr_spec 1 10 100 25 99.
Proof.
  pose proof (one_cycle_calc_lr one_cycle_example 99) as H.
  cbn zeta in H.
  destruct H as (_ & _ & _ & _ & _ & H & _).
  - reflexivity.
  - reflexivity.
  - reflexivity.
  - discriminate.
  - discriminate.
  - exact H.
Defined.

Lemma calc_momentum_step (s : t) (total cut : Z) :
  total_iter s = Some total -> cut_point s = Some cut ->
  (0 <= cycle_iter s < total)%Z -> cut <> 0%Z ->
  exists m,
    calc_momentum s = (Ok m, s)
    /\ m == momentum_spec (momentum_range s) total cut (cycle_iter s).
Proof.
  intros Ht Hc Hi Hcut.
  unfold calc_momentum, bind, get, lift, ret, the_int. rewrite Hc. cbn [of_option].
  unfold momentum_spec, percent_spec.
  destruct (cycle_iter s >? cut)%Z eqn:Hgt.
  - rewrite Ht. cbn [of_option]. rewrite truediv_nonzero by lia.
    eexists. split; [reflexivity|].
    destruct (cycle_iter s <=? cut)%Z eqn:Hle; [lia|].
    rewrite !inject_Z_sub. unfold Qdiv. ring.
  - rewrite truediv_nonzero by assumption.
    eexists. split; [reflexivity|].
    destruct (cycle_iter s <=? cut)%Z eqn:Hle; [|lia].
    reflexivity.
Qed.

Lemma inject_Z_pos (z : Z) : (0 < z)%Z -> 0 < inject_Z z.
Proof. intros Hz. change 0 with (inject_Z 0). rewrite <- Zlt_Qlt. assumption. Qed.

(** The fraction rises up to [cut_point] and falls after it. *)
Lemma percent_rising (total cut i j : Z) :
  (0 < cut)%Z -> (i <= j <= cut)%Z ->
  percent_spec total cut i <= percent_spec total cut j.
Proof.
  intros Hcut Hij. unfold percent_spec.
  destruct (Z.leb_spec i cut); [|lia]. destruct (Z.leb_spec j cut); [|lia].
  unfold Qdiv. apply Qmult_le_compat_r.
  - rewrite <- Zle_Qle. lia.
  - apply Qinv_le_0_compat, Qlt_le_weak, inject_Z_pos. assumption.
Qed.

Lemma percent_falling (total cut i j : Z) :
  (0 < cut)%Z -> (cut <= i <= j)%Z -> (j < total)%Z ->
  percent_spec total cut j <= percent_spec total cut i.
Proof.
  intros Hcut Hij Hj. unfold percent_spec.
  assert (Hd : 0 <= / (inject_Z total - inject_Z cut)).
  { apply Qinv_le_0_compat. rewrite <- inject_Z_sub.
    apply Qlt_le_weak, inject_Z_pos. lia. }
  assert (Hstep : forall a b : Z, (cut <= a <= b)%Z ->
            (inject_Z a - inject_Z cut) / (inject_Z total - inject_Z cut)
            <= (inject_Z b - inject_Z cut) / (inject_Z total - inject_Z cut)).
  { intros a b Hab. unfold Qdiv. apply Qmult_le_compat_r; [|assumption].
    rewrite <- !inject_Z_sub, <- Zle_Qle. lia. }
  destruct (Z.leb_spec j cut) as [Hjc|Hjc]; destruct (Z.leb_spec i cut) as [Hic|Hic];
    try lia.
  - assert (i = j) by lia. subst. apply Qle_refl.
  - assert (i = cut) by lia. subst i.
    assert (E : inject_Z cut / inject_Z cut == 1).
    { field. intros E0. pose proof (inject_Z_pos cut Hcut) as P. rewrite E0 in P.
      discriminate. }
    rewrite E.
    pose proof (Hstep cut j ltac:(lia)) as Hs.
    assert (Z0 : (inject_Z cut - inject_Z cut) / (inject_Z total - inject_Z cut) == 0).
    { unfold Qdiv. ring. }
    rewrite Z0 in Hs. lra.
  - pose proof (Hstep i j ltac:(lia)). lra.
Qed.

Lemma lr_spec_mono (init_lr : Q) (d total cut i j : Z) :
  0 <= init_lr -> (1 <= d)%Z ->
  percent_spec total cut i <= percent_spec total cut j ->
  lr_spec init_lr d total cut i <= lr_spec init_lr d total cut j.
Proof.
  intros Hinit Hd Hp. unfold lr_spec.
  set (pi := percent_spec total cut i) in *.
  set (pj := percent_spec total cut j) in *.
  assert (HD : 1 <= inject_Z d) by (change 1 with (inject_Z 1); rewrite <- Zle_Qle; lia).
  unfold Qdiv. apply Qmult_le_compat_r.
  - assert (0 <= (pj - pi) * (inject_Z d - 1)) by (apply Qmult_le_0_compat; lra).
    assert (0 <= init_lr * ((pj - pi) * (inject_Z d - 1)))
      by (apply Qmult_le_0_compat; assumption).
    lra.
  - apply Qinv_le_0_compat. lra.
Qed.

Lemma momentum_spec_anti (mr : Q * Q) (total cut i j : Z) :
  snd mr <= fst mr ->
  percent_spec total cut i <= percent_spec total cut j ->
  momentum_spec mr total cut j <= momentum_spec mr total cut i.
Proof.
  intros Hmr Hp. unfold momentum_spec.
  set (pi := percent_spec total cut i) in *.
  set (pj := percent_spec total cut j) in *.
  assert (0 <= (pj - pi) * (fst mr - snd mr)) by (apply Qmult_le_0_compat; lra).
  lra.
Qed.

Lemma at_iter_fields (i : Z) (s : t) :
  total_iter (at_iter i s) = total_iter s /\ cut_point (at_iter i s) = cut_point s /\
  div (at_iter i s) = div s /\ init_lr (at_iter i s) = init_lr s /\
  momentum_range (at_iter i s) = momentum_range s /\ cycle_iter (at_iter i s) = i.
Proof. repeat split. Qed.

(** C7, as the code has it. [calc_momentum] at iteration index [i]
    returns [momentum_range[1] + (1 - percent) * (momentum_range[0] -
    momentum_range[1])], where [percent] is the learning-rate fraction at
    that index, and leaves the schedule untouched; so (for a
    positive [cut_point]) it is [momentum_range[0]] at [i = 0] and
    [momentum_range[1]] at [i = cut_point], and (for a non-negative
    [init_lr], [div >= 1] and [momentum_range[0] >= momentum_range[1]])
    it falls while the learning
    rate rises up to [cut_point] and rises while the learning rate falls
    after it. *)
Theorem one_cycle_calc_momentum (s : t) (total cut i j : Z) :
  total_iter s = Some total -> cut_point s = Some cut ->
  cut <> 0%Z -> div s <> 0%Z ->
  (0 <= i < total)%Z -> (0 <= j < total)%Z ->
  exists mi mj vi vj,
    calc_momentum (at_iter i s) = (Ok mi, at_iter i s) /\
    calc_momentum (at_iter j s) = (Ok mj, at_iter j s) /\
    fst (calc_lr (at_iter i s)) = Ok vi /\
    fst (calc_lr (at_iter j s)) = Ok vj /\
    mi == momentum_spec (momentum_range s) total cut i /\
    (i = 0%Z -> (0 < cut)%Z -> mi == fst (momentum_range s)) /\
    (i = cut -> mi == snd (momentum_range s)) /\
    (0 <= init_lr s -> (1 <= div s)%Z ->
     snd (momentum_range s) <= fst (momentum_range s) -> (0 < cut)%Z ->
     ((i <= j <= cut)%Z -> vi <= vj /\ mj <= mi) /\
     ((cut <= i <= j)%Z -> vj <= vi /\ mi <= mj)).
Proof.
  intros Ht Hc Hcut Hdiv Hi Hj.
  destruct (at_iter_fields i s) as (Ti & Ci & Di & Li & Mi & Ii).
  destruct (at_iter_fields j s) as (Tj & Cj & Dj & Lj & Mj & Ij).
  destruct (calc_momentum_step (at_iter i s) total cut) as (mi & Emi & Smi);
    try congruence; try (rewrite Ii; assumption).
  destruct (calc_momentum_step (at_iter j s) total cut) as (mj & Emj & Smj);
    try congruence; try (rewrite Ij; assumption).
  destruct (calc_lr_step (at_iter i s) total cut) as (vi & Evi & Svi);
    try congruence; try (rewrite Ii; assumption).
  destruct (calc_lr_step (at_iter j s) total cut) as (vj & Evj & Svj);
    try congruence; try (rewrite Ij; assumption).
  rewrite Mi, Ii in Smi. rewrite Mj, Ij in Smj.
  rewrite Li, Di, Ii in Svi. rewrite Lj, Dj, Ij in Svj.
  exists mi, mj, vi, vj.
  split; [exact Emi|]. split; [exact Emj|].
  split; [rewrite Evi; reflexivity|]. split; [rewrite Evj; reflexivity|].
  split; [exact Smi|].
  split; [|split].
  - intros -> Hcpos. rewrite Smi. unfold momentum_spec, percent_spec.
    destruct (Z.leb_spec 0 cut); [|lia].
    unfold Qdiv. change (inject_Z 0) with 0. ring.
  - intros ->. rewrite Smi. unfold momentum_spec, percent_spec.
    rewrite Z.leb_refl.
    assert (E : inject_Z cut / inject_Z cut == 1).
    { field. intros E0. apply Hcut.
      unfold Qeq in E0. cbn in E0. lia. }
    rewrite E. ring.
  - intros Hinit Hd1 Hmr Hcpos. split.
    + intros Hij.
      pose proof (percent_rising total cut i j Hcpos Hij) as Hp.
      rewrite Svi, Svj, Smi, Smj. split.
      * apply lr_spec_mono; assumption.
      * apply momentum_spec_anti; assumption.
    + intros Hij.
      pose proof (percent_falling total cut i j Hcpos Hij ltac:(lia)) as Hp.
      rewrite Svi, Svj, Smi, Smj. split.
      * apply lr_spec_mono; assumption.
      * apply momentum_spec_anti; assumption.
Qed.

Lemma one_cycle_calc_momentum_witness :
  exists m0,
    calc_momentum (at_iter 0 (fixed 100 (LRUpdater.self one_cycle_example)))
      = (Ok m0, at_iter 0 (fixed 100 (LRUpdater.self one_cycle_example)))
    /\ m0 == 95 # 100.
Proof.
  destruct (one_cycle_calc_momentum
              (fixed 100 (LRUpdater.self one_cycle_example)) 100 25 0 10)
    as (mi & mj & vi & vj & E & _ & _ & _ & _ & H0 & _).
  - reflexivity.
  - reflexivity.
  - discriminate.
  - discriminate.
  - lia.
  - lia.
  - exists mi. split; [exact E|]. apply H0; [reflexivity|lia].
Defined.

(** C7 as worded fails. In the first update of a schedule with
    [total_iter = 100], [cut_point = 25] and [momentum_range = (0.95,
    0.85)] the learning rate is computed at [i = 0] (fraction 0), yet the
    momentum written by that update is neither the interpolation on that
    fraction nor [momentum_range[0]]; and a call of [calc_momentum] at
    [i = 0] returns [momentum_range[0]], which the interpolation on the
    learning-rate fraction does not. *)
Lemma one_cycle_momentum_counterexample :
  let w' := snd (on_loader_start one_cycle_example) in
  exists v m m0,
    RunState.lr (LRUpdater.state w') !! "main" = Some v /\
    v == lr_spec 1 10 100 25 0 /\
    percent_spec 100 25 0 == 0 /\
    RunState.momentum (LRUpdater.state w') !! "main" = Some m /\
    ~ m == momentum_same_percent (95 # 100, 85 # 100) 100 25 0 /\
    ~ m == 95 # 100 /\
    fst (calc_momentum (fixed 100 (LRUpdater.self one_cycle_example))) = Ok m0 /\
    m0 == 95 # 100 /\
    ~ m0 == momentum_same_percent (95 # 100, 85 # 100) 100 25 0.
Proof.
  cbv zeta.
  exists (25 # 250), (23650000 # 25000000), (23750000 # 25000000).
  repeat split; try (vm_compute; reflexivity); vm_compute; discriminate.
Qed.

End OneCycleFacts.

Section DictFacts.
Context {V : Type}.

Lemma dict_get_set_eq (k : string) (v : V) (d : dict V) :
  dict_get k (dict_set k v d) = Some v.
Proof.
  induction d as [|[k' v'] d IH]; cbn.
  - rewrite String.eqb_refl. reflexivity.
  - destruct (String.eqb k k') eqn:E; cbn; rewrite ?E, ?String.eqb_refl; auto.
Qed.

Lemma dict_get_set_ne (k k' : string) (v : V) (d : dict V) :
  k <> k' -> dict_get k' (dict_set k v d) = dict_get k' d.
Proof.
  intros Hne. induction d as [|[k0 v0] d IH]; cbn.
  - destruct (String.eqb_spec k' k); congruence.
  - destruct (String.eqb_spec k k0); cbn.
    + subst. destruct (String.eqb_spec k' k0); congruence.
    + rewrite IH. reflexivity.
Qed.

End DictFacts.

Section LRFinderFacts.
Import LRFinder LRFinderSpec.
Local Open Scope Q_scope.

Variable float_pow : Q -> Q -> Q.

Lemma calc_lr_total (s : t) :
  calc_lr s = (Ok (init_lr s * multiplier s ^ find_iter s),
               set_find_iter (find_iter s + 1) s).
Proof. reflexivity. Qed.

Lemma after_calls_state (k : nat) (s : t) :
  after_calls k s = set_find_iter (find_iter s + Z.of_nat k) s.
Proof.
  induction k as [|k IH].
  - cbn. rewrite Z.add_0_r. destruct s; reflexivity.
  - cbn [after_calls]. rewrite IH, calc_lr_total. cbn.
    unfold set_find_iter. cbn. f_equal. lia.
Qed.

(** The update of the base class on a training loader: one call of
    [calc_lr], mirrored into the optimizer and into [state.lr]. *)
Lemma update_optimizer_train (w : LRUpdater.world t) :
  RunState.is_train (LRUpdater.state w) = true ->
  is_Some (dict_get (optimizer_key (LRUpdater.self w)) (LRUpdater.optimizer w)) ->
  exists w',
    LRUpdater.update_optimizer w = (Ok tt, w') /\
    LRUpdater.self w' = set_find_iter (find_iter (LRUpdater.self w) + 1) (LRUpdater.self w) /\
    RunState.is_train (LRUpdater.state w') = true /\
    RunState.lr (LRUpdater.state w') !! optimizer_key (LRUpdater.self w)
      = Some (init_lr (LRUpdater.self w)
              * multiplier (LRUpdater.self w) ^ find_iter (LRUpdater.self w)) /\
    is_Some (dict_get (optimizer_key (LRUpdater.self w)) (LRUpdater.optimizer w')).
Proof.
  intros Htrain [o Ho].
  unfold LRUpdater.update_optimizer, bind, get. rewrite Htrain.
  cbn [LRUpdater.calc_lr LRUpdater.calc_momentum LRUpdater.optimizer_key schedule].
  unfold zoom, bind, ret, modify, LRUpdater.with_optimizer.
  rewrite calc_lr_total. cbn [LRUpdater.optimizer LRUpdater.set_self].
  rewrite Ho. cbn.
  eexists. split; [reflexivity|]. cbn.
  split; [reflexivity|]. split; [assumption|].
  split; [apply lookup_insert_eq|].
  rewrite dict_get_set_eq. eauto.
Qed.

(** One batch-end: the update runs first, then the counter is compared
    with [n_steps]. *)
Lemma on_batch_end_train (w : LRUpdater.world t) (n : Z) :
  RunState.is_train (LRUpdater.state w) = true ->
  is_Some (dict_get (optimizer_key (LRUpdater.self w)) (LRUpdater.optimizer w)) ->
  n_steps (LRUpdater.self w) = Some n ->
  exists w',
    on_batch_end w =
      ((if (find_iter (LRUpdater.self w) + 1 >? n)%Z
        then Raise NotImplementedError else Ok tt), w') /\
    LRUpdater.self w' = set_find_iter (find_iter (LRUpdater.self w) + 1) (LRUpdater.self w) /\
    RunState.is_train (LRUpdater.state w') = true /\
    RunState.lr (LRUpdater.state w') !! optimizer_key (LRUpdater.self w)
      = Some (init_lr (LRUpdater.self w)
              * multiplier (LRUpdater.self w) ^ find_iter (LRUpdater.self w)) /\
    is_Some (dict_get (optimizer_key (LRUpdater.self w)) (LRUpdater.optimizer w')).
Proof.
  intros Htrain Hkey Hn.
  destruct (update_optimizer_train w Htrain Hkey) as (w' & E & Hs & Ht & Hl & Hk).
  exists w'. unfold on_batch_end, LRUpdater.on_batch_end, bind. rewrite E.
  unfold get, lift. rewrite Hs. cbn [n_steps set_find_iter find_iter].
  rewrite Hn. cbn [of_option].
  split; [|tauto].
  destruct (_ >? _)%Z; reflexivity.
Qed.

Lemma batches_below (j : nat) (w : LRUpdater.world t) (n : Z) :
  RunState.is_train (LRUpdater.state w) = true ->
  is_Some (dict_get (optimizer_key (LRUpdater.self w)) (LRUpdater.optimizer w)) ->
  n_steps (LRUpdater.self w) = Some n ->
  (find_iter (LRUpdater.self w) + Z.of_nat j <= n)%Z ->
  exists w',
    batches j w = (Ok tt, w') /\
    LRUpdater.self w'
      = set_find_iter (find_iter (LRUpdater.self w) + Z.of_nat j) (LRUpdater.self w) /\
    RunState.is_train (LRUpdater.state w') = true /\
    is_Some (dict_get (optimizer_key (LRUpdater.self w)) (LRUpdater.optimizer w')) /\
    (j <> O ->
     RunState.lr (LRUpdater.state w') !! optimizer_key (LRUpdater.self w)
       = Some (init_lr (LRUpdater.self w)
               * multiplier (LRUpdater.self w)
                 ^ (find_iter (LRUpdater.self w) + Z.of_nat j - 1))).
Proof.
  intros Htrain Hkey Hn. induction j as [|j IH]; intros Hle.
  - exists w. cbn. rewrite Z.add_0_r.
    split; [reflexivity|]. split; [destruct w as [[]]; reflexivity|].
    split; [assumption|]. split; [assumption|]. congruence.
  - destruct IH as (w1 & E1 & Hs1 & Ht1 & Hk1 & _); [lia|].
    assert (Hkey1 : optimizer_key (LRUpdater.self w1) = optimizer_key (LRUpdater.self w))
      by (rewrite Hs1; reflexivity).
    destruct (on_batch_end_train w1 n) as (w2 & E2 & Hs2 & Ht2 & Hl2 & Hk2).
    { assumption. }
    { rewrite Hkey1. assumption. }
    { rewrite Hs1. assumption. }
    exists w2. cbn [batches]. unfold bind. rewrite E1, E2.
    rewrite Hs1 in E2, Hs2, Hl2, Hk2 |- *.
    cbn [find_iter set_find_iter init_lr multiplier optimizer_key] in *.
    destruct (Z.gtb_spec (find_iter (LRUpdater.self w) + Z.of_nat j + 1) n); [lia|].
    split; [reflexivity|].
    split; [rewrite Hs2; unfold set_find_iter; cbn; f_equal; lia|].
    split; [assumption|]. split; [assumption|].
    intros _. rewrite Hl2. do 3 f_equal. lia.
Qed.

Lemma truediv_nonzero_Q (a b : Q) : ~ b == 0 -> truediv a b = Ok (a / b).
Proof.
  intros Hb. unfold truediv. destruct (Qeq_bool b 0) eqn:E; [|reflexivity].
  apply Qeq_bool_iff in E. contradiction.
Qed.

Lemma on_loader_start_train (w : LRUpdater.world t) :
  let s := LRUpdater.self w in
  let n := n_steps_or (n_steps s) (RunState.loader_len (LRUpdater.state w)) in
  let m := float_pow (final_lr s / init_lr s) (1 / inject_Z n) in
  RunState.is_train (LRUpdater.state w) = true ->
  ~ init_lr s == 0 -> n <> 0%Z ->
  is_Some (dict_get (optimizer_key s) (LRUpdater.optimizer w)) ->
  exists w',
    on_loader_start float_pow w = (Ok tt, w') /\
    LRUpdater.self w'
      = set_find_iter (find_iter s + 1) (set_multiplier m (set_n_steps n s)) /\
    RunState.is_train (LRUpdater.state w') = true /\
    RunState.lr (LRUpdater.state w') !! optimizer_key s
      = Some (init_lr s * m ^ find_iter s) /\
    is_Some (dict_get (optimizer_key s) (LRUpdater.optimizer w')).
Proof.
  intros s n m Htrain Hinit Hn Hkey.
  unfold on_loader_start, bind, get. rewrite Htrain.
  unfold lift, zoom, modify. fold s.
  rewrite truediv_nonzero_Q by assumption.
  cbn [LRUpdater.self LRUpdater.set_self LRUpdater.state]. fold n.
  rewrite truediv_nonzero by assumption. fold m.
  set (w1 := LRUpdater.set_self _ _).
  destruct (update_optimizer_train w1) as (w' & E & Hs & Ht & Hl & Hk);
    [assumption|assumption|].
  exists w'. unfold LRUpdater.on_loader_start. rewrite E.
  split; [reflexivity|]. split; [exact Hs|]. split; [assumption|].
  split; [exact Hl|exact Hk].
Qed.

(** C4, as the code has it. On a training loader, [on_loader_start]
    fixes [n_steps] (the loader's length when unset) and the multiplier
    [m = (final_lr / init_lr) ** (1 / n_steps)]; the [k]-th call of
    [calc_lr] (counted from 0) returns [init_lr * m ^ k] and never raises.
    On the first training loader of a fresh finder the loader-start makes
    call 0 and every batch-end one more call; the first [n_steps - 1]
    batch-ends return normally, and batch-end number [n_steps] raises the
    end-of-range exception after its own call, call [k = n_steps], has
    returned [init_lr * m ^ n_steps] and that value has been written to
    [state.lr]. Whatever came before, in any state [w1]: a training
    batch-end makes one call, writes its value [init_lr * multiplier ^
    find_iter], and then raises the end-of-range exception exactly when
    the counter, now [find_iter + 1], exceeds [n_steps]; a training
    loader-start makes one call, writes its value and returns normally
    however far the counter stands. *)
Theorem lr_finder_schedule (w : LRUpdater.world t) (j k : nat) :
  let s := LRUpdater.self w in
  let n := n_steps_or (n_steps s) (RunState.loader_len (LRUpdater.state w)) in
  let m := float_pow (final_lr s / init_lr s) (1 / inject_Z n) in
  RunState.is_train (LRUpdater.state w) = true ->
  find_iter s = 0%Z -> ~ init_lr s == 0 -> n <> 0%Z ->
  is_Some (dict_get (optimizer_key s) (LRUpdater.optimizer w)) ->
  (exists w0, on_loader_start float_pow w = (Ok tt, w0) /\
     n_steps (LRUpdater.self w0) = Some n /\
     multiplier (LRUpdater.self w0) = m /\
     find_iter (LRUpdater.self w0) = 1%Z)
  /\ fst (calc_lr (after_calls k (set_multiplier m (set_n_steps n s))))
     = Ok (init_lr s * m ^ Z.of_nat k)
  /\ ((Z.of_nat j < n)%Z ->
      exists w', run_loader float_pow j w = (Ok tt, w') /\
        find_iter (LRUpdater.self w') = (Z.of_nat j + 1)%Z /\
        RunState.lr (LRUpdater.state w') !! optimizer_key s
          = Some (init_lr s * m ^ Z.of_nat j))
  /\ (Z.of_nat j = n ->
      exists w', run_loader float_pow j w = (Raise NotImplementedError, w') /\
        find_iter (LRUpdater.self w') = (n + 1)%Z /\
        RunState.lr (LRUpdater.state w') !! optimizer_key s
          = Some (init_lr s * m ^ n))
  /\ (forall (w1 : LRUpdater.world t) (n1 : Z),
      let s1 := LRUpdater.self w1 in
      RunState.is_train (LRUpdater.state w1) = true ->
      is_Some (dict_get (optimizer_key s1) (LRUpdater.optimizer w1)) ->
      n_steps s1 = Some n1 ->
      exists w',
        on_batch_end w1
        = ((if (find_iter s1 + 1 >? n1)%Z then Raise NotImplementedError else Ok tt),
           w') /\
        LRUpdater.self w' = set_find_iter (find_iter s1 + 1) s1 /\
        RunState.lr (LRUpdater.state w') !! optimizer_key s1
          = Some (init_lr s1 * multiplier s1 ^ find_iter s1))
  /\ (forall w1 : LRUpdater.world t,
      let s1 := LRUpdater.self w1 in
      let n1 := n_steps_or (n_steps s1) (RunState.loader_len (LRUpdater.state w1)) in
      let m1 := float_pow (final_lr s1 / init_lr s1) (1 / inject_Z n1) in
      RunState.is_train (LRUpdater.state w1) = true ->
      ~ init_lr s1 == 0 -> n1 <> 0%Z ->
      is_Some (dict_get (optimizer_key s1) (LRUpdater.optimizer w1)) ->
      exists w',
        on_loader_start float_pow w1 = (Ok tt, w') /\
        LRUpdater.self w'
        = set_find_iter (find_iter s1 + 1) (set_multiplier m1 (set_n_steps n1 s1)) /\
        RunState.lr (LRUpdater.state w') !! optimizer_key s1
          = Some (init_lr s1 * m1 ^ find_iter s1)).
Proof.
  intros s n m Htrain Hf Hinit Hn Hkey.
  assert (Hbatch : forall (w1 : LRUpdater.world t) (n1 : Z),
             let s1 := LRUpdater.self w1 in
             RunState.is_train (LRUpdater.state w1) = true ->
             is_Some (dict_get (optimizer_key s1) (LRUpdater.optimizer w1)) ->
             n_steps s1 = Some n1 ->
             exists w',
               on_batch_end w1
               = ((if (find_iter s1 + 1 >? n1)%Z
                   then Raise NotImplementedError else Ok tt), w') /\
               LRUpdater.self w' = set_find_iter (find_iter s1 + 1) s1 /\
               RunState.lr (LRUpdater.state w') !! optimizer_key s1
                 = Some (init_lr s1 * multiplier s1 ^ find_iter s1)).
  { intros w1 n1 s1 Ht1 Hk1 Hn1.
    destruct (on_batch_end_train w1 n1 Ht1 Hk1 Hn1) as (w' & E & Hs' & _ & Hl' & _).
    exists w'. auto. }
  assert (Hstart : forall w1 : LRUpdater.world t,
             let s1 := LRUpdater.self w1 in
             let n1 := n_steps_or (n_steps s1)
                         (RunState.loader_len (LRUpdater.state w1)) in
             let m1 := float_pow (final_lr s1 / init_lr s1) (1 / inject_Z n1) in
             RunState.is_train (LRUpdater.state w1) = true ->
             ~ init_lr s1 == 0 -> n1 <> 0%Z ->
             is_Some (dict_get (optimizer_key s1) (LRUpdater.optimizer w1)) ->
             exists w',
               on_loader_start float_pow w1 = (Ok tt, w') /\
               LRUpdater.self w'
               = set_find_iter (find_iter s1 + 1)
                   (set_multiplier m1 (set_n_steps n1 s1)) /\
               RunState.lr (LRUpdater.state w') !! optimizer_key s1
                 = Some (init_lr s1 * m1 ^ find_iter s1)).
  { intros w1 s1 n1 m1 Ht1 Hi1 Hn1 Hk1.
    destruct (on_loader_start_train w1 Ht1 Hi1 Hn1 Hk1) as (w' & E & Hs' & _ & Hl' & _).
    exists w'. auto. }
  cut ((exists w0, on_loader_start float_pow w = (Ok tt, w0) /\
          n_steps (LRUpdater.self w0) = Some n /\
          multiplier (LRUpdater.self w0) = m /\
          find_iter (LRUpdater.self w0) = 1%Z)
       /\ fst (calc_lr (after_calls k (set_multiplier m (set_n_steps n s))))
          = Ok (init_lr s * m ^ Z.of_nat k)
       /\ ((Z.of_nat j < n)%Z ->
           exists w', run_loader float_pow j w = (Ok tt, w') /\
             find_iter (LRUpdater.self w') = (Z.of_nat j + 1)%Z /\
             RunState.lr (LRUpdater.state w') !! optimizer_key s
               = Some (init_lr s * m ^ Z.of_nat j))
       /\ (Z.of_nat j = n ->
           exists w', run_loader float_pow j w = (Raise NotImplementedError, w') /\
             find_iter (LRUpdater.self w') = (n + 1)%Z /\
             RunState.lr (LRUpdater.state w') !! optimizer_key s
               = Some (init_lr s * m ^ n))).
  { intros (H1 & H2 & H3 & H4). auto 8. }
  clear Hbatch Hstart.
  destruct (on_loader_start_train w Htrain Hinit Hn Hkey)
    as (w0 & E0 & Hs0 & Ht0 & Hl0 & Hk0).
  fold s n m in E0, Hs0, Hl0, Hk0. rewrite Hf in Hs0, Hl0.
  split; [exists w0; rewrite Hs0; auto|].
  split.
  { rewrite after_calls_state, calc_lr_total. cbn. rewrite Hf. reflexivity. }
  assert (Hkey0 : optimizer_key (LRUpdater.self w0) = optimizer_key s)
    by (rewrite Hs0; reflexivity).
  assert (Hn0 : n_steps (LRUpdater.self w0) = Some n) by (rewrite Hs0; reflexivity).
  split.
  - intros Hj.
    destruct (batches_below j w0 n) as (w1 & E1 & Hs1 & Ht1 & Hk1 & Hl1);
      try assumption.
    { rewrite Hkey0. assumption. }
    { rewrite Hs0. cbn. lia. }
    exists w1. unfold run_loader, bind. rewrite E0, E1.
    split; [reflexivity|]. split; [rewrite Hs1, Hs0; cbn; lia|].
    destruct j as [|j].
    + cbn in E1. injection E1 as <-. exact Hl0.
    + rewrite Hkey0, Hs0 in Hl1. cbn [init_lr multiplier find_iter set_find_iter
        set_multiplier set_n_steps] in Hl1.
      rewrite Hl1 by discriminate. do 3 f_equal. lia.
  - intros Hj. destruct j as [|j]; [exfalso; apply Hn; symmetry; exact Hj|].
    destruct (batches_below j w0 n) as (w1 & E1 & Hs1 & Ht1 & Hk1 & _);
      try assumption.
    { rewrite Hkey0. assumption. }
    { rewrite Hs0. cbn. lia. }
    destruct (on_batch_end_train w1 n) as (w2 & E2 & Hs2 & Ht2 & Hl2 & Hk2).
    { assumption. }
    { rewrite Hs1. cbn [optimizer_key set_find_iter]. exact Hk1. }
    { rewrite Hs1. exact Hn0. }
    exists w2. unfold run_loader, bind. rewrite E0. cbn [batches]. unfold bind.
    rewrite E1, E2.
    rewrite Hs1, Hs0 in E2, Hs2, Hl2 |- *.
    cbn [find_iter set_find_iter init_lr multiplier optimizer_key
         set_multiplier set_n_steps] in *.
    destruct (Z.gtb_spec (0 + 1 + Z.of_nat j + 1) n); [|lia].
    split; [reflexivity|].
    split; [rewrite Hs2; cbn; lia|].
    rewrite Hl2. do 3 f_equal. lia.
Qed.

End LRFinderFacts.

Section LRFinderExamples.
Import LRFinder LRFinderSpec.
Local Open Scope Q_scope.

Lemma lr_finder_schedule_witness :
  exists w', run_loader float_pow_example 10 finder_example
               = (Raise NotImplementedError, w') /\
    find_iter (LRUpdater.self w') = 11%Z /\
    RunState.lr (LRUpdater.state w') !! "main"
      = Some ((1 # 100000)
              * float_pow_example (1 / (1 # 100000)) (1 / inject_Z 10) ^ 10).
Proof.
  destruct (lr_finder_schedule float_pow_example finder_example 10 11)
    as (_ & _ & _ & H & _).
  - reflexivity.
  - reflexivity.
  - discriminate.
  - discriminate.
  - cbn. eauto.
  - apply H. reflexivity.
Defined.

(** C4 as worded fails. With [init_lr = 1e-5], [final_lr = 1] and
    [n_steps = 10], on a training loader of fifty batches, nine
    batch-ends return normally and the tenth raises the end-of-range
    exception when the counter stands at 11: calls 0 to 10 have been
    made, and it is a batch-end that raises, after the 11th call. Called
    on its own a 12th time (the loader-start has made one call, ten more
    follow), [calc_lr] returns a computed value. *)
Lemma lr_finder_counterexample :
  fst (run_loader float_pow_example 9 finder_example) = Ok tt /\
  fst (run_loader float_pow_example 10 finder_example) = Raise NotImplementedError /\
  find_iter (LRUpdater.self (snd (run_loader float_pow_example 10 finder_example)))
    = 11%Z /\
  find_iter (LRUpdater.self (snd (on_loader_start float_pow_example finder_example)))
    = 1%Z /\
  fst (calc_lr (after_calls 10
         (LRUpdater.self (snd (on_loader_start float_pow_example finder_example)))))
    = Ok ((1 # 100000) * (316228 # 100000) ^ 11).
Proof.
  split; [vm_compute; reflexivity|].
  split; [vm_compute; reflexivity|].
  split; [vm_compute; reflexivity|].
  split; [vm_compute; reflexivity|].
  rewrite after_calls_state, calc_lr_total. reflexivity.
Qed.

(** The same finder on training loaders of four batches: loader-starts
    are not checked, so the counter stands at 5 after the first loader,
    at 10 after the second and at 11 after the third loader-start; the
    first batch-end of the third loader makes the 12th call, writes its
    value and raises. *)
Example lr_finder_short_loaders :
  let hooks := run_loader float_pow_example 4 ;; run_loader float_pow_example 4 ;;
               on_loader_start float_pow_example in
  fst (hooks short_finder_example) = Ok tt /\
  find_iter (LRUpdater.self (snd (run_loader float_pow_example 4 short_finder_example)))
    = 5%Z /\
  find_iter (LRUpdater.self (snd (hooks short_finder_example))) = 11%Z /\
  fst (on_batch_end (snd (hooks short_finder_example))) = Raise NotImplementedError /\
  find_iter (LRUpdater.self (snd (on_batch_end (snd (hooks short_finder_example)))))
    = 12%Z /\
  RunState.lr (LRUpdater.state (snd (on_batch_end (snd (hooks short_finder_example)))))
    !! "main" = Some ((1 # 100000) * (316228 # 100000) ^ 11).
Proof.
  cbv zeta. split; [vm_compute; reflexivity|]. split; [vm_compute; reflexivity|].
  split; [vm_compute; reflexivity|]. split; [vm_compute; reflexivity|].
  split; [vm_compute; reflexivity|].
  vm_compute. reflexivity.
Qed.

End LRFinderExamples.

Section OptimizerFacts.
Import Torch BasicOptimizerCallback OptimizerSpec.
Local Open Scope Q_scope.

Variable step : Torch.optimizer -> Torch.optimizer.
Variable clip_grad_norm_ : list param -> Q -> list param.
Variable loss_grad : string -> list Q.

Lemma parameters_set_parameters (ps : list param) (m : Torch.model) :
  parameters (set_parameters ps m) = ps.
Proof. induction m; cbn; auto. Qed.

Lemma data_zero_grad (ps : list param) :
  map data (map zero_grad_param ps) = map data ps.
Proof. rewrite map_map. reflexivity. Qed.

Lemma data_backward (scale : Q) (ps : list param) :
  map data (map (backward_param loss_grad scale) ps) = map data ps.
Proof.
  rewrite map_map. apply map_ext. intros p. unfold backward_param.
  destruct (requires_grad p); reflexivity.
Qed.

(** C9, as the code has it. At a reduced-precision training batch-end,
    more than one configured optimizer raises the assertion error, and no
    optimizer at all returns normally; in both cases the optimizers are
    untouched and no parameter value changes (only the model's gradients
    are zeroed). *)
Theorem fp16_batch_end_optimizer_count (w : world) :
  RunState.is_train (state w) = true -> fp16 (self w) = true ->
  ((1 < length (optimizer w))%nat ->
   exists w', on_batch_end step clip_grad_norm_ loss_grad w = (Raise AssertionError, w') /\
     optimizer w' = optimizer w /\
     map data (parameters (model w')) = map data (parameters (model w)))
  /\ (length (optimizer w) = 0%nat ->
      exists w', on_batch_end step clip_grad_norm_ loss_grad w = (Ok tt, w') /\
        optimizer w' = optimizer w /\
        map data (parameters (model w')) = map data (parameters (model w))).
Proof.
  intros Htrain Hfp.
  unfold on_batch_end, bind, get. rewrite Htrain, Hfp. cbn [negb].
  unfold modify, ret, raise. cbn [optimizer set_model model].
  split; intros Hlen.
  - destruct (Nat.ltb_spec 0 (length (optimizer w))); [|lia].
    destruct (Nat.eqb_spec (length (optimizer w)) 1); [lia|].
    eexists. split; [reflexivity|]. cbn.
    rewrite parameters_set_parameters, data_zero_grad. auto.
  - rewrite Hlen. cbn.
    eexists. split; [reflexivity|]. cbn.
    rewrite parameters_set_parameters, data_zero_grad. auto.
Qed.

Lemma for_items_unscale (scale : Q) (ps : list param) :
  ~ scale == 0 ->
  for_items (unscale_grad scale) ps tt
  = (Ok tt, (tt, map (fun p => set_grad (tscale (1 / scale) (grad p)) p) ps)).
Proof.
  intros Hs. induction ps as [|p ps IH]; [reflexivity|].
  cbn [for_items map]. unfold unscale_grad at 1.
  rewrite truediv_nonzero_Q by assumption. rewrite IH. reflexivity.
Qed.

Lemma set_params_id (g : param_group) : set_params (params g) g = g.
Proof. destruct g; reflexivity. Qed.

Lemma set_param_groups_id (o : Torch.optimizer) :
  set_param_groups (param_groups o) o = o.
Proof. destruct o; reflexivity. Qed.

(** C10. At a reduced-precision training batch-end with exactly one
    optimizer, the optimizer is read under the key ["main"]: under any
    other key the hook raises [KeyError], the optimizer is untouched and
    no parameter value changes; under ["main"] the master parameters are
    the parameters of its first parameter group, which receive the
    model's unscaled gradients, are stepped, and are copied back into the
    model. *)
Theorem fp16_batch_end_main_key (w : world) (key : string) (o : Torch.optimizer) :
  let scale := fp16_grad_scale (self w) in
  let ps1 := map (backward_param loss_grad scale)
                 (map zero_grad_param (parameters (model w))) in
  let model_params := filter (fun p => requires_grad p = true) ps1 in
  RunState.is_train (state w) = true -> fp16 (self w) = true ->
  optimizer w = [(key, o)] ->
  (key <> "main" ->
   exists w', on_batch_end step clip_grad_norm_ loss_grad w = (Raise KeyError, w') /\
     optimizer w' = optimizer w /\
     map data (parameters (model w')) = map data (parameters (model w)))
  /\ (key = "main" ->
      forall g0 gs g0' gs',
        param_groups o = g0 :: gs -> ~ scale == 0 ->
        let master :=
          map (fun p => set_grad (tscale (1 / scale) (grad p)) p)
              (copy_grads model_params (params g0)) in
        let o2 := grad_step_item step clip_grad_norm_ (self w) "main"
                    (set_param_groups (set_params master g0 :: gs) o) in
        param_groups o2 = g0' :: gs' ->
        exists w', on_batch_end step clip_grad_norm_ loss_grad w = (Ok tt, w') /\
          optimizer w' = [("main", o2)] /\
          parameters (model w')
            = write_back ps1 (copy_params (params g0') model_params)).
Proof.
  intros scale ps1 model_params Htrain Hfp Hopt.
  destruct w as [s st m opt]. cbn [self state model optimizer] in *. subst opt.
  unfold on_batch_end, bind, get.
  cbn [self state model optimizer]. rewrite Htrain, Hfp. cbn [negb].
  unfold modify, ret, raise, set_model, set_optimizer, with_master_params.
  cbn [self state model optimizer length Nat.ltb Nat.leb Nat.eqb dict_get].
  split.
  - intros Hkey.
    destruct (String.eqb_spec "main" key) as [E|E]; [congruence|].
    eexists. split; [reflexivity|]. cbn [optimizer model].
    split; [reflexivity|].
    rewrite !parameters_set_parameters, data_backward, data_zero_grad.
    reflexivity.
  - intros -> g0 gs g0' gs' Hg Hscale.
    set (master := map (fun p => set_grad (tscale (1 / scale) (grad p)) p)
                       (copy_grads model_params (params g0))).
    set (o2 := grad_step_item step clip_grad_norm_ s "main"
                 (set_param_groups (set_params master g0 :: gs) o)).
    intros Hg2.
    cbn. rewrite Hg. cbn. rewrite !parameters_set_parameters.
    fold scale ps1 model_params.
    rewrite for_items_unscale by assumption. cbn.
    match goal with
    | |- context [grad_step_item step clip_grad_norm_ s "main" ?x] =>
        change (grad_step_item step clip_grad_norm_ s "main" x) with o2
    end.
    rewrite Hg2. cbn. rewrite !parameters_set_parameters.
    eexists. split; [reflexivity|]. cbn.
    rewrite set_params_id, parameters_set_parameters.
    split; [|reflexivity].
    unfold set_param_groups. rewrite <- Hg2. destruct o2; reflexivity.
Qed.

(** *** The weight-decay bracket *)

Lemma set_optimizer_wds_id (s : t) : set_optimizer_wds (optimizer_wds s) s = s.
Proof. destruct s; reflexivity. Qed.

Lemma for_items_epoch_start (l : dict Torch.optimizer) (s : t) :
  Forall has_groups l ->
  for_items on_epoch_start_item l s
  = (Ok tt, (set_optimizer_wds (wds_of (optimizer_wds s) l) s, map zeroed_item l)).
Proof.
  intros Hl. revert s. induction Hl as [|[key o] l Hg Hl IH]; intros s.
  - cbn. rewrite set_optimizer_wds_id. reflexivity.
  - cbn [for_items]. unfold on_epoch_start_item at 1.
    unfold has_groups in Hg. cbn [snd] in Hg.
    cbn [wds_of fold_left map zeroed_item fst snd].
    unfold configured_wd, with_wd.
    destruct (param_groups o) as [|g0 gs] eqn:Eg; [congruence|].
    destruct (Qlt_le_dec 0 _) as [Hpos|Hle].
    + rewrite IH. reflexivity.
    + rewrite IH. reflexivity.
Qed.

Lemma dict_get_wds_of_notin (key : string) (acc : dict Q) (l : dict Torch.optimizer) :
  ~ In key (keys l) -> dict_get key (wds_of acc l) = dict_get key acc.
Proof.
  revert acc. induction l as [|[k o] l IH]; intros acc Hnot; [reflexivity|].
  cbn in Hnot. cbn [wds_of fold_left fst snd].
  change (fold_left _ l ?a) with (wds_of a l).
  rewrite IH by tauto.
  destruct (Qlt_le_dec 0 (configured_wd o)); [|reflexivity].
  apply dict_get_set_ne. intros ->. tauto.
Qed.

Lemma dict_get_In {V} (key : string) (v : V) (d : dict V) :
  dict_get key d = Some v -> In key (keys d).
Proof.
  induction d as [|[k v'] d IH]; cbn; [discriminate|].
  destruct (String.eqb_spec key k); [auto|]. intros H. right. auto.
Qed.

Lemma dict_get_wds_of (key : string) (o : Torch.optimizer) (acc : dict Q)
    (l : dict Torch.optimizer) :
  List.NoDup (keys l) -> dict_get key l = Some o ->
  dict_get key (wds_of acc l)
  = if Qlt_le_dec 0 (configured_wd o) then Some (configured_wd o)
    else dict_get key acc.
Proof.
  revert acc. induction l as [|[k o'] l IH]; intros acc Hnd Hget; [discriminate|].
  cbn in Hnd. apply List.NoDup_cons_iff in Hnd as [Hk Hnd].
  cbn [dict_get] in Hget. cbn [wds_of fold_left fst snd].
  change (fold_left _ l ?a) with (wds_of a l).
  destruct (String.eqb_spec key k) as [->|Hne].
  - injection Hget as ->. rewrite dict_get_wds_of_notin by assumption.
    destruct (Qlt_le_dec 0 (configured_wd o)); [|reflexivity].
    apply dict_get_set_eq.
  - rewrite (IH _ Hnd Hget).
    destruct (Qlt_le_dec 0 (configured_wd o)); [reflexivity|].
    destruct (Qlt_le_dec 0 (configured_wd o')); [|reflexivity].
    apply dict_get_set_ne. congruence.
Qed.

Lemma dict_get_map_item {V W} (f : string -> V -> W) (key : string) (d : dict V) :
  dict_get key (map (fun '(k, v) => (k, f k v)) d) = f key <$> dict_get key d.
Proof.
  induction d as [|[k v] d IH]; [reflexivity|]. cbn.
  destruct (String.eqb_spec key k) as [->|]; [reflexivity|assumption].
Qed.

Lemma dict_get_zeroed (key : string) (l : dict Torch.optimizer) :
  dict_get key (map zeroed_item l)
  = (fun o => if Qlt_le_dec 0 (configured_wd o) then with_wd 0 o else o)
      <$> dict_get key l.
Proof.
  induction l as [|[k v] d IH]; [reflexivity|]. cbn.
  destruct (String.eqb_spec key k) as [->|]; [reflexivity|assumption].
Qed.

Lemma with_wd_groups (v : Q) (o : Torch.optimizer) :
  param_groups o <> [] -> param_groups (with_wd v o) <> [].
Proof. unfold with_wd. destruct (param_groups o); [congruence|discriminate]. Qed.

Lemma has_optimizer_set (d : dict Torch.optimizer) (k : string) (v : Q)
    (o : Torch.optimizer) (item : string * Q) :
  dict_get k d = Some o -> param_groups o <> [] ->
  has_optimizer d item -> has_optimizer (dict_set k (with_wd v o) d) item.
Proof.
  intros Hk Hg (o' & Ho' & Hg'). unfold has_optimizer.
  destruct (String.eqb_spec k (fst item)) as [E|E].
  - rewrite <- E, dict_get_set_eq. eauto using with_wd_groups.
  - rewrite dict_get_set_ne by assumption. eauto.
Qed.

Lemma for_each_restore (l : dict Q) (w : world) :
  Forall (has_optimizer (optimizer w)) l ->
  for_each l (fun '(key, value) => restore_weight_decay key value) w
  = (Ok tt, set_optimizer (restored l (optimizer w)) w).
Proof.
  revert w. induction l as [|[k v] l IH]; intros w Hl.
  - destruct w; reflexivity.
  - apply Forall_cons in Hl as [(o & Ho & Hg) Hl]. cbn [fst] in Ho.
    cbn [for_each]. unfold bind, restore_weight_decay at 1. rewrite Ho.
    destruct (param_groups o) as [|g0 gs] eqn:Eg; [congruence|].
    assert (Ew : set_param_groups (set_weight_decay v g0 :: gs) o = with_wd v o)
      by (unfold with_wd; rewrite Eg; reflexivity).
    rewrite Ew, IH.
    + cbn [restored fold_left fst snd optimizer set_optimizer]. rewrite Ho.
      reflexivity.
    + cbn [optimizer set_optimizer].
      eapply Forall_impl; [exact Hl|]. intros item.
      apply has_optimizer_set; [assumption|congruence].
Qed.

Lemma dict_get_restored_notin (key : string) (l : dict Q) (d : dict Torch.optimizer) :
  ~ In key (keys l) -> dict_get key (restored l d) = dict_get key d.
Proof.
  revert d. induction l as [|[k v] l IH]; intros d Hnot; [reflexivity|].
  cbn in Hnot. cbn [restored fold_left fst snd].
  change (fold_left _ l ?a) with (restored l a).
  rewrite IH by tauto.
  destruct (dict_get k d); [|reflexivity].
  apply dict_get_set_ne. intros ->. tauto.
Qed.

Lemma dict_get_restored (key : string) (wd : Q) (l : dict Q) (d : dict Torch.optimizer) :
  List.NoDup (keys l) -> dict_get key l = Some wd ->
  dict_get key (restored l d) = with_wd wd <$> dict_get key d.
Proof.
  revert d. induction l as [|[k v] l IH]; intros d Hnd Hget; [discriminate|].
  cbn in Hnd. apply List.NoDup_cons_iff in Hnd as [Hk Hnd].
  cbn [dict_get] in Hget. cbn [restored fold_left fst snd].
  change (fold_left _ l ?a) with (restored l a).
  destruct (String.eqb_spec key k) as [->|Hne].
  - injection Hget as ->. rewrite dict_get_restored_notin by assumption.
    destruct (dict_get k d) eqn:E; [|rewrite E; reflexivity].
    rewrite dict_get_set_eq. reflexivity.
  - rewrite (IH _ Hnd Hget).
    destruct (dict_get k d); [|reflexivity].
    rewrite dict_get_set_ne by congruence. reflexivity.
Qed.

Lemma keys_dict_set {V} (k k' : string) (v : V) (d : dict V) :
  In k' (keys (dict_set k v d)) <-> k' = k \/ In k' (keys d).
Proof.
  induction d as [|[k0 v0] d IH]; cbn.
  - intuition congruence.
  - destruct (String.eqb_spec k k0) as [->|Hne]; cbn.
    + intuition congruence.
    + rewrite IH. intuition congruence.
Qed.

Lemma NoDup_dict_set {V} (k : string) (v : V) (d : dict V) :
  List.NoDup (keys d) -> List.NoDup (keys (dict_set k v d)).
Proof.
  induction d as [|[k0 v0] d IH]; cbn; intros Hnd.
  - constructor; [intros []|constructor].
  - apply List.NoDup_cons_iff in Hnd as [Hk Hnd].
    destruct (String.eqb_spec k k0) as [->|Hne]; cbn.
    + constructor; assumption.
    + constructor; [|auto].
      fold (keys (dict_set k v d)). rewrite keys_dict_set. intuition congruence.
Qed.

Lemma wds_of_keys (acc : dict Q) (l : dict Torch.optimizer) :
  (List.NoDup (keys acc) -> List.NoDup (keys (wds_of acc l))) /\
  (forall k, In k (keys (wds_of acc l)) -> In k (keys acc) \/ In k (keys l)).
Proof.
  revert acc. induction l as [|[k o] l IH]; intros acc; [cbn; auto|].
  cbn [wds_of fold_left fst snd].
  change (fold_left _ l ?a) with (wds_of a l).
  destruct (Qlt_le_dec 0 (configured_wd o)).
  - destruct (IH (dict_set k (configured_wd o) acc)) as [IH1 IH2]. split.
    + intros Hnd. apply IH1, NoDup_dict_set, Hnd.
    + intros k' Hin. apply IH2 in Hin as [Hin|Hin]; [|cbn; auto].
      apply keys_dict_set in Hin as [->|Hin]; cbn; auto.
  - destruct (IH acc) as [IH1 IH2]. split; [assumption|].
    intros k' Hin. apply IH2 in Hin as [Hin|Hin]; cbn; auto.
Qed.

Lemma In_keys_dict_get {V} (k : string) (d : dict V) :
  In k (keys d) -> exists v, dict_get k d = Some v /\ In (k, v) d.
Proof.
  induction d as [|[k0 v0] d IH]; cbn; [intros []|].
  intros Hin. destruct (String.eqb_spec k k0) as [->|Hne]; [eauto|].
  destruct Hin as [->|Hin]; [congruence|].
  destruct (IH Hin) as (v & Hv & Hi). eauto.
Qed.

Lemma configured_wd_with_wd (v : Q) (o : Torch.optimizer) :
  param_groups o <> [] -> configured_wd (with_wd v o) = v.
Proof.
  unfold configured_wd, with_wd. destruct (param_groups o); [congruence|reflexivity].
Qed.

(** After [on_epoch_start], every recorded key still names an optimizer
    with parameter groups: [on_epoch_end] will not raise. *)
Lemma epoch_start_bracket (l : dict Torch.optimizer) :
  Forall has_groups l ->
  List.NoDup (keys (wds_of [] l)) /\
  Forall (has_optimizer (map zeroed_item l)) (wds_of [] l).
Proof.
  intros Hl. destruct (wds_of_keys [] l) as [Hnd Hk].
  split; [apply Hnd; constructor|].
  apply List.Forall_forall. intros [k v] Hin.
  assert (Hkin : In k (keys (wds_of [] l))) by (apply (in_map fst) in Hin; exact Hin).
  apply Hk in Hkin as [[]|Hkin].
  apply In_keys_dict_get in Hkin as (o & Ho & Hio).
  assert (Hg : param_groups o <> []).
  { rewrite List.Forall_forall in Hl. apply (Hl (k, o) Hio). }
  unfold has_optimizer. cbn [fst]. rewrite dict_get_zeroed, Ho. cbn.
  eexists. split; [reflexivity|].
  destruct (Qlt_le_dec 0 (configured_wd o)); [apply with_wd_groups|]; assumption.
Qed.


Lemma on_batch_end_standard (w : world) :
  RunState.is_train (state w) = true -> fp16 (self w) = false ->
  optimizer w <> [] ->
  on_batch_end step clip_grad_norm_ loss_grad w
  = (Ok tt,
     set_optimizer
       (grad_step step clip_grad_norm_ (self w)
          (map (fun '(k, value) => (k, backward loss_grad 1 value))
             (map (fun '(k, value) => (k, zero_grad value)) (optimizer w)))) w).
Proof.
  intros Htrain Hfp Hne. destruct w as [s st m opt]. cbn in *.
  unfold on_batch_end, bind, get. cbn. rewrite Htrain, Hfp. cbn.
  rewrite !length_map. destruct opt; [congruence|]. reflexivity.
Qed.

(** Without a recorded weight decay the update is the optimizer's step
    alone, whatever [grad_clip] is. *)
Lemma grad_step_item_no_decay (s : t) (key : string) (value : Torch.optimizer) :
  dict_get key (optimizer_wds s) = None ->
  grad_step_item step clip_grad_norm_ s key value = step value.
Proof. intros H. unfold grad_step_item. rewrite H. reflexivity. Qed.



End OptimizerFacts.

Section OptimizerExamples.
Import Torch BasicOptimizerCallback OptimizerSpec.
Local Open Scope Q_scope.

Lemma fp16_batch_end_optimizer_count_witness :
  exists w', on_batch_end sgd_step clip_norm1 gradient_example fp16_empty_example
               = (Ok tt, w') /\
    optimizer w' = [] /\
    map data (parameters (model w')) = [[1]].
Proof.
  destruct (fp16_batch_end_optimizer_count sgd_step clip_norm1 gradient_example
              fp16_empty_example) as (_ & H).
  - reflexivity.
  - reflexivity.
  - apply H. reflexivity.
Defined.

(** C9 as worded fails: with no optimizer configured (a number that is
    not exactly one) the reduced-precision batch-end raises nothing. *)
Lemma fp16_batch_end_counterexample :
  length (optimizer fp16_empty_example) <> 1%nat /\
  fst (on_batch_end sgd_step clip_norm1 gradient_example fp16_empty_example) = Ok tt.
Proof. split; [discriminate|reflexivity]. Qed.

Lemma fp16_batch_end_main_key_witness :
  exists w', on_batch_end sgd_step clip_norm1 gradient_example (fp16_example "adam")
               = (Raise KeyError, w') /\
    optimizer w' = optimizer (fp16_example "adam") /\
    map data (parameters (model w')) = [[1]].
Proof.
  destruct (fp16_batch_end_main_key sgd_step clip_norm1 gradient_example
              (fp16_example "adam") "adam"
              (mk_optimizer
                 [mk_group [mk_param "master" [1] [0] true] (1 # 10) None None None]))
    as (H & _).
  - reflexivity.
  - reflexivity.
  - reflexivity.
  - apply H. discriminate.
Defined.

Example fp16_batch_end_main_runs :
  let r := on_batch_end sgd_step clip_norm1 gradient_example (fp16_example "main") in
  fst r = Ok tt /\
  Forall2 (Forall2 Qeq) (map data (parameters (model (snd r)))) [[0]] /\
  Forall2 (Forall2 Qeq) (map grad (parameters (model (snd r)))) [[1280]].
Proof.
  cbv zeta. split; [reflexivity|].
  split; vm_compute; repeat constructor.
Qed.


(** The whole bracket on the example: the field is 0 during the epoch,
    the batch-end shrinks [2] to [2 - 0.01 * 0.1 * 2] before the step
    subtracts [lr * grad = 0.01 * 10], and the epoch-end restores 0.1. *)
Example decoupled_weight_decay_runs :
  let w1 := snd (on_epoch_start decay_example) in
  let w2 := snd (on_batch_end sgd_step clip_norm1 gradient_example w1) in
  let w3 := snd (on_epoch_end w2) in
  (configured_wd <$> dict_get "main" (optimizer w1)) = Some 0 /\
  Forall2 (Forall2 Qeq)
    (flat_map (fun o => flat_map (fun g => map data (params g)) (param_groups o))
              (map snd (optimizer w2)))
    [[2 - (1 # 100) * (1 # 10) * 2 - (1 # 100) * 10]] /\
  (configured_wd <$> dict_get "main" (optimizer w3)) = Some (1 # 10).
Proof.
  cbv zeta. split; [reflexivity|]. split; [|reflexivity].
  vm_compute. repeat constructor.
Qed.


(** C6 fails on the code. With clipping configured ([grad_clip = 1]) and
    one optimizer without weight decay, the batch-end steps on the
    unclipped gradient [10]: the parameter goes from [1] to
    [1 - 0.1 * 10 = 0], where clipping the gradient to norm 1 first would
    have given [1 - 0.1 * 1 = 0.9]. *)
Lemma grad_clip_skipped_without_weight_decay :
  let r := on_batch_end sgd_step clip_norm1 gradient_example no_decay_example in
  let o1 := backward gradient_example 1
              (zero_grad
                 (mk_optimizer
                    [mk_group [mk_param "w" [1] [0] true] (1 # 10) None None None])) in
  grad_clip (self no_decay_example) = Some 1 /\
  fst r = Ok tt /\
  optimizer (snd r) = [("main", sgd_step o1)] /\
  Forall2 (Forall2 Qeq)
    (flat_map (fun g => map data (params g)) (param_groups (sgd_step o1))) [[0]] /\
  Forall2 (Forall2 Qeq)
    (flat_map (fun g => map data (params g))
       (param_groups
          (grad_step_item_spec sgd_step clip_norm1 (self no_decay_example) "main" o1)))
    [[9 # 10]].
Proof.
  cbv zeta. split; [reflexivity|]. split; [reflexivity|]. split; [reflexivity|].
  split; vm_compute; repeat constructor.
Qed.

End OptimizerExamples.

Section CheckpointFacts.
Import Torch CheckpointCallback CheckpointSpec.
Local Open Scope Q_scope.

Variable module_load_state_dict : Torch.model -> pyval -> result Torch.model.
Variable optimizer_load_state_dict : Torch.optimizer -> pyval -> result Torch.optimizer.
Variable module_state_dict : Torch.model -> pyval.
Variable optimizer_state_dict : Torch.optimizer -> pyval.
Variable py_str : pyval -> string.
Variable sorted : bool -> list (string * pyval) -> result (list (string * pyval)).
Variable checkpoint_path : option string -> string -> string.
Variable best_path : option string -> string.

Abbreviation save_checkpoint :=
  (CheckpointCallback.save_checkpoint py_str sorted checkpoint_path best_path).
Abbreviation on_epoch_end :=
  (CheckpointCallback.on_epoch_end module_state_dict optimizer_state_dict py_str
     sorted checkpoint_path best_path).

Lemma keeps_bind {A B} (m : M world A) (k : A -> M world B) :
  keeps_state m -> (forall a, keeps_state (k a)) -> keeps_state (bind m k).
Proof.
  intros Hm Hk w. unfold bind. specialize (Hm w).
  destruct (m w) as [[a|e] w1]; cbn in *; [rewrite Hk|]; assumption.
Qed.

Lemma keeps_ret {A} (a : A) : keeps_state (ret a).
Proof. intros w. reflexivity. Qed.
Lemma keeps_raise {A} (e : exn) : keeps_state (@raise world A e).
Proof. intros w. reflexivity. Qed.
Lemma keeps_lift {A} (r : result A) : keeps_state (lift r).
Proof. intros w. reflexivity. Qed.
Lemma keeps_get : keeps_state get.
Proof. intros w. reflexivity. Qed.
Lemma keeps_modify (f : world -> world) :
  (forall w, state (f w) = state w) -> keeps_state (modify f).
Proof. intros Hf w. apply Hf. Qed.

Ltac keeps :=
  repeat first
    [ apply keeps_ret | apply keeps_raise | apply keeps_lift | apply keeps_get
    | apply keeps_modify; intros; reflexivity
    | apply keeps_bind; [|intros]
    | match goal with
      | |- keeps_state (match ?x with _ => _ end) => destruct x
      | |- keeps_state (if ?x then _ else _) => destruct x
      end ].

(** [save_checkpoint] touches the callback and the files only. *)
Lemma save_checkpoint_state (logdir : option string) (ck : pyval) (is_best : bool)
    (n : Z) : keeps_state (save_checkpoint logdir ck is_best n).
Proof.
  unfold CheckpointCallback.save_checkpoint, helpers_save_checkpoint, os_remove.
  keeps.
Qed.

(** *** The sort *)

Lemma precedes_better (min : bool) (x y : string * pyval) :
  precedes min x y = true -> better_eq min x y.
Proof.
  unfold precedes, better_eq. destruct min; rewrite negb_true_iff; intros H;
    apply Qlt_le_weak, Qnot_le_lt; intros Hle; apply Qle_bool_iff in Hle; congruence.
Qed.

Lemma not_precedes_better (min : bool) (x y : string * pyval) :
  precedes min x y = false -> better_eq min y x.
Proof.
  unfold precedes, better_eq. destruct min; rewrite negb_false_iff; intros H;
    apply Qle_bool_iff; assumption.
Qed.

Lemma better_eq_trans (min : bool) (x y z : string * pyval) :
  better_eq min x y -> better_eq min y z -> better_eq min x z.
Proof. unfold better_eq. destruct min; intros; eapply Qle_trans; eauto. Qed.

Lemma insert_perm (min : bool) (x : string * pyval) (l : list (string * pyval)) :
  Permutation (insert min x l) (x :: l).
Proof.
  induction l as [|y l IH]; cbn; [reflexivity|].
  destruct (precedes min y x); [|reflexivity].
  rewrite IH. apply perm_swap.
Qed.

Lemma stable_sort_perm (min : bool) (l : list (string * pyval)) :
  Permutation (stable_sort min l) l.
Proof.
  induction l as [|x l IH]; cbn; [reflexivity|].
  rewrite insert_perm, IH. reflexivity.
Qed.

Lemma stable_sort_length (min : bool) (l : list (string * pyval)) :
  length (stable_sort min l) = length l.
Proof. apply Permutation_length, stable_sort_perm. Qed.

Lemma insert_HdRel (min : bool) (a x : string * pyval) (l : list (string * pyval)) :
  better_eq min a x -> HdRel (better_eq min) a l ->
  HdRel (better_eq min) a (insert min x l).
Proof.
  intros Hax Hal. destruct l as [|y l]; cbn; [constructor; assumption|].
  destruct (precedes min y x); constructor; [|assumption].
  inversion Hal; assumption.
Qed.

Lemma insert_Sorted (min : bool) (x : string * pyval) (l : list (string * pyval)) :
  Sorted (better_eq min) l -> Sorted (better_eq min) (insert min x l).
Proof.
  induction l as [|y l IH]; intros Hs; cbn.
  - repeat constructor.
  - inversion Hs as [|? ? Hl Hy]; subst.
    destruct (precedes min y x) eqn:E.
    + constructor; [auto|]. apply insert_HdRel; [|assumption].
      apply precedes_better; assumption.
    + constructor; [assumption|]. constructor.
      apply not_precedes_better; assumption.
Qed.

Lemma stable_sort_Sorted (min : bool) (l : list (string * pyval)) :
  Sorted (better_eq min) (stable_sort min l).
Proof. induction l; cbn; [constructor|apply insert_Sorted; assumption]. Qed.

(** *** The pop *)

Lemma pop_last_snoc {A} (l : list A) :
  l <> [] -> exists init last, pop_last l = Some (init, last) /\ l = (init ++ [last])%list.
Proof.
  induction l as [|x l IH]; [congruence|]. intros _.
  destruct l as [|y l].
  - exists [], x. split; reflexivity.
  - destruct IH as (init & last & Hp & Hl); [discriminate|].
    exists (x :: init), last. cbn [pop_last] in *. rewrite Hp, Hl.
    split; reflexivity.
Qed.

Lemma Sorted_snoc (min : bool) (init : list (string * pyval)) (last : string * pyval) :
  Sorted (better_eq min) (init ++ [last])%list ->
  Sorted (better_eq min) init /\ Forall (fun e => better_eq min e last) init.
Proof.
  intros Hs. apply Sorted_StronglySorted in Hs.
  2: { intros x y z. apply better_eq_trans. }
  induction init as [|x init IH]; [split; constructor|].
  cbn in Hs. inversion Hs as [|? ? Hrest Hall]; subst.
  destruct (IH Hrest) as [IHs IHf]. split.
  - constructor; [assumption|].
    destruct init; constructor. inversion Hall; assumption.
  - constructor; [|assumption].
    rewrite List.Forall_forall in Hall. apply Hall, in_or_app. right. left. reflexivity.
Qed.

(** *** One save *)

(** A save that reads a metric: the file is written, the entry is
    appended, and the list goes to [sorted], whose outcome decides the
    rest. When [sorted] raises, the appended entry stays in the list. *)
Lemma save_checkpoint_run (w : world) (logdir : option string) (ck : pyval)
    (is_best : bool) (n : Z) (epoch metric : pyval) :
  epoch_of ck = Ok epoch -> metric_read ck (main_metric (self w)) = Ok metric ->
  let path := checkpoint_path logdir (py_str epoch) in
  let fs1 := written (best_path logdir) path ck is_best (fs w) in
  let l0 := (top_best_metrics (self w) ++ [(path, metric)])%list in
  save_checkpoint logdir ck is_best n w
  = match sorted (negb (minimize (self w))) l0 with
    | Raise e => (Raise e, retaining l0 fs1 w)
    | Ok l1 =>
        if (Z.of_nat (length l1) >? n)%Z then
          match pop_last l1 with
          | Some (rest, last_item) =>
              match fs1 !! fst last_item with
              | Some _ => (Ok tt, retaining rest (delete (fst last_item) fs1) w)
              | None => (Raise FileNotFoundError, retaining rest fs1 w)
              end
          | None => (Raise IndexError, retaining l1 fs1 w)
          end
        else (Ok tt, retaining l1 fs1 w)
    end.
Proof.
  intros He Hr path fs1 l0.
  unfold CheckpointCallback.save_checkpoint, helpers_save_checkpoint.
  unfold epoch_of in He. unfold metric_read in Hr.
  unfold bind at 1, lift at 1. rewrite He. fold path.
  assert (Hw : (modify (fun w => set_fs (<[path := ck]> (fs w)) w) ;;
                (if is_best
                 then modify (fun w => set_fs (<[best_path logdir := ck]> (fs w)) w)
                 else ret tt) ;; ret path) w = (Ok path, set_fs fs1 w)).
  { unfold bind, modify, ret. subst fs1. unfold written.
    destruct is_best; reflexivity. }
  unfold bind at 1. rewrite Hw. clear Hw.
  unfold bind at 1, get at 1.
  unfold bind at 1, lift at 1.
  destruct (getitem ck "valid_metrics") as [vm|e]; [|discriminate].
  unfold bind at 1, lift at 1. cbn [self set_fs]. rewrite Hr.
  unfold bind at 1, modify at 1.
  unfold bind at 1, get at 1.
  unfold bind at 1, lift at 1.
  cbn [self set_self set_fs top_best_metrics set_top_best_metrics minimize].
  fold l0.
  destruct (sorted (negb (minimize (self w))) l0) as [l1|e]; [|reflexivity].
  unfold bind at 1, modify at 1.
  unfold bind at 1, get at 1.
  cbn [self set_self set_fs top_best_metrics set_top_best_metrics minimize].
  destruct (Z.of_nat (length l1) >? n)%Z; [|reflexivity].
  destruct (pop_last l1) as [[rest last_item]|]; [|reflexivity].
  unfold os_remove, bind, modify, get, raise. cbn [fs set_self set_fs].
  destruct (fs1 !! fst last_item); reflexivity.
Qed.

Lemma ranked_by_read (ck : pyval) (main : string) (q : Q) :
  ranked_by ck main = Ok q <->
  exists metric, metric_read ck main = Ok metric /\ number metric = Ok q.
Proof.
  unfold ranked_by. split.
  - destruct (metric_read ck main) as [metric|e]; [eauto|discriminate].
  - intros (metric & -> & Hq). exact Hq.
Qed.

Lemma ordered_snoc (l : list (string * pyval)) (path : string) (metric : pyval) (q : Q) :
  Forall ordered l -> number metric = Ok q ->
  Forall ordered (l ++ [(path, metric)])%list.
Proof.
  intros Hl Hq. apply Forall_app. split; [exact Hl|].
  constructor; [exists q; exact Hq|constructor].
Qed.

Lemma ordered_perm (l l' : list (string * pyval)) :
  Permutation l l' -> Forall ordered l -> Forall ordered l'.
Proof.
  intros Hp Hl. apply List.Forall_forall. intros x Hx.
  rewrite List.Forall_forall in Hl. apply Hl.
  eapply Permutation_in; [apply Permutation_sym, Hp|exact Hx].
Qed.

(** With ordered numbers throughout, [sorted] is the stable sort. *)
Lemma save_checkpoint_sorted (w : world) (logdir : option string) (ck : pyval)
    (is_best : bool) (n : Z) (epoch metric : pyval) (q : Q) :
  sorts_numbers sorted ->
  epoch_of ck = Ok epoch -> metric_read ck (main_metric (self w)) = Ok metric ->
  number metric = Ok q -> Forall ordered (top_best_metrics (self w)) ->
  let path := checkpoint_path logdir (py_str epoch) in
  let fs1 := written (best_path logdir) path ck is_best (fs w) in
  let l1 := stable_sort (minimize (self w))
              (top_best_metrics (self w) ++ [(path, metric)]) in
  save_checkpoint logdir ck is_best n w
  = if (Z.of_nat (length l1) >? n)%Z then
      match pop_last l1 with
      | Some (rest, last_item) =>
          match fs1 !! fst last_item with
          | Some _ => (Ok tt, retaining rest (delete (fst last_item) fs1) w)
          | None => (Raise FileNotFoundError, retaining rest fs1 w)
          end
      | None => (Raise IndexError, retaining l1 fs1 w)
      end
    else (Ok tt, retaining l1 fs1 w).
Proof.
  intros Hsort He Hr Hq Hord path fs1 l1.
  rewrite (save_checkpoint_run w logdir ck is_best n epoch metric He Hr).
  cbv zeta. fold path fs1.
  rewrite Hsort by (apply (ordered_snoc _ _ _ q); assumption).
  rewrite negb_involutive. reflexivity.
Qed.

(** A save that cannot read its metric leaves the callback as it was. *)
Lemma save_checkpoint_unranked (w : world) (logdir : option string) (ck : pyval)
    (is_best : bool) (n : Z) :
  (forall epoch, epoch_of ck <> Ok epoch) \/
  (forall v, metric_read ck (main_metric (self w)) <> Ok v) ->
  self (snd (save_checkpoint logdir ck is_best n w)) = self w.
Proof.
  intros H.
  unfold CheckpointCallback.save_checkpoint, helpers_save_checkpoint.
  unfold epoch_of, metric_read in H.
  unfold bind at 1, lift at 1.
  destruct (match ck with PyDict _ => _ | _ => _ end) as [epoch|e] eqn:He.
  2: reflexivity.
  destruct H as [H|H]; [exfalso; eapply H; reflexivity|].
  match goal with
  | |- context [bind (bind ?m ?k) ?k2] =>
      assert (Hw : exists fs1, bind m k w = (Ok (checkpoint_path logdir (py_str epoch)), set_fs fs1 w))
  end.
  { unfold bind, modify, ret. destruct is_best; eexists; reflexivity. }
  destruct Hw as (fs1 & Hw).
  unfold bind at 1. rewrite Hw.
  unfold bind at 1, get at 1.
  unfold bind at 1, lift at 1.
  destruct (getitem ck "valid_metrics") as [vm|e]; [|reflexivity].
  unfold bind at 1, lift at 1. cbn [self set_fs].
  destruct (getitem vm (main_metric (self w))) as [metric|e]; [|reflexivity].
  exfalso. eapply H. reflexivity.
Qed.

Lemma result_cases {A} (r : result A) :
  (exists a, r = Ok a) \/ (forall a, r <> Ok a).
Proof. destruct r; [left; eauto|right; discriminate]. Qed.

(** Whatever [sorted] does and whatever the outcome, a save keeps the
    configuration of the callback. *)
Lemma save_checkpoint_config (w : world) (logdir : option string) (ck : pyval)
    (is_best : bool) (n : Z) :
  let w' := snd (save_checkpoint logdir ck is_best n w) in
  minimize (self w') = minimize (self w) /\
  save_n_best (self w') = save_n_best (self w) /\
  main_metric (self w') = main_metric (self w) /\
  CheckpointCallback.logdir (self w') = CheckpointCallback.logdir (self w).
Proof.
  intros w'. subst w'.
  destruct (result_cases (epoch_of ck)) as [[epoch He]|He].
  2: { rewrite save_checkpoint_unranked by auto. tauto. }
  destruct (result_cases (metric_read ck (main_metric (self w)))) as [[metric Hr]|Hr].
  2: { rewrite save_checkpoint_unranked by auto. tauto. }
  rewrite (save_checkpoint_run w logdir ck is_best n epoch metric He Hr).
  cbv zeta. destruct (sorted _ _) as [l1|e]; [|cbn; tauto].
  destruct (_ >? _)%Z; [|cbn; tauto].
  destruct (pop_last l1) as [[rest last_item]|]; [|cbn; tauto].
  destruct (_ !! _); cbn; tauto.
Qed.

(** When the metric read, if any, is an ordered number, a save keeps the
    retained list made of ordered numbers, sorted and within the bound,
    whatever its outcome. *)
Lemma save_checkpoint_bounded (w : world) (logdir : option string) (ck : pyval)
    (is_best : bool) :
  sorts_numbers sorted -> rankable ck (main_metric (self w)) ->
  let w' := snd (save_checkpoint logdir ck is_best (save_n_best (self w)) w) in
  minimize (self w') = minimize (self w) /\
  save_n_best (self w') = save_n_best (self w) /\
  main_metric (self w') = main_metric (self w) /\
  CheckpointCallback.logdir (self w') = CheckpointCallback.logdir (self w) /\
  (bounded_sorted w -> bounded_sorted w').
Proof.
  intros Hsort Hrank w'.
  destruct (save_checkpoint_config w logdir ck is_best (save_n_best (self w)))
    as (Hmin & Hn & Hm & Hl). fold w' in Hmin, Hn, Hm, Hl.
  do 4 (split; [assumption|]).
  intros (Hord & Hs & Hlen). unfold bounded_sorted. rewrite Hmin, Hn.
  subst w'.
  destruct (result_cases (epoch_of ck)) as [[epoch He]|He].
  2: { rewrite save_checkpoint_unranked by auto. tauto. }
  destruct (result_cases (metric_read ck (main_metric (self w)))) as [[metric Hr]|Hr].
  2: { rewrite save_checkpoint_unranked by auto. tauto. }
  destruct (Hrank metric Hr) as [q Hq].
  rewrite (save_checkpoint_sorted w logdir ck is_best _ epoch metric q Hsort He Hr Hq Hord).
  set (path := checkpoint_path logdir (py_str epoch)).
  set (l1 := stable_sort (minimize (self w))
               (top_best_metrics (self w) ++ [(path, metric)])).
  assert (Hs1 : Sorted (better_eq (minimize (self w))) l1) by apply stable_sort_Sorted.
  assert (Ho1 : Forall ordered l1).
  { eapply ordered_perm; [apply Permutation_sym, stable_sort_perm|].
    apply (ordered_snoc _ _ _ q); assumption. }
  assert (Hlen1 : length l1 = S (length (top_best_metrics (self w)))).
  { subst l1. rewrite stable_sort_length, length_app. cbn. lia. }
  destruct (Z.gtb_spec (Z.of_nat (length l1)) (save_n_best (self w))) as [Hgt|Hle].
  - destruct (pop_last_snoc l1) as (rest & last_item & Hp & Hl1).
    { intros E. rewrite E in Hlen1. discriminate. }
    rewrite Hp.
    assert (Hb : Forall ordered rest /\
                 Sorted (better_eq (minimize (self w))) rest /\
                 (Z.of_nat (length rest) <= save_n_best (self w))%Z).
    { rewrite Hl1 in Hs1, Ho1. apply Sorted_snoc in Hs1 as [Hsr _].
      apply Forall_app in Ho1 as [Hor _].
      split; [assumption|]. split; [assumption|].
      rewrite Hl1, length_app in Hlen1. cbn in Hlen1. lia. }
    destruct (_ !! _); cbn; exact Hb.
  - cbn. split; [assumption|]. split; [assumption|lia].
Qed.

Lemma written_is_Some (best path p : string) (ck : pyval) (is_best : bool)
    (files : gmap string pyval) :
  is_Some (files !! p) \/ p = path ->
  is_Some (written best path ck is_best files !! p).
Proof.
  intros H. unfold written.
  assert (H1 : is_Some (<[path := ck]> files !! p)).
  { rewrite lookup_insert_is_Some. destruct H as [H| ->]; [|auto].
    destruct (decide (path = p)); auto. }
  destruct is_best; [|assumption].
  rewrite lookup_insert_is_Some. destruct (decide (best = p)); auto.
Qed.

(** A save with an ordered metric, to a path that no retained entry
    uses, returns normally; beyond the bound, the tail of the sorted list
    is dropped and its file, which is there, is removed. *)
Lemma save_checkpoint_fresh (w : world) (ck : pyval) (is_best : bool)
    (epoch metric : pyval) (q : Q) :
  let logdir := CheckpointCallback.logdir (self w) in
  let n := save_n_best (self w) in
  let min := minimize (self w) in
  let path := checkpoint_path logdir (py_str epoch) in
  let fs1 := written (best_path logdir) path ck is_best (fs w) in
  let l1 := stable_sort min (top_best_metrics (self w) ++ [(path, metric)]) in
  sorts_numbers sorted ->
  epoch_of ck = Ok epoch -> metric_read ck (main_metric (self w)) = Ok metric ->
  number metric = Ok q -> Forall ordered (top_best_metrics (self w)) ->
  ~ In path (map fst (top_best_metrics (self w))) ->
  files_kept w ->
  exists w',
    save_checkpoint logdir ck is_best n w = (Ok tt, w') /\
    files_kept w' /\ Forall ordered (top_best_metrics (self w')) /\
    (forall p, In p (map fst (top_best_metrics (self w'))) ->
               p = path \/ In p (map fst (top_best_metrics (self w)))) /\
    ((Z.of_nat (length l1) <= n)%Z -> w' = retaining l1 fs1 w) /\
    ((n < Z.of_nat (length l1))%Z ->
     exists rest last_item,
       l1 = (rest ++ [last_item])%list /\
       Forall (fun e => better_eq min e last_item) rest /\
       is_Some (fs1 !! fst last_item) /\
       w' = retaining rest (delete (fst last_item) fs1) w).
Proof.
  intros logdir n min path fs1 l1 Hsort He Hr Hq Hord Hfresh [Hnd Hfiles].
  rewrite (save_checkpoint_sorted w logdir ck is_best n epoch metric q Hsort He Hr Hq Hord).
  fold path fs1 min l1.
  assert (Hperm : Permutation l1 (top_best_metrics (self w) ++ [(path, metric)]))
    by apply stable_sort_perm.
  assert (Ho1 : Forall ordered l1).
  { eapply ordered_perm; [apply Permutation_sym, Hperm|].
    apply (ordered_snoc _ _ _ q); assumption. }
  assert (Hnd1 : List.NoDup (map fst l1)).
  { eapply Permutation.Permutation_NoDup.
    - apply Permutation_map, Permutation_sym, Hperm.
    - rewrite map_app. cbn. apply List.NoDup_app; [assumption| |].
      + constructor; [intros []|constructor].
      + intros x Hx [->|[]]. apply Hfresh. assumption. }
  assert (Hin1 : forall e, In e l1 ->
                           In e (top_best_metrics (self w)) \/ e = (path, metric)).
  { intros e Hin. eapply Permutation_in in Hin; [|exact Hperm].
    apply in_app_or in Hin as [Hin|[<-|[]]]; auto. }
  assert (Hf1 : Forall (fun e => is_Some (fs1 !! fst e)) l1).
  { apply List.Forall_forall. intros e Hin. apply written_is_Some.
    destruct (Hin1 e Hin) as [Hin'| ->]; [left|right; reflexivity].
    rewrite List.Forall_forall in Hfiles. auto. }
  assert (Hs1 : Sorted (better_eq min) l1) by apply stable_sort_Sorted.
  destruct (Z.gtb_spec (Z.of_nat (length l1)) n) as [Hgt|Hle].
  - destruct (pop_last_snoc l1) as (rest & last_item & Hp & Hl).
    { intros E. rewrite E in Hgt. cbn in Hgt.
      assert (0 <= Z.of_nat (length (top_best_metrics (self w))))%Z by lia.
      apply Permutation_length in Hperm. rewrite E, length_app in Hperm.
      cbn in Hperm. lia. }
    rewrite Hp.
    assert (Hlast : is_Some (fs1 !! fst last_item)).
    { rewrite List.Forall_forall in Hf1. apply Hf1. rewrite Hl.
      apply in_or_app. right. left. reflexivity. }
    destruct Hlast as [blob Hblob]. rewrite Hblob.
    eexists. split; [reflexivity|].
    rewrite Hl, map_app in Hnd1. cbn in Hnd1.
    pose proof (List.NoDup_app_remove_r _ _ Hnd1) as Hndr.
    pose proof (List.NoDup_remove_2 _ _ _ Hnd1) as Hdisj.
    rewrite app_nil_r in Hdisj.
    split; [|split; [|split; [|split]]].
    + split; cbn; [assumption|].
      apply List.Forall_forall. intros e Hin.
      rewrite lookup_delete_ne.
      * rewrite List.Forall_forall in Hf1. apply Hf1. rewrite Hl.
        apply in_or_app. left. assumption.
      * intros E. apply Hdisj. rewrite E. apply in_map, Hin.
    + cbn. rewrite Hl in Ho1. apply Forall_app in Ho1 as [Hor _]. exact Hor.
    + cbn. intros p Hin. apply in_map_iff in Hin as (e & <- & Hin).
      destruct (Hin1 e) as [Hin'| ->].
      * rewrite Hl. apply in_or_app. left. assumption.
      * right. apply in_map. assumption.
      * left. reflexivity.
    + intros Hle. lia.
    + intros _. exists rest, last_item. split; [assumption|].
      rewrite Hl in Hs1. apply Sorted_snoc in Hs1 as [_ Hall].
      split; [assumption|]. split; [eauto|reflexivity].
  - eexists. split; [reflexivity|].
    split; [|split; [|split; [|split]]].
    + split; cbn; assumption.
    + cbn. exact Ho1.
    + cbn. intros p Hin. apply in_map_iff in Hin as (e & <- & Hin).
      destruct (Hin1 e Hin) as [Hin'| ->]; [right; apply in_map; assumption|left; reflexivity].
    + intros _. reflexivity.
    + intros Hlt. lia.
Qed.

(** *** A run of saves *)

Abbreviation save_all :=
  (CheckpointCallback.save_all py_str sorted checkpoint_path best_path).

Lemma save_all_cons (ck : pyval) (is_best : bool) (events : list (pyval * bool))
    (w : world) :
  save_all ((ck, is_best) :: events) w
  = match save_checkpoint (logdir (self w)) ck is_best (save_n_best (self w)) w with
    | (Ok _, w1) => save_all events w1
    | (Raise e, w1) => (Raise e, w1)
    end.
Proof. reflexivity. Qed.

Lemma save_all_bounded (events : list (pyval * bool)) (w : world) :
  sorts_numbers sorted ->
  Forall (fun ev => rankable (fst ev) (main_metric (self w))) events ->
  let w' := snd (save_all events w) in
  minimize (self w') = minimize (self w) /\
  save_n_best (self w') = save_n_best (self w) /\
  main_metric (self w') = main_metric (self w) /\
  logdir (self w') = logdir (self w) /\
  (bounded_sorted w -> bounded_sorted w').
Proof.
  intros Hsort. revert w.
  induction events as [|[ck is_best] events IH]; intros w Hrank; cbv zeta.
  - cbn. tauto.
  - apply Forall_cons in Hrank as [Hck Hrank]. cbn [fst] in Hck.
    rewrite save_all_cons.
    pose proof (save_checkpoint_bounded w (logdir (self w)) ck is_best Hsort Hck)
      as (Hmin & Hn & Hm & Hl & Hb). cbv zeta in *.
    destruct (save_checkpoint _ _ _ _ w) as [[u|e] w1]; cbn [snd] in *.
    + destruct (IH w1) as (IHmin & IHn & IHm & IHl & IHb).
      { rewrite Hm. exact Hrank. }
      cbv zeta in *.
      do 4 (split; [congruence|]). auto.
    + do 4 (split; [assumption|]). assumption.
Qed.

Lemma save_all_fresh (events : list (pyval * bool)) (paths : list string) (w : world) :
  sorts_numbers sorted ->
  saves_to py_str checkpoint_path (logdir (self w)) (main_metric (self w)) events paths ->
  List.NoDup paths ->
  (forall p, In p paths -> ~ In p (map fst (top_best_metrics (self w)))) ->
  files_kept w -> Forall ordered (top_best_metrics (self w)) ->
  exists w',
    save_all events w = (Ok tt, w') /\ files_kept w' /\
    Forall ordered (top_best_metrics (self w')) /\
    (forall p, In p (map fst (top_best_metrics (self w'))) ->
               In p paths \/ In p (map fst (top_best_metrics (self w)))).
Proof.
  intros Hsort. revert paths w.
  induction events as [|[ck is_best] events IH];
    intros paths w Hsaves Hnd Hfresh Hkept Hord.
  - exists w. cbn. auto.
  - inversion Hsaves as [|? p ? paths' [(epoch & He & Hp) (v & Hr)] Hrest]; subst.
    cbn [fst] in *.
    apply ranked_by_read in Hr as (metric & Hr & Hq).
    apply List.NoDup_cons_iff in Hnd as [Hp Hnd].
    destruct (save_checkpoint_fresh w ck is_best epoch metric v Hsort He Hr Hq Hord)
      as (w1 & E1 & Hk1 & Ho1 & Hin1 & _).
    { apply Hfresh. left. reflexivity. }
    { assumption. }
    pose proof (save_checkpoint_config w (logdir (self w)) ck is_best (save_n_best (self w)))
      as (_ & _ & Hmain & Hlog). cbv zeta in *.
    rewrite save_all_cons, E1. rewrite E1 in Hmain, Hlog. cbn [snd] in *.
    destruct (IH paths' w1) as (w' & E' & Hk' & Ho' & Hin'); try assumption.
    { rewrite Hmain, Hlog. exact Hrest. }
    { intros q Hq' Hin. apply Hin1 in Hin as [->|Hin]; [contradiction|].
      apply (Hfresh q); [right; assumption|assumption]. }
    exists w'. split; [assumption|]. split; [assumption|]. split; [assumption|].
    intros q Hq'. apply Hin' in Hq' as [Hq'|Hq']; [left; right; assumption|].
    apply Hin1 in Hq' as [->|Hq']; [left; left; reflexivity|right; assumption].
Qed.

(** C2, as the code has it. [sorted] is taken as the language gives it:
    on metrics that are ordered numbers ([int]s, and [float]s other than
    [nan]) it returns the stably sorted list. Starting from an empty
    retained list, with a bound [save_n_best >= 0], and with saves whose
    metric, when one is read, is such a number: after any run of saves,
    and after one more, the retained list is sorted on the comparison
    metric (ascending when [minimize], descending otherwise, so the best
    entry is first) and no longer than [save_n_best]. When the saves read
    their metrics and write to distinct paths, every call returns
    normally; the new list is the sorted insertion, and when that exceeds
    the bound exactly its tail entry, than which every retained entry is
    at least as good, leaves the list, and its file is removed. *)
Theorem retained_checkpoints (w : world) (events : list (pyval * bool))
    (paths : list string) (ck : pyval) (is_best : bool) (epoch metric : pyval) :
  let logdir := logdir (self w) in
  let n := save_n_best (self w) in
  let min := minimize (self w) in
  let w1 := snd (save_all events w) in
  let w2 := snd (save_checkpoint logdir ck is_best n w1) in
  let path := checkpoint_path logdir (py_str epoch) in
  let fs1 := written (best_path logdir) path ck is_best (fs w1) in
  let l1 := stable_sort min (top_best_metrics (self w1) ++ [(path, metric)]) in
  sorts_numbers sorted ->
  top_best_metrics (self w) = [] -> (0 <= n)%Z ->
  Forall (fun ev => rankable (fst ev) (main_metric (self w))) events ->
  rankable ck (main_metric (self w)) ->
  Forall ordered (top_best_metrics (self w1))
  /\ Sorted (better_eq min) (top_best_metrics (self w1))
  /\ (Z.of_nat (length (top_best_metrics (self w1))) <= n)%Z
  /\ Forall ordered (top_best_metrics (self w2))
  /\ Sorted (better_eq min) (top_best_metrics (self w2))
  /\ (Z.of_nat (length (top_best_metrics (self w2))) <= n)%Z
  /\ (saves_to py_str checkpoint_path logdir (main_metric (self w)) events paths ->
      epoch_of ck = Ok epoch -> metric_read ck (main_metric (self w)) = Ok metric ->
      List.NoDup (path :: paths) ->
      fst (save_all events w) = Ok tt /\
      Sorted (better_eq min) l1 /\
      Permutation l1 (top_best_metrics (self w1) ++ [(path, metric)]) /\
      ((Z.of_nat (length l1) <= n)%Z ->
       save_checkpoint logdir ck is_best n w1 = (Ok tt, retaining l1 fs1 w1)) /\
      ((n < Z.of_nat (length l1))%Z ->
       exists rest last_item,
         l1 = (rest ++ [last_item])%list /\
         Forall (fun e => better_eq min e last_item) rest /\
         is_Some (fs1 !! fst last_item) /\
         save_checkpoint logdir ck is_best n w1
         = (Ok tt, retaining rest (delete (fst last_item) fs1) w1) /\
         top_best_metrics (self w2) = rest /\
         fs w2 !! fst last_item = None)).
Proof.
  intros logdir n min w1 w2 path fs1 l1 Hsort Hempty Hn Hevents Hck.
  assert (Hb0 : bounded_sorted w).
  { unfold bounded_sorted. rewrite Hempty.
    split; [constructor|]. split; [constructor|cbn; exact Hn]. }
  pose proof (save_all_bounded events w Hsort Hevents) as (Hmin1 & Hn1 & Hm1 & Hl1 & Hb1).
  cbv zeta in Hmin1, Hn1, Hm1, Hl1, Hb1. fold w1 in Hmin1, Hn1, Hm1, Hl1, Hb1.
  specialize (Hb1 Hb0).
  pose proof (save_checkpoint_bounded w1 (CheckpointCallback.logdir (self w1)) ck is_best
                Hsort) as Hsave2.
  rewrite Hm1 in Hsave2. specialize (Hsave2 Hck).
  destruct Hsave2 as (Hmin2 & Hn2 & _ & _ & Hb2).
  cbv zeta in Hmin2, Hn2, Hb2. rewrite Hl1, Hn1 in Hmin2, Hn2, Hb2.
  fold logdir n w2 in Hmin2, Hn2, Hb2.
  specialize (Hb2 Hb1).
  destruct Hb1 as (Ho1 & Hs1 & Hlen1). destruct Hb2 as (Ho2 & Hs2 & Hlen2).
  rewrite ?Hmin1 in Hs1. rewrite ?Hn1 in Hlen1.
  rewrite ?Hmin2, ?Hmin1 in Hs2. rewrite ?Hn2, ?Hn1 in Hlen2.
  fold min in Hs1, Hs2. fold n in Hlen1, Hlen2.
  do 6 (split; [assumption|]).
  intros Hsaves He Hr Hnd.
  destruct (Hck metric Hr) as [q Hq].
  apply List.NoDup_cons_iff in Hnd as [Hpath Hnd].
  destruct (save_all_fresh events paths w Hsort Hsaves Hnd) as (w1' & E1 & Hk1 & _ & Hin1).
  { intros p _. rewrite Hempty. intros []. }
  { unfold files_kept. rewrite Hempty. split; constructor. }
  { rewrite Hempty. constructor. }
  assert (Ew1 : w1' = w1) by (unfold w1; rewrite E1; reflexivity). subst w1'.
  destruct (save_checkpoint_fresh w1 ck is_best epoch metric q Hsort)
    as (w2' & E2 & _ & _ & _ & Hle & Hgt).
  { assumption. }
  { rewrite Hm1. assumption. }
  { assumption. }
  { assumption. }
  { rewrite Hl1. fold logdir path. intros Hin. apply Hin1 in Hin as [Hin|Hin].
    - contradiction.
    - rewrite Hempty in Hin. destruct Hin. }
  { assumption. }
  cbv zeta in E2, Hle, Hgt.
  rewrite ?Hl1, ?Hn1 in E2. rewrite ?Hl1, ?Hn1, ?Hmin1 in Hle.
  rewrite ?Hl1, ?Hn1, ?Hmin1 in Hgt.
  fold logdir n min in E2, Hle, Hgt. fold path in E2, Hle, Hgt.
  fold fs1 l1 in E2, Hle, Hgt.
  split; [rewrite E1; reflexivity|].
  split; [apply stable_sort_Sorted|]. split; [apply stable_sort_perm|].
  split.
  - intros H. rewrite E2, (Hle H). reflexivity.
  - intros H. destruct (Hgt H) as (rest & last_item & El & Hall & Hsome & Ew2).
    exists rest, last_item.
    split; [assumption|]. split; [assumption|]. split; [assumption|].
    split; [rewrite E2, Ew2; reflexivity|].
    unfold w2. rewrite E2, Ew2. cbn. split; [reflexivity|].
    apply lookup_delete_eq.
Qed.

Lemma process_epoch_metrics_first (em : dict pyval) (main : string) (min : bool) :
  process_epoch_metrics em PyNone main min
  = Ok (last_valid em, last_valid em, true).
Proof. reflexivity. Qed.

Lemma process_epoch_metrics_compare (em valid best : dict pyval) (main : string)
    (min : bool) (new old : Q) :
  last_valid em = PyDict valid ->
  metric_of valid main = Ok new -> metric_of best main = Ok old ->
  let is_best := if min then Qle_bool new old else negb (Qle_bool new old) in
  process_epoch_metrics em (PyDict best) main min
  = Ok (PyDict (if is_best then valid else best), PyDict valid, is_best).
Proof.
  intros Hv Hnew Hold is_best. unfold process_epoch_metrics. rewrite Hv.
  unfold metric_of in Hnew, Hold. cbn [getitem].
  destruct (dict_get main valid) as [vn|]; [|discriminate].
  destruct (dict_get main best) as [vo|]; [|discriminate].
  cbn [of_option].
  assert (Hgt : py_gt vn vo = Ok (negb (Qle_bool new old))).
  { destruct vn; try discriminate Hnew; destruct vo; try discriminate Hold;
      cbn in Hnew, Hold; injection Hnew as <-; injection Hold as <-; reflexivity. }
  rewrite Hgt.
  subst is_best. destruct min, (Qle_bool new old); reflexivity.
Qed.

(** The state after [on_epoch_end], once [process_epoch_metrics] has
    answered. *)
Lemma on_epoch_end_best_metrics (w : world) (best valid : dict pyval) (is_best : bool) :
  String.prefix "valid" (RunState.loader_mode (state w)) = true ->
  process_epoch_metrics (RunState.epoch_metrics (state w))
    (RunState.best_metrics (state w)) (main_metric (self w)) (minimize (self w))
  = Ok (PyDict best, PyDict valid, is_best) ->
  RunState.best_metrics (state (snd (on_epoch_end w))) = PyDict (only_floats best).
Proof.
  intros Hmode Hp. unfold CheckpointCallback.on_epoch_end.
  unfold bind at 1, get at 1. rewrite Hmode. cbn [negb].
  unfold bind at 1, lift at 1. rewrite Hp.
  unfold bind at 1, lift at 1. cbn [items].
  unfold bind at 1, lift at 1.
  unfold bind at 1, modify at 1.
  unfold bind at 1, get at 1.
  rewrite save_checkpoint_state. reflexivity.
Qed.

(** C3, as the code has it. At a validation epoch-end, [is_best] is true
    when there is no best snapshot yet; otherwise it is true exactly when
    the new main metric is [<=] the best one under [minimize], and
    exactly when it is strictly greater than the best one when
    maximizing (a tie is not an improvement then). [state.best_metrics]
    becomes the new snapshot if [is_best] and stays the previous one
    otherwise (in both cases restricted to its float entries). *)
Theorem best_metrics_decision (w : world) (valid : dict pyval) (new : Q) :
  let em := RunState.epoch_metrics (state w) in
  let main := main_metric (self w) in
  let min := minimize (self w) in
  let w' := snd (on_epoch_end w) in
  String.prefix "valid" (RunState.loader_mode (state w)) = true ->
  last_valid em = PyDict valid ->
  metric_of valid main = Ok new ->
  (RunState.best_metrics (state w) = PyNone ->
   process_epoch_metrics em PyNone main min = Ok (PyDict valid, PyDict valid, true) /\
   RunState.best_metrics (state w') = PyDict (only_floats valid))
  /\ (forall best old,
        RunState.best_metrics (state w) = PyDict best ->
        metric_of best main = Ok old ->
        exists is_best : bool,
          process_epoch_metrics em (PyDict best) main min
          = Ok (PyDict (if is_best then valid else best), PyDict valid, is_best) /\
          (is_best = true <-> if min then new <= old else old < new) /\
          RunState.best_metrics (state w')
          = PyDict (only_floats (if is_best then valid else best))).
Proof.
  intros em main min w' Hmode Hv Hnew. split.
  - intros Hnone. rewrite process_epoch_metrics_first. fold em. rewrite Hv.
    split; [reflexivity|].
    apply (on_epoch_end_best_metrics w valid valid true Hmode).
    rewrite Hnone, process_epoch_metrics_first. fold em. rewrite Hv. reflexivity.
  - intros best old Hbest Hold.
    pose proof (process_epoch_metrics_compare em valid best main min new old
                  Hv Hnew Hold) as Hp. cbv zeta in Hp.
    exists (if min then Qle_bool new old else negb (Qle_bool new old)).
    split; [exact Hp|]. split.
    + destruct min.
      * apply Qle_bool_iff.
      * rewrite negb_true_iff. split.
        -- intros Hf. apply Qnot_le_lt. intros Hle.
           apply Qle_bool_iff in Hle. congruence.
        -- intros Hlt. destruct (Qle_bool new old) eqn:E; [|reflexivity].
           apply Qle_bool_iff in E. exfalso. apply (Qlt_not_le _ _ Hlt E).
    + eapply on_epoch_end_best_metrics; [exact Hmode|].
      rewrite Hbest. exact Hp.
Qed.

End CheckpointFacts.

Section ListSortFacts.
Import CheckpointSpec.
Local Open Scope Q_scope.

(** *** Sorted lists *)

Lemma StronglySorted_app_intro {A} (R : A -> A -> Prop) (a b : list A) :
  StronglySorted R a -> StronglySorted R b ->
  (forall x y, In x a -> In y b -> R x y) -> StronglySorted R (a ++ b).
Proof.
  induction 1 as [|x a Ha IH Hx]; intros Hb Hab; cbn; [assumption|].
  constructor.
  - apply IH; [assumption|]. intros x' y Hx' Hy. apply Hab; [right|]; assumption.
  - apply Forall_app. split; [assumption|].
    apply List.Forall_forall. intros y Hy. apply Hab; [left; reflexivity|assumption].
Qed.

Lemma StronglySorted_app_inv {A} (R : A -> A -> Prop) (a b : list A) :
  StronglySorted R (a ++ b) ->
  StronglySorted R a /\ StronglySorted R b /\
  (forall x y, In x a -> In y b -> R x y).
Proof.
  induction a as [|x a IH]; cbn; intros H.
  - split; [constructor|]. split; [assumption|]. intros x y [].
  - apply StronglySorted_inv in H as [H Hx]. destruct (IH H) as (Ha & Hb & Hab).
    apply Forall_app in Hx as [Hxa Hxb].
    split; [constructor; assumption|]. split; [assumption|].
    intros x' y [<-|Hx'] Hy.
    + rewrite List.Forall_forall in Hxb. auto.
    + auto.
Qed.

Lemma StronglySorted_rev {A} (R : A -> A -> Prop) (l : list A) :
  StronglySorted R l -> StronglySorted (fun x y => R y x) (rev l).
Proof.
  induction 1 as [|x l Hl IH Hx]; cbn; [constructor|].
  apply StronglySorted_app_intro; [assumption|repeat constructor|].
  intros y x' Hy [<-|[]]. rewrite List.Forall_forall in Hx. apply Hx.
  apply in_rev. assumption.
Qed.

Lemma StronglySorted_weaken {A} (R R' : A -> A -> Prop) (l : list A) :
  (forall x y, R x y -> R' x y) -> StronglySorted R l -> StronglySorted R' l.
Proof.
  intros HR. induction 1 as [|x l Hl IH Hx]; constructor; [assumption|].
  eapply Forall_impl; [exact Hx|]. cbv beta. auto.
Qed.

Lemma Sorted_better_strong (min : bool) (l : list (string * pyval)) :
  Sorted (better_eq min) l -> StronglySorted (better_eq min) l.
Proof.
  apply Sorted_StronglySorted. intros x y z. apply better_eq_trans.
Qed.

(** *** Entries of one key *)

Lemma with_key_cons (k : Q) (x : string * pyval) (l : list (string * pyval)) :
  with_key k (x :: l)
  = if Qeq_bool (key_of x) k then x :: with_key k l else with_key k l.
Proof. reflexivity. Qed.

Lemma with_key_app (k : Q) (a b : list (string * pyval)) :
  with_key k (a ++ b) = (with_key k a ++ with_key k b)%list.
Proof. apply List.filter_app. Qed.

Lemma with_key_rev (k : Q) (l : list (string * pyval)) :
  with_key k (rev l) = rev (with_key k l).
Proof. apply List.filter_rev. Qed.

Lemma with_key_In (k : Q) (x : string * pyval) (l : list (string * pyval)) :
  In x (with_key k l) <-> In x l /\ key_of x == k.
Proof.
  unfold with_key. rewrite List.filter_In, Qeq_bool_iff. reflexivity.
Qed.

Lemma with_key_none (k : Q) (l : list (string * pyval)) :
  Forall (fun y => ~ key_of y == k) l -> with_key k l = [].
Proof.
  induction 1 as [|y l Hy Hl IH]; [reflexivity|].
  rewrite with_key_cons, IH.
  destruct (Qeq_bool (key_of y) k) eqn:E; [|reflexivity].
  apply Qeq_bool_iff in E. contradiction.
Qed.

(** Two sorted lists with the same entries of every key, in the same
    order, are the same list. *)
Lemma stable_unique (min : bool) (l1 l2 : list (string * pyval)) :
  StronglySorted (better_eq min) l1 -> StronglySorted (better_eq min) l2 ->
  (forall k, with_key k l1 = with_key k l2) -> l1 = l2.
Proof.
  intros H1. revert l2. induction H1 as [|x l1 Hl1 IH Hx]; intros l2 H2 Hk.
  - destruct l2 as [|y l2]; [reflexivity|].
    specialize (Hk (key_of y)). rewrite with_key_cons in Hk.
    rewrite (proj2 (Qeq_bool_iff _ _) (Qeq_refl _)) in Hk. discriminate.
  - destruct l2 as [|y l2].
    { specialize (Hk (key_of x)). rewrite with_key_cons in Hk.
      rewrite (proj2 (Qeq_bool_iff _ _) (Qeq_refl _)) in Hk. discriminate. }
    apply StronglySorted_inv in H2 as [H2 Hy].
    assert (Hxy : better_eq min x y).
    { assert (Hin : In y (with_key (key_of y) (x :: l1))).
      { rewrite Hk. apply with_key_In. split; [left; reflexivity|apply Qeq_refl]. }
      apply with_key_In in Hin as [[<-|Hin] _].
      - unfold better_eq. destruct min; apply Qle_refl.
      - rewrite List.Forall_forall in Hx. auto. }
    assert (Hyx : better_eq min y x).
    { assert (Hin : In x (with_key (key_of x) (y :: l2))).
      { rewrite <- Hk. apply with_key_In. split; [left; reflexivity|apply Qeq_refl]. }
      apply with_key_In in Hin as [[<-|Hin] _].
      - unfold better_eq. destruct min; apply Qle_refl.
      - rewrite List.Forall_forall in Hy. auto. }
    assert (Heq : key_of x == key_of y).
    { unfold better_eq in Hxy, Hyx. destruct min; apply Qle_antisym; assumption. }
    assert (Exy : x = y).
    { specialize (Hk (key_of x)). rewrite !with_key_cons in Hk.
      rewrite (proj2 (Qeq_bool_iff _ _) (Qeq_refl _)) in Hk.
      rewrite (proj2 (Qeq_bool_iff (key_of y) (key_of x))) in Hk
        by (symmetry; exact Heq).
      congruence. }
    subst y. f_equal. apply IH; [assumption|].
    intros k. specialize (Hk k). rewrite !with_key_cons in Hk.
    destruct (Qeq_bool (key_of x) k); congruence.
Qed.

(** The reference sort keeps the entries of every key in their order. *)
Lemma with_key_insert (min : bool) (k : Q) (x : string * pyval)
    (l : list (string * pyval)) :
  with_key k (insert min x l) = with_key k (x :: l).
Proof.
  induction l as [|y l IH]; [reflexivity|].
  cbn [insert]. destruct (precedes min y x) eqn:E; [|reflexivity].
  rewrite with_key_cons, IH, !with_key_cons.
  destruct (Qeq_bool (key_of y) k) eqn:Ey; [|reflexivity].
  destruct (Qeq_bool (key_of x) k) eqn:Ex; [|reflexivity].
  exfalso. apply Qeq_bool_iff in Ey, Ex.
  unfold precedes in E. destruct min; apply negb_true_iff in E;
    (assert (Hle : Qle_bool (key_of x) (key_of y) = true /\
                   Qle_bool (key_of y) (key_of x) = true)
      by (split; apply Qle_bool_iff; rewrite Ex, Ey; apply Qle_refl));
    destruct Hle; congruence.
Qed.

Lemma with_key_stable_sort (min : bool) (k : Q) (l : list (string * pyval)) :
  with_key k (stable_sort min l) = with_key k l.
Proof.
  induction l as [|x l IH]; [reflexivity|].
  cbn [stable_sort]. rewrite with_key_insert, !with_key_cons, IH. reflexivity.
Qed.

(** *** The list sort on ordered numbers *)

Lemma key_lt_true (x y : string * pyval) :
  ordered x -> ordered y -> key_lt x y = true -> key_of x < key_of y.
Proof.
  intros [a Ha] [b Hb]. unfold key_lt, key_of. rewrite Ha, Hb.
  rewrite negb_true_iff. intros E. apply Qnot_le_lt. intros Hle.
  apply Qle_bool_iff in Hle. congruence.
Qed.

Lemma key_lt_false (x y : string * pyval) :
  ordered x -> ordered y -> key_lt x y = false -> key_of y <= key_of x.
Proof.
  intros [a Ha] [b Hb]. unfold key_lt, key_of. rewrite Ha, Hb.
  rewrite negb_false_iff. apply Qle_bool_iff.
Qed.

(** The run at the front, when it ascends and when it strictly
    descends. *)
Lemma run_while_ascending (l : list (string * pyval)) :
  forall prev run rest,
    Forall ordered (prev :: l) ->
    run_while (fun x p => negb (key_lt x p)) prev l = (run, rest) ->
    l = (run ++ rest)%list /\ Sorted (better_eq true) (prev :: run).
Proof.
  induction l as [|x l IH]; intros prev run rest Hord E; cbn in E.
  - injection E as <- <-. split; [reflexivity|repeat constructor].
  - apply Forall_cons in Hord as [Hp Hord].
    destruct (key_lt x prev) eqn:Ex; cbn [negb] in E.
    + injection E as <- <-. split; [reflexivity|repeat constructor].
    + destruct (run_while _ x l) as [run' rest'] eqn:E'. injection E as <- <-.
      destruct (IH x run' rest' Hord E') as [-> Hs].
      split; [reflexivity|]. constructor; [assumption|]. constructor.
      apply Forall_cons in Hord as [Hx _].
      apply (key_lt_false x prev); assumption.
Qed.

Lemma run_while_descending (l : list (string * pyval)) :
  forall prev run rest,
    Forall ordered (prev :: l) ->
    run_while key_lt prev l = (run, rest) ->
    l = (run ++ rest)%list /\
    Sorted (fun a b => key_of b < key_of a) (prev :: run).
Proof.
  induction l as [|x l IH]; intros prev run rest Hord E; cbn in E.
  - injection E as <- <-. split; [reflexivity|repeat constructor].
  - apply Forall_cons in Hord as [Hp Hord].
    destruct (key_lt x prev) eqn:Ex.
    + destruct (run_while _ x l) as [run' rest'] eqn:E'. injection E as <- <-.
      destruct (IH x run' rest' Hord E') as [-> Hs].
      split; [reflexivity|]. constructor; [assumption|]. constructor.
      apply Forall_cons in Hord as [Hx _].
      apply (key_lt_true x prev); assumption.
    + injection E as <- <-. split; [reflexivity|repeat constructor].
Qed.

Lemma with_key_descending (k : Q) (d : list (string * pyval)) :
  StronglySorted (fun a b => key_of b < key_of a) d ->
  with_key k (rev d) = with_key k d.
Proof.
  intros Hd. rewrite with_key_rev.
  assert (Hshort : (length (with_key k d) <= 1)%nat).
  { induction Hd as [|a d Hd IH Ha]; [cbn; lia|].
    rewrite with_key_cons. destruct (Qeq_bool (key_of a) k) eqn:E; [|exact IH].
    apply Qeq_bool_iff in E. rewrite with_key_none; [cbn; lia|].
    eapply Forall_impl; [exact Ha|]. cbv beta. intros y Hy Hk.
    rewrite Hk, <- E in Hy. exact (Qlt_irrefl _ Hy). }
  destruct (with_key k d) as [|a [|b t]]; [reflexivity|reflexivity|].
  cbn in Hshort. lia.
Qed.

Lemma count_run_spec (l run rest : list (string * pyval)) :
  Forall ordered l -> count_run key_lt l = (run, rest) ->
  StronglySorted (better_eq true) run /\
  Permutation (run ++ rest) l /\
  (forall k, with_key k (run ++ rest) = with_key k l).
Proof.
  intros Hord E. destruct l as [|x0 [|x1 l]]; cbn [count_run] in E.
  - injection E as <- <-. split; [constructor|]. split; reflexivity.
  - injection E as <- <-. split; [repeat constructor|]. split; reflexivity.
  - pose proof Hord as Hord0. apply Forall_cons in Hord as [H0 Hord].
    pose proof Hord as Hord1. apply Forall_cons in Hord1 as [H1 _].
    destruct (key_lt x1 x0) eqn:E01.
    + destruct (run_while key_lt x1 l) as [r rest'] eqn:Er. injection E as <- <-.
      destruct (run_while_descending l x1 r rest' Hord Er) as [-> Hs].
      assert (Hd : StronglySorted (fun a b => key_of b < key_of a) (x0 :: x1 :: r)).
      { apply Sorted_StronglySorted.
        - intros a b c Hab Hbc. eapply Qlt_trans; eassumption.
        - constructor; [assumption|]. constructor.
          apply (key_lt_true x1 x0); assumption. }
      assert (Hrev : StronglySorted (better_eq true) (rev (x0 :: x1 :: r))).
      { eapply StronglySorted_weaken; [|apply StronglySorted_rev, Hd].
        cbv beta. intros a b Hab. unfold better_eq. apply Qlt_le_weak, Hab. }
      pose proof (Permutation_rev (x0 :: x1 :: r)) as Hperm.
      pose proof (fun k => with_key_descending k _ Hd) as Hkeys.
      cbn [rev] in Hrev, Hperm, Hkeys.
      split; [exact Hrev|]. split.
      { change (x0 :: x1 :: (r ++ rest')%list) with ((x0 :: x1 :: r) ++ rest')%list.
        apply Permutation_app_tail. symmetry. exact Hperm. }
      intros k.
      change (x0 :: x1 :: (r ++ rest')%list) with ((x0 :: x1 :: r) ++ rest')%list.
      rewrite (with_key_app k ((rev r ++ [x1]) ++ [x0]) rest'),
        (with_key_app k (x0 :: x1 :: r) rest'), Hkeys. reflexivity.
    + destruct (run_while _ x1 l) as [r rest'] eqn:Er. injection E as <- <-.
      destruct (run_while_ascending l x1 r rest' Hord Er) as [-> Hs].
      split.
      { apply Sorted_better_strong. constructor; [assumption|]. constructor.
        apply (key_lt_false x1 x0); assumption. }
      split; reflexivity.
Qed.

(** The place bisection finds in a sorted list. *)
Lemma sorted_lookup (s : list (string * pyval)) (p : nat) (y : string * pyval) :
  StronglySorted (better_eq true) s -> s !! p = Some y ->
  Forall (fun z => key_of z <= key_of y) (take (S p) s) /\
  Forall (fun z => key_of y <= key_of z) (drop p s).
Proof.
  intros Hs Hy. pose proof (take_drop_middle s p y Hy) as Hmid.
  rewrite <- Hmid in Hs. apply StronglySorted_app_inv in Hs as (_ & Hr & Hcross).
  apply StronglySorted_inv in Hr as [_ Hr].
  split.
  - rewrite (take_S_r s p y Hy). apply Forall_app. split.
    + apply List.Forall_forall. intros z Hz.
      apply (Hcross z y Hz). left. reflexivity.
    + constructor; [apply Qle_refl|constructor].
  - rewrite (drop_S s y p Hy). constructor; [apply Qle_refl|exact Hr].
Qed.

Lemma bisect_spec (pivot : string * pyval) (s : list (string * pyval)) :
  ordered pivot -> Forall ordered s -> StronglySorted (better_eq true) s ->
  forall fuel l r,
    (l <= r <= length s)%nat -> (r - l < fuel)%nat ->
    Forall (fun y => key_of y <= key_of pivot) (take l s) ->
    Forall (fun y => key_of pivot < key_of y) (drop r s) ->
    let pos := bisect key_lt fuel pivot s l r in
    Forall (fun y => key_of y <= key_of pivot) (take pos s) /\
    Forall (fun y => key_of pivot < key_of y) (drop pos s).
Proof.
  intros Hp Hord Hs. induction fuel as [|fuel IH]; intros l r Hlr Hfuel Hl Hr;
    [lia|].
  cbn [bisect]. destruct (Nat.ltb_spec l r) as [Hlt|Hge].
  - set (p := (l + (r - l) / 2)%nat).
    assert (Hp2 : (l <= p < r)%nat).
    { subst p. pose proof (Nat.div_mod_eq (r - l) 2).
      pose proof (Nat.mod_upper_bound (r - l) 2). lia. }
    destruct (s !! p) as [y|] eqn:Ey.
    2: { apply lookup_ge_None in Ey. lia. }
    assert (Hy : ordered y) by (eapply Forall_lookup_1; eassumption).
    destruct (sorted_lookup s p y Hs Ey) as [Htake Hdrop].
    destruct (key_lt pivot y) eqn:E.
    + apply IH; [lia|lia|assumption|].
      eapply Forall_impl; [exact Hdrop|]. cbv beta. intros z Hz.
      eapply Qlt_le_trans; [|exact Hz]. apply (key_lt_true pivot y); assumption.
    + apply IH; [lia|lia| |assumption].
      eapply Forall_impl; [exact Htake|]. cbv beta. intros z Hz.
      eapply Qle_trans; [exact Hz|]. apply (key_lt_false pivot y); assumption.
  - assert (l = r) by lia. subst r. split; assumption.
Qed.

Lemma binary_insert_spec (s : list (string * pyval)) (pivot : string * pyval) :
  ordered pivot -> Forall ordered s -> StronglySorted (better_eq true) s ->
  StronglySorted (better_eq true) (binary_insert key_lt s pivot) /\
  Forall ordered (binary_insert key_lt s pivot) /\
  (forall k, with_key k (binary_insert key_lt s pivot) = with_key k (s ++ [pivot])).
Proof.
  intros Hp Hord Hs. unfold binary_insert.
  set (pos := bisect key_lt (S (length s)) pivot s 0 (length s)).
  destruct (bisect_spec pivot s Hp Hord Hs (S (length s)) 0 (length s))
    as [Htake Hdrop].
  { lia. }
  { lia. }
  { constructor. }
  { rewrite drop_all. constructor. }
  fold pos in Htake, Hdrop.
  pose proof Hs as Hs'. rewrite <- (take_drop pos s) in Hs'.
  apply StronglySorted_app_inv in Hs' as (Hst & Hsd & Hcross).
  split; [|split].
  - apply StronglySorted_app_intro; [assumption| |].
    + constructor; [assumption|]. eapply Forall_impl; [exact Hdrop|].
      cbv beta. intros z Hz. unfold better_eq. apply Qlt_le_weak, Hz.
    + intros x y Hx [<-|Hy].
      * rewrite List.Forall_forall in Htake. apply (Htake x Hx).
      * apply Hcross; assumption.
  - apply Forall_app. split; [apply Forall_take, Hord|].
    constructor; [assumption|apply Forall_drop, Hord].
  - intros k.
    assert (Hsplit : with_key k s
                     = (with_key k (take pos s) ++ with_key k (drop pos s))%list)
      by (rewrite <- with_key_app, take_drop; reflexivity).
    rewrite (with_key_app k s [pivot]), Hsplit,
      (with_key_app k (take pos s) (pivot :: drop pos s)), with_key_cons.
    change (with_key k [pivot])
      with (if Qeq_bool (key_of pivot) k then [pivot] else []).
    destruct (Qeq_bool (key_of pivot) k) eqn:E.
    + apply Qeq_bool_iff in E.
      rewrite (with_key_none k (drop pos s)); [rewrite app_nil_r; reflexivity|].
      eapply Forall_impl; [exact Hdrop|]. cbv beta. intros z Hz Hk.
      rewrite Hk, <- E in Hz. exact (Qlt_irrefl _ Hz).
    + rewrite app_nil_r. reflexivity.
Qed.

Lemma fold_insert_spec (rest : list (string * pyval)) :
  forall acc,
    Forall ordered rest -> Forall ordered acc ->
    StronglySorted (better_eq true) acc ->
    StronglySorted (better_eq true) (fold_left (binary_insert key_lt) rest acc) /\
    (forall k, with_key k (fold_left (binary_insert key_lt) rest acc)
               = with_key k (acc ++ rest)).
Proof.
  induction rest as [|x rest IH]; intros acc Hrest Hacc Hs.
  - cbn. rewrite app_nil_r. auto.
  - apply Forall_cons in Hrest as [Hx Hrest]. cbn [fold_left].
    destruct (binary_insert_spec acc x Hx Hacc Hs) as (Hs1 & Ho1 & Hk1).
    destruct (IH _ Hrest Ho1 Hs1) as [Hs2 Hk2].
    split; [assumption|]. intros k.
    rewrite Hk2, with_key_app, Hk1, <- with_key_app, <- app_assoc. reflexivity.
Qed.

(** On ordered numbers the list sort is the stable sort, in either
    direction. *)
Lemma list_sort_ascending (l : list (string * pyval)) :
  Forall ordered l -> list_sort key_lt false l = stable_sort true l.
Proof.
  intros Hord. unfold list_sort.
  destruct (count_run key_lt l) as [run rest] eqn:E.
  destruct (count_run_spec l run rest Hord E) as (Hs & Hperm & Hk).
  assert (Ho : Forall ordered (run ++ rest)).
  { eapply ordered_perm; [apply Permutation_sym, Hperm|exact Hord]. }
  apply Forall_app in Ho as [Hrun Hrest].
  destruct (fold_insert_spec rest run Hrest Hrun Hs) as [Hs' Hk'].
  apply (stable_unique true); [assumption| |].
  - apply Sorted_better_strong, stable_sort_Sorted.
  - intros k. rewrite Hk', Hk, with_key_stable_sort. reflexivity.
Qed.

Lemma list_sort_reverse (l : list (string * pyval)) :
  list_sort key_lt true l = rev (list_sort key_lt false (rev l)).
Proof.
  unfold list_sort. destruct (count_run key_lt (rev l)). reflexivity.
Qed.

Lemma list_sort_stable (reverse : bool) (l : list (string * pyval)) :
  Forall ordered l -> list_sort key_lt reverse l = stable_sort (negb reverse) l.
Proof.
  intros Hord. destruct reverse; cbn [negb]; [|apply list_sort_ascending, Hord].
  rewrite list_sort_reverse, list_sort_ascending
    by (eapply ordered_perm; [apply Permutation_rev|exact Hord]).
  apply (stable_unique false).
  - eapply StronglySorted_weaken;
      [|apply StronglySorted_rev, Sorted_better_strong, stable_sort_Sorted].
    cbv beta. intros x y Hxy. exact Hxy.
  - apply Sorted_better_strong, stable_sort_Sorted.
  - intros k. rewrite with_key_rev, !with_key_stable_sort, with_key_rev, rev_involutive.
    reflexivity.
Qed.

End ListSortFacts.

Section CheckpointExamples.
Import Torch CheckpointCallback CheckpointSpec.
Local Open Scope Q_scope.

Abbreviation on_epoch_end_example :=
  (CheckpointCallback.on_epoch_end state_dict_example optimizer_state_dict_example
     str_example sorted_example checkpoint_path_example best_path_example).

Abbreviation save_all_example :=
  (CheckpointCallback.save_all str_example sorted_example checkpoint_path_example
     best_path_example).
Abbreviation save_checkpoint_example :=
  (CheckpointCallback.save_checkpoint str_example sorted_example
     checkpoint_path_example best_path_example).

(** The stand-in keeps the promise of [sorted] on ordered numbers. *)
Lemma sorted_example_sorts_numbers : sorts_numbers sorted_example.
Proof.
  intros reverse l Hl. unfold sorted_example.
  assert (H : forallb is_number_or_nan l = true).
  { apply forallb_forall. rewrite List.Forall_forall in Hl. intros x Hx.
    destruct (Hl x Hx) as [q Hq]. unfold is_number_or_nan.
    destruct (snd x); try discriminate Hq; reflexivity. }
  rewrite H, list_sort_stable by exact Hl. reflexivity.
Qed.

Lemma checkpoint_example_rankable (epoch : Z) (loss : Q) :
  rankable (checkpoint_example epoch loss) "loss".
Proof. intros metric H. injection H as <-. eexists. reflexivity. Qed.

Lemma retained_checkpoints_witness :
  let events := [(checkpoint_example 0 (5 # 10), true);
                 (checkpoint_example 1 (3 # 10), true)] in
  let w1 := snd (save_all_example events retention_example) in
  let w2 := snd (save_checkpoint_example (Some "logs")
                   (checkpoint_example 2 (4 # 10)) false 2 w1) in
  sorts_numbers sorted_example /\
  fst (save_all_example events retention_example) = Ok tt /\
  exists rest last_item,
    stable_sort true
      (top_best_metrics (self w1) ++ [("checkpoint.2.pth.tar", PyFloat (4 # 10))])
    = (rest ++ [last_item])%list /\
    top_best_metrics (self w2) = rest /\
    fs w2 !! fst last_item = None.
Proof.
  cbv zeta. split; [exact sorted_example_sorts_numbers|].
  destruct (retained_checkpoints str_example sorted_example checkpoint_path_example
              best_path_example retention_example
              [(checkpoint_example 0 (5 # 10), true);
               (checkpoint_example 1 (3 # 10), true)]
              ["checkpoint.0.pth.tar"; "checkpoint.1.pth.tar"]
              (checkpoint_example 2 (4 # 10)) false (PyInt 2) (PyFloat (4 # 10)))
    as (_ & _ & _ & _ & _ & _ & H).
  - exact sorted_example_sorts_numbers.
  - reflexivity.
  - discriminate.
  - repeat constructor; apply checkpoint_example_rankable.
  - apply checkpoint_example_rankable.
  - destruct H as (Hok & _ & _ & _ & Hgt).
    + repeat constructor; eexists; try split; reflexivity.
    + reflexivity.
    + reflexivity.
    + repeat constructor; cbn; intuition discriminate.
    + split; [exact Hok|].
      destruct Hgt as (rest & last_item & El & _ & _ & _ & Et & Ef).
      * vm_compute. reflexivity.
      * exists rest, last_item. split; [exact El|]. split; [exact Et|exact Ef].
Defined.

Example retained_checkpoints_run :
  let events := [(checkpoint_example 0 (5 # 10), true);
                 (checkpoint_example 1 (3 # 10), true);
                 (checkpoint_example 2 (4 # 10), false)] in
  let w' := snd (save_all_example events retention_example) in
  top_best_metrics (self w')
  = [("checkpoint.1.pth.tar", PyFloat (3 # 10));
     ("checkpoint.2.pth.tar", PyFloat (4 # 10))] /\
  fs w' !! "checkpoint.0.pth.tar" = None /\
  is_Some (fs w' !! "checkpoint.1.pth.tar") /\
  is_Some (fs w' !! "checkpoint.2.pth.tar").
Proof.
  cbv zeta. split; [vm_compute; reflexivity|]. split; [vm_compute; reflexivity|].
  split; vm_compute; eauto.
Qed.

(** C2 as worded fails: it speaks of every sequence of save events, and
    a validation loss may be [nan]. A minimizing callback that keeps two
    checkpoints saves losses 0.5, [nan] and 0.25. Every comparison with
    [nan] is [False], so [sorted] returns the three entries in the order
    they came, the third save drops the tail, and the tail is the entry
    with loss 0.25: the best of the three leaves the list and its file is
    removed, while the entry with loss 0.5 stays at index 0. *)
Lemma retained_checkpoints_nan_counterexample :
  let events := [(checkpoint_with 0 (PyFloat (1 # 2)), true);
                 (checkpoint_with 1 PyNaN, false);
                 (checkpoint_with 2 (PyFloat (1 # 4)), true)] in
  let w' := snd (save_all_example events retention_example) in
  minimize (self retention_example) = true /\
  save_n_best (self retention_example) = 2%Z /\
  top_best_metrics (self retention_example) = [] /\
  fst (save_all_example events retention_example) = Ok tt /\
  top_best_metrics (self w')
  = [("checkpoint.0.pth.tar", PyFloat (1 # 2)); ("checkpoint.1.pth.tar", PyNaN)] /\
  fs w' !! "checkpoint.2.pth.tar" = None /\
  is_Some (fs w' !! "checkpoint.0.pth.tar") /\
  1 # 4 < 1 # 2.
Proof.
  cbv zeta. do 3 (split; [reflexivity|]).
  split; [vm_compute; reflexivity|]. split; [vm_compute; reflexivity|].
  split; [vm_compute; reflexivity|]. split; [vm_compute; eauto|reflexivity].
Qed.

(** With a bound of three the same saves keep all three entries, in the
    order they came: the list is not sorted, and index 0 is not the best
    entry. *)
Example retained_checkpoints_nan_unsorted :
  let events := [(checkpoint_with 0 (PyFloat (1 # 2)), true);
                 (checkpoint_with 1 PyNaN, false);
                 (checkpoint_with 2 (PyFloat (1 # 4)), true)] in
  let w := mk_world (__init__ (Some "logs") 3 None "loss" true)
             (state retention_example) ∅ None None None in
  save_all_example events w
  = (Ok tt,
     retaining [("checkpoint.0.pth.tar", PyFloat (1 # 2));
                ("checkpoint.1.pth.tar", PyNaN);
                ("checkpoint.2.pth.tar", PyFloat (1 # 4))]
       (fs (snd (save_all_example events w))) w).
Proof. vm_compute. reflexivity. Qed.

(** A metric that is no number is appended before [sorted] is called:
    when [sorted] raises, the entry stays, and the list is left unsorted
    and beyond the bound. *)
Example save_checkpoint_unordered_run :
  let events := [(checkpoint_with 0 (PyFloat (1 # 2)), true);
                 (checkpoint_with 1 (PyFloat (1 # 4)), true)] in
  let w1 := snd (save_all_example events retention_example) in
  let r := save_checkpoint_example (Some "logs") (checkpoint_with 2 PyNone) false 2 w1 in
  fst r = Raise TypeError /\
  top_best_metrics (self (snd r))
  = [("checkpoint.1.pth.tar", PyFloat (1 # 4));
     ("checkpoint.0.pth.tar", PyFloat (1 # 2));
     ("checkpoint.2.pth.tar", PyNone)] /\
  is_Some (fs (snd r) !! "checkpoint.2.pth.tar").
Proof.
  cbv zeta. split; [vm_compute; reflexivity|]. split; [vm_compute; reflexivity|].
  vm_compute. eauto.
Qed.

Lemma best_metrics_decision_witness :
  exists is_best : bool,
    process_epoch_metrics (RunState.epoch_metrics (state tie_example))
      (PyDict [("accuracy", PyFloat (1 # 2))]) "accuracy" false
    = Ok (PyDict (if is_best
                  then [("accuracy", PyFloat (1 # 2)); ("loss", PyFloat (7 # 10))]
                  else [("accuracy", PyFloat (1 # 2))]),
          PyDict [("accuracy", PyFloat (1 # 2)); ("loss", PyFloat (7 # 10))],
          is_best) /\
    (is_best = true <-> 1 # 2 < 1 # 2).
Proof.
  destruct (best_metrics_decision state_dict_example optimizer_state_dict_example
              str_example sorted_example checkpoint_path_example best_path_example
              tie_example
              [("accuracy", PyFloat (1 # 2)); ("loss", PyFloat (7 # 10))] (1 # 2))
    as [_ H].
  - reflexivity.
  - reflexivity.
  - reflexivity.
  - destruct (H [("accuracy", PyFloat (1 # 2))] (1 # 2)) as (b & Hp & Hb & _).
    + reflexivity.
    + reflexivity.
    + exists b. split; [exact Hp|exact Hb].
Defined.

(** C3 as worded fails. When maximizing, a new metric equal to the best
    one (so [>=] it) gives [is_best = False], and [state.best_metrics]
    stays the previous snapshot. *)
Lemma best_metrics_tie_counterexample :
  minimize (self tie_example) = false /\
  1 # 2 <= 1 # 2 /\
  process_epoch_metrics (RunState.epoch_metrics (state tie_example))
    (RunState.best_metrics (state tie_example)) "accuracy" false
  = Ok (PyDict [("accuracy", PyFloat (1 # 2))],
        PyDict [("accuracy", PyFloat (1 # 2)); ("loss", PyFloat (7 # 10))],
        false) /\
  RunState.best_metrics (state (snd (on_epoch_end_example tie_example)))
  = PyDict [("accuracy", PyFloat (1 # 2))].
Proof.
  split; [reflexivity|]. split; [apply Qle_refl|].
  split; [reflexivity|]. vm_compute. reflexivity.
Qed.

End CheckpointExamples.

Section ResumeFacts.
Import Torch CheckpointCallback CheckpointSpec ResumeSpec.

Variable module_load_state_dict : Torch.model -> pyval -> result Torch.model.
Variable optimizer_load_state_dict : Torch.optimizer -> pyval -> result Torch.optimizer.

Abbreviation load_model := (CheckpointCallback.load_model module_load_state_dict).
Abbreviation load_checkpoint :=
  (CheckpointCallback.load_checkpoint module_load_state_dict optimizer_load_state_dict).
Abbreviation on_mode_start :=
  (CheckpointCallback.on_mode_start module_load_state_dict optimizer_load_state_dict).

Lemma load_model_unwrapped (sd : pyval) (m : Torch.model) :
  load_model sd m
  = match module_load_state_dict (unwrapped m) sd with
    | Ok inner => Ok (rewrapped m inner)
    | Raise e => Raise e
    end.
Proof.
  unfold CheckpointCallback.load_model, unwrapped, rewrapped, without_parallel, without_fp16.
  destruct m as [ps|m|m]; try destruct m as [ps'|m'|m'];
    destruct (module_load_state_dict _ sd); reflexivity.
Qed.

Lemma unwrapped_network (ps : list param) :
  unwrapped (Network ps) = Network ps /\
  unwrapped (DataParallel (Network ps)) = Network ps /\
  unwrapped (Fp16Wrap (Network ps)) = Network ps /\
  unwrapped (DataParallel (Fp16Wrap (Network ps))) = Network ps.
Proof. repeat split. Qed.

Lemma for_items_load_optimizer (ck : pyval) (d : dict Torch.optimizer) :
  Forall (fun old => exists new, optimizer_loaded optimizer_load_state_dict ck old new) d ->
  exists d',
    for_items (load_optimizer_item optimizer_load_state_dict ck) d tt = (Ok tt, (tt, d')) /\
    Forall2 (optimizer_loaded optimizer_load_state_dict ck) d d'.
Proof.
  induction 1 as [|[key o] d ([key' o'] & Hk & sd & Hsd & Hload) Hd (d' & E & IH)].
  - exists []. split; [reflexivity|constructor].
  - cbn [fst snd] in *. subst key'. exists ((key, o') :: d').
    cbn [for_items]. unfold load_optimizer_item at 1. rewrite Hsd, Hload, E.
    split; [reflexivity|]. constructor; [|assumption].
    split; [reflexivity|]. exists sd. auto.
Qed.

Lemma for_items_load_scheduler (ck : pyval) (d : dict pyval) :
  Forall (fun old => exists new, scheduler_replaced ck old new) d ->
  exists d',
    for_items (load_scheduler_item ck) d tt = (Ok tt, (tt, d')) /\
    Forall2 (scheduler_replaced ck) d d'.
Proof.
  induction 1 as [|[key s] d ([key' s'] & Hk & Hs) Hd (d' & E & IH)].
  - exists []. split; [reflexivity|constructor].
  - cbn [fst snd] in *. subst key'. exists ((key, s') :: d').
    cbn [for_items]. unfold load_scheduler_item at 1. rewrite Hs, E.
    split; [reflexivity|]. constructor; [|assumption]. split; [reflexivity|exact Hs].
Qed.

(** C8. With a resume path configured, mode-start raises when there is
    no file at that path and leaves everything as it was. When the file
    is there, holds the keys, and the library loads succeed, mode-start
    returns normally: [state.epoch] and [state.best_metrics] are the
    stored values; the stored model state is loaded into the model without
    its [DataParallel] and [Fp16Wrap] layers; every optimizer has loaded
    the blob stored under its key; and every scheduler entry is the object
    stored under its key, whatever the entry was before. *)
Theorem resume_from_checkpoint (w : world) (filename : string) :
  resume (self w) = Some filename ->
  (fs w !! filename = None -> on_mode_start w = (Raise Exception, w))
  /\ (forall ck epoch best,
        fs w !! filename = Some ck ->
        getitem ck "epoch" = Ok epoch -> getitem ck "best_metrics" = Ok best ->
        (exists m', model_loaded module_load_state_dict ck (model w) m') ->
        (forall d, optimizer w = Some d ->
           Forall (fun old => exists new,
                     optimizer_loaded optimizer_load_state_dict ck old new) d) ->
        (forall d, scheduler w = Some d ->
           Forall (fun old => exists new, scheduler_replaced ck old new) d) ->
        exists w',
          on_mode_start w = (Ok tt, w') /\
          RunState.epoch (state w') = epoch /\
          RunState.best_metrics (state w') = best /\
          model_loaded module_load_state_dict ck (model w) (model w') /\
          match optimizer w with
          | Some d => exists d', optimizer w' = Some d' /\
                        Forall2 (optimizer_loaded optimizer_load_state_dict ck) d d'
          | None => optimizer w' = None
          end /\
          match scheduler w with
          | Some d => exists d', scheduler w' = Some d' /\
                        Forall2 (scheduler_replaced ck) d d'
          | None => scheduler w' = None
          end /\
          self w' = self w /\ fs w' = fs w).
Proof.
  intros Hres.
  destruct w as [s st files m o sch]. cbn [self state fs model optimizer scheduler] in *.
  unfold CheckpointCallback.on_mode_start, CheckpointCallback.load_checkpoint,
    helpers_load_checkpoint, bind, get, lift, modify, ret, raise.
  cbn [self state fs model optimizer scheduler set_state set_model set_optimizer
       set_scheduler].
  rewrite Hres.
  split.
  - intros Hnone. cbn. rewrite Hnone. reflexivity.
  - intros ck epoch best Hfile He Hb Hm Ho Hs.
    cbn -[getitem CheckpointCallback.load_model for_items]. rewrite !Hfile.
    cbn -[getitem CheckpointCallback.load_model for_items]. rewrite Hfile.
    cbn -[getitem CheckpointCallback.load_model for_items]. rewrite He, Hb.
    destruct m as [m0|].
    + destruct Hm as (m' & sd & inner & Hsd & Hload & ->).
      rewrite Hsd. rewrite load_model_unwrapped, Hload.
      cbn -[getitem CheckpointCallback.load_model for_items].
      destruct o as [d|]; destruct sch as [d2|].
      * destruct (for_items_load_optimizer ck d (Ho d eq_refl)) as (d' & Ed & Hd).
        destruct (for_items_load_scheduler ck d2 (Hs d2 eq_refl)) as (d2' & Ed2 & Hd2).
        rewrite Ed. cbn. rewrite Ed2. eexists. split; [reflexivity|]. cbn.
        repeat split; eauto; exists sd, inner; auto.
      * destruct (for_items_load_optimizer ck d (Ho d eq_refl)) as (d' & Ed & Hd).
        rewrite Ed. eexists. split; [reflexivity|]. cbn.
        repeat split; eauto; exists sd, inner; auto.
      * destruct (for_items_load_scheduler ck d2 (Hs d2 eq_refl)) as (d2' & Ed2 & Hd2).
        rewrite Ed2. eexists. split; [reflexivity|]. cbn.
        repeat split; eauto; exists sd, inner; auto.
      * eexists. split; [reflexivity|]. cbn.
        repeat split; eauto; exists sd, inner; auto.
    + cbn -[getitem CheckpointCallback.load_model for_items].
      destruct o as [d|]; destruct sch as [d2|].
      * destruct (for_items_load_optimizer ck d (Ho d eq_refl)) as (d' & Ed & Hd).
        destruct (for_items_load_scheduler ck d2 (Hs d2 eq_refl)) as (d2' & Ed2 & Hd2).
        rewrite Ed. cbn. rewrite Ed2. eexists. split; [reflexivity|]. cbn.
        repeat split; eauto.
      * destruct (for_items_load_optimizer ck d (Ho d eq_refl)) as (d' & Ed & Hd).
        rewrite Ed. eexists. split; [reflexivity|]. cbn. repeat split; eauto.
      * destruct (for_items_load_scheduler ck d2 (Hs d2 eq_refl)) as (d2' & Ed2 & Hd2).
        rewrite Ed2. eexists. split; [reflexivity|]. cbn. repeat split; eauto.
      * eexists. split; [reflexivity|]. cbn. repeat split; eauto.
Qed.

End ResumeFacts.

Section ResumeExamples.
Import Torch CheckpointCallback CheckpointSpec ResumeSpec.

Abbreviation on_mode_start_example :=
  (CheckpointCallback.on_mode_start load_values_example load_optimizer_example).

Lemma resume_from_checkpoint_witness :
  exists w',
    on_mode_start_example (resume_example {["last.pth.tar" := stored_example]})
    = (Ok tt, w') /\
    RunState.epoch (state w') = PyInt 7 /\
    RunState.best_metrics (state w') = PyDict [("loss", PyFloat (1 # 4))].
Proof.
  destruct (resume_from_checkpoint load_values_example load_optimizer_example
              (resume_example {["last.pth.tar" := stored_example]}) "last.pth.tar")
    as [_ H].
  - reflexivity.
  - destruct (H stored_example (PyInt 7) (PyDict [("loss", PyFloat (1 # 4))]))
      as (w' & E & He & Hb & _).
    + reflexivity.
    + reflexivity.
    + reflexivity.
    + eexists. cbn. eexists _, _. split; [reflexivity|]. split; reflexivity.
    + intros d [= <-]. repeat constructor.
      exists ("main", mk_optimizer []). split; [reflexivity|].
      eexists. split; reflexivity.
    + intros d [= <-]. repeat constructor.
      exists ("main", PyDict [("last_epoch", PyInt 7)]). split; reflexivity.
    + exists w'. auto.
Defined.

(** The resume on the example: the wrapped network receives the stored
    value, and the scheduler entry is the stored object (its [gamma] field
    is gone); without the file, mode-start raises. *)
Example resume_from_checkpoint_run :
  let r := on_mode_start_example (resume_example {["last.pth.tar" := stored_example]}) in
  fst r = Ok tt /\
  model (snd r)
  = Some (DataParallel (Fp16Wrap (Network [mk_param "w" [1%Q] [0%Q] true]))) /\
  scheduler (snd r) = Some [("main", PyDict [("last_epoch", PyInt 7)])] /\
  fst (on_mode_start_example (resume_example ∅)) = Raise Exception.
Proof. cbv zeta. repeat split; vm_compute; reflexivity. Qed.

End ResumeExamples.

Section UpdaterFacts.
Import UpdaterSpec.
Local Open Scope Q_scope.
Context {Self : Type} `{LRUpdater.Schedule Self}.

(** Outside training, the update of the base class advances no schedule
    and touches no optimizer. *)
Lemma update_optimizer_not_train (w : LRUpdater.world Self) :
  let key := LRUpdater.optimizer_key (LRUpdater.self w) in
  RunState.is_train (LRUpdater.state w) = false ->
  exists w',
    LRUpdater.update_optimizer w = (Ok tt, w') /\
    LRUpdater.self w' = LRUpdater.self w /\
    LRUpdater.optimizer w' = LRUpdater.optimizer w /\
    LRUpdater.state w' = readouts_zeroed key (LRUpdater.state w) /\
    RunState.lr (LRUpdater.state w') !! key = Some 0 /\
    RunState.momentum (LRUpdater.state w') !! key = Some 0.
Proof.
  intros key Htrain. unfold LRUpdater.update_optimizer, bind, get.
  rewrite Htrain. unfold zoom, modify. cbn.
  eexists. split; [reflexivity|]. cbn.
  repeat split; apply lookup_insert_eq.
Qed.

Lemma for_items_momentum_field (v : Q) (gs : list Torch.param_group) :
  for_items (LRUpdater.update_momentum_group false v) gs tt
  = (Ok tt, (tt, map (Torch.set_momentum v) gs)).
Proof.
  induction gs as [|g gs IH]; [reflexivity|].
  cbn [for_items map]. unfold LRUpdater.update_momentum_group at 1.
  rewrite IH. reflexivity.
Qed.

Lemma for_items_betas (v : Q) (gs : list Torch.param_group) :
  Forall has_betas gs ->
  for_items (LRUpdater.update_momentum_group true v) gs tt
  = (Ok tt, (tt, map (with_first_beta v) gs)).
Proof.
  induction 1 as [|g gs [b Hb] Hgs IH]; [reflexivity|].
  cbn [for_items map]. unfold LRUpdater.update_momentum_group at 1, with_first_beta at 1.
  rewrite Hb, IH. reflexivity.
Qed.

Lemma for_items_betas_missing (v : Q) (pre post : list Torch.param_group)
    (g : Torch.param_group) :
  Forall has_betas pre -> Torch.betas g = None ->
  for_items (LRUpdater.update_momentum_group true v) (pre ++ g :: post)%list tt
  = (Raise KeyError, (tt, (map (with_first_beta v) pre ++ g :: post)%list)).
Proof.
  intros Hpre Hg. induction Hpre as [|p pre [b Hb] Hpre IH].
  - cbn. rewrite Hg. reflexivity.
  - cbn [for_items map app]. unfold LRUpdater.update_momentum_group at 1, with_first_beta at 1.
    rewrite Hb, IH. reflexivity.
Qed.

(** X1. [update_momentum] looks at the first parameter group only to
    choose the field. Without groups it raises [IndexError]. When the
    first group has no ["betas"], every group gets [momentum = v]. When
    it has, every group gets [betas = (v, betas[1])], its second element
    kept; and if some later group lacks ["betas"] the call raises
    [KeyError] there, the groups before it already updated and the
    others untouched. Learning rates and parameters are never changed. *)
Theorem update_momentum_groups (v : Q) (o : Torch.optimizer) :
  (Torch.param_groups o = [] ->
   LRUpdater.update_momentum v o = (Raise IndexError, o))
  /\ (forall g0 gs,
        Torch.param_groups o = g0 :: gs -> Torch.betas g0 = None ->
        LRUpdater.update_momentum v o
        = (Ok tt, Torch.set_param_groups (map (Torch.set_momentum v) (g0 :: gs)) o))
  /\ (Torch.param_groups o <> [] -> Forall has_betas (Torch.param_groups o) ->
      LRUpdater.update_momentum v o
      = (Ok tt, Torch.set_param_groups
                  (map (with_first_beta v) (Torch.param_groups o)) o))
  /\ (forall g0 pre g post,
        Torch.param_groups o = (g0 :: pre ++ g :: post)%list ->
        Forall has_betas (g0 :: pre) -> Torch.betas g = None ->
        LRUpdater.update_momentum v o
        = (Raise KeyError,
           Torch.set_param_groups
             (map (with_first_beta v) (g0 :: pre) ++ g :: post)%list o))
  /\ (map Torch.lr (Torch.param_groups (snd (LRUpdater.update_momentum v o)))
      = map Torch.lr (Torch.param_groups o) /\
      map Torch.params (Torch.param_groups (snd (LRUpdater.update_momentum v o)))
      = map Torch.params (Torch.param_groups o)).
Proof.
  assert (Hset : forall gs, map Torch.lr (map (Torch.set_momentum v) gs) = map Torch.lr gs
                         /\ map Torch.params (map (Torch.set_momentum v) gs)
                            = map Torch.params gs).
  { intros gs. rewrite !map_map. split; reflexivity. }
  assert (Hbeta : forall gs, map Torch.lr (map (with_first_beta v) gs) = map Torch.lr gs
                          /\ map Torch.params (map (with_first_beta v) gs)
                             = map Torch.params gs).
  { intros gs. rewrite !map_map.
    split; apply map_ext; intros g; unfold with_first_beta;
      destruct (Torch.betas g); reflexivity. }
  split; [|split; [|split; [|split]]].
  - intros Hg. unfold LRUpdater.update_momentum. rewrite Hg. reflexivity.
  - intros g0 gs Hg Hb. unfold LRUpdater.update_momentum. rewrite Hg, Hb.
    rewrite for_items_momentum_field. reflexivity.
  - intros Hne Hall. unfold LRUpdater.update_momentum.
    destruct (Torch.param_groups o) as [|g0 gs] eqn:Hg; [congruence|].
    pose proof Hall as Hall'. apply Forall_cons in Hall' as [[b Hb] _].
    rewrite Hb, for_items_betas by assumption. reflexivity.
  - intros g0 pre g post Hg Hall Hnone. unfold LRUpdater.update_momentum.
    rewrite Hg. pose proof Hall as Hall'. apply Forall_cons in Hall' as [[b Hb] _].
    rewrite Hb.
    change (g0 :: pre ++ g :: post)%list with ((g0 :: pre) ++ g :: post)%list.
    rewrite for_items_betas_missing by assumption. reflexivity.
  - unfold LRUpdater.update_momentum.
    destruct (Torch.param_groups o) as [|g0 gs] eqn:Hg; [cbn; rewrite Hg; auto|].
    destruct (Torch.betas g0) as [b|] eqn:Hb.
    + (* the loop stops at the first group without betas, if any *)
      assert (Hsplit : Forall has_betas (g0 :: gs) \/
                       exists pre g post, (g0 :: gs = pre ++ g :: post)%list /\
                                          Forall has_betas pre /\ Torch.betas g = None).
      { clear. induction (g0 :: gs) as [|x l IH]; [left; constructor|].
        destruct (Torch.betas x) as [b|] eqn:E.
        - destruct IH as [IH|(pre & g & post & -> & Hp & Hn)].
          + left. constructor; [exists b; exact E|assumption].
          + right. exists (x :: pre), g, post. split; [reflexivity|].
            split; [constructor; [exists b; exact E|assumption]|assumption].
        - right. exists [], x, l. split; [reflexivity|]. split; [constructor|assumption]. }
      destruct Hsplit as [Hall|(pre & g & post & E & Hp & Hn)].
      * rewrite for_items_betas by assumption. cbn [snd Torch.param_groups Torch.set_param_groups].
        apply Hbeta.
      * rewrite E, for_items_betas_missing by assumption.
        cbn [snd Torch.param_groups Torch.set_param_groups].
        rewrite !map_app. cbn [map]. destruct (Hbeta pre) as [-> ->]. auto.
    + rewrite for_items_momentum_field. cbn [snd Torch.param_groups Torch.set_param_groups].
      apply Hset.
Qed.

Lemma update_momentum_groups_witness :
  LRUpdater.update_momentum (85 # 100) mixed_example
  = (Raise KeyError,
     Torch.mk_optimizer [adam_group (85 # 100, 999 # 1000); sgd_group]).
Proof.
  destruct (update_momentum_groups (85 # 100) mixed_example) as (_ & _ & _ & H4 & _).
  apply (H4 (adam_group (9 # 10, 999 # 1000)) [] sgd_group []).
  - reflexivity.
  - repeat constructor. exists (9 # 10, 999 # 1000). reflexivity.
  - reflexivity.
Defined.

Lemma update_momentum_ready (v : Q) (o : Torch.optimizer) :
  momentum_ready o ->
  LRUpdater.update_momentum v o
  = (Ok tt, Torch.set_param_groups (momentum_written v (Torch.param_groups o)) o).
Proof.
  unfold momentum_ready, momentum_written, LRUpdater.update_momentum.
  destruct (Torch.param_groups o) as [|g0 gs] eqn:Hg; [tauto|].
  intros [Hnone|Hall].
  - rewrite Hnone, for_items_momentum_field. reflexivity.
  - pose proof Hall as Hall'. apply Forall_cons in Hall' as [[b Hb] _].
    rewrite Hb, for_items_betas by assumption. reflexivity.
Qed.

Lemma momentum_ready_update_lr (v : Q) (o : Torch.optimizer) :
  momentum_ready o -> momentum_ready (LRUpdater.update_lr o v).
Proof.
  unfold momentum_ready, LRUpdater.update_lr. cbn.
  destruct (Torch.param_groups o) as [|g0 gs]; [tauto|].
  cbn [map]. intros [Hnone|Hall]; [left; exact Hnone|right].
  change (Torch.set_lr v g0 :: map (Torch.set_lr v) gs)
    with (map (Torch.set_lr v) (g0 :: gs)).
  apply Forall_map. eapply Forall_impl; [exact Hall|].
  intros g Hg. exact Hg.
Qed.

Lemma dict_set_set {V} (k : string) (v v' : V) (d : dict V) :
  dict_set k v' (dict_set k v d) = dict_set k v' d.
Proof.
  induction d as [|[k0 v0] d IH]; cbn.
  - rewrite String.eqb_refl. reflexivity.
  - destruct (String.eqb k k0) eqn:E; cbn.
    + rewrite String.eqb_refl. reflexivity.
    + rewrite E, IH. reflexivity.
Qed.

(** One update on a training loader, when both computations of the
    schedule return a value and the optimizer accepts them. *)
Lemma update_optimizer_train_both (w : LRUpdater.world Self) (v m : Q)
    (s1 s2 : Self) (o : Torch.optimizer) :
  let key := LRUpdater.optimizer_key (LRUpdater.self w) in
  RunState.is_train (LRUpdater.state w) = true ->
  LRUpdater.calc_lr (LRUpdater.self w) = (Ok (Some v), s1) ->
  LRUpdater.calc_momentum s1 = (Ok (Some m), s2) ->
  dict_get key (LRUpdater.optimizer w) = Some o ->
  momentum_ready o ->
  LRUpdater.update_optimizer w
  = (Ok tt,
     LRUpdater.mk_world s2
       (RunState.set_momentum key m (RunState.set_lr key v (LRUpdater.state w)))
       (dict_set key
          (Torch.set_param_groups
             (momentum_written m (map (Torch.set_lr v) (Torch.param_groups o))) o)
          (LRUpdater.optimizer w))).
Proof.
  intros key Htrain Hlr Hm Ho Hready.
  unfold LRUpdater.update_optimizer, bind, get. rewrite Htrain.
  unfold zoom at 1. rewrite Hlr. fold key.
  unfold LRUpdater.with_optimizer at 1, modify at 1.
  cbn [LRUpdater.optimizer LRUpdater.set_self LRUpdater.set_optimizer LRUpdater.self
       LRUpdater.state].
  rewrite Ho. unfold zoom at 1, modify at 1.
  cbn [LRUpdater.optimizer LRUpdater.set_self LRUpdater.set_optimizer LRUpdater.self
       LRUpdater.state LRUpdater.set_state].
  unfold zoom at 1.
  cbn [LRUpdater.optimizer LRUpdater.set_self LRUpdater.set_optimizer LRUpdater.self
       LRUpdater.state LRUpdater.set_state].
  rewrite Hm. unfold LRUpdater.with_optimizer.
  cbn [LRUpdater.optimizer LRUpdater.set_self LRUpdater.set_optimizer LRUpdater.self
       LRUpdater.state LRUpdater.set_state].
  rewrite dict_get_set_eq.
  rewrite update_momentum_ready by (apply momentum_ready_update_lr; assumption).
  unfold zoom, modify.
  cbn [LRUpdater.optimizer LRUpdater.set_self LRUpdater.set_optimizer LRUpdater.self
       LRUpdater.state LRUpdater.set_state].
  rewrite dict_set_set. reflexivity.
Qed.

(** X2. A missing optimizer costs an iteration. For a schedule built
    on [LRUpdater], when the optimizer dict has no entry under the
    schedule's key, the update on a training loader (the loader-start and
    the batch-end hook alike) leaves the optimizers and the run state as
    they were, and the schedule as its own computations left it. When
    [calc_lr] raises, that exception comes out. When it returns a value,
    the lookup of the optimizer raises [KeyError], after [calc_lr] has run
    and advanced the schedule, and [calc_momentum] is not called. When it
    returns [None], [calc_momentum] runs, and in the same way its
    exception comes out, a value gives [KeyError], and [None] (both
    computations of the base class return it) lets the update return
    normally. *)
Theorem update_optimizer_missing_key (w : LRUpdater.world Self) :
  let after (s : Self) := LRUpdater.mk_world s (LRUpdater.state w) (LRUpdater.optimizer w) in
  let outcome :=
    match LRUpdater.calc_lr (LRUpdater.self w) with
    | (Raise e, s1) => (Raise e, after s1)
    | (Ok (Some v), s1) => (Raise KeyError, after s1)
    | (Ok None, s1) =>
        match LRUpdater.calc_momentum s1 with
        | (Raise e, s2) => (Raise e, after s2)
        | (Ok (Some m), s2) => (Raise KeyError, after s2)
        | (Ok None, s2) => (Ok tt, after s2)
        end
    end in
  RunState.is_train (LRUpdater.state w) = true ->
  dict_get (LRUpdater.optimizer_key (LRUpdater.self w)) (LRUpdater.optimizer w) = None ->
  LRUpdater.on_loader_start w = outcome /\ LRUpdater.on_batch_end w = outcome.
Proof.
  intros after outcome Htrain Ho.
  assert (E : LRUpdater.update_optimizer w = outcome).
  { subst outcome after.
    unfold LRUpdater.update_optimizer, bind, get. rewrite Htrain.
    unfold zoom at 1.
    destruct (LRUpdater.calc_lr (LRUpdater.self w)) as [[[v|]|e] s1].
    - unfold LRUpdater.with_optimizer at 1.
      cbn [LRUpdater.optimizer LRUpdater.set_self LRUpdater.self LRUpdater.state].
      rewrite Ho. reflexivity.
    - unfold ret at 1, zoom at 1.
      cbn [LRUpdater.optimizer LRUpdater.set_self LRUpdater.self LRUpdater.state].
      destruct (LRUpdater.calc_momentum s1) as [[[m|]|e] s2].
      + unfold LRUpdater.with_optimizer at 1.
        cbn [LRUpdater.optimizer LRUpdater.set_self LRUpdater.self LRUpdater.state].
        rewrite Ho. reflexivity.
      + reflexivity.
      + reflexivity.
    - reflexivity. }
  split; exact E.
Qed.

End UpdaterFacts.

Section LRFinderMore.
Import LRFinder LRFinderSpec UpdaterSpec.
Local Open Scope Q_scope.

Lemma update_optimizer_missing_key_witness :
  on_batch_end (LRUpdater.set_optimizer [] finder_example)
  = (Raise KeyError,
     LRUpdater.set_self (set_find_iter 1 (LRUpdater.self finder_example))
       (LRUpdater.set_optimizer [] finder_example)).
Proof.
  unfold on_batch_end, bind.
  destruct (update_optimizer_missing_key (LRUpdater.set_optimizer [] finder_example))
    as (_ & E).
  - reflexivity.
  - reflexivity.
  - rewrite E. reflexivity.
Defined.

(** The base class computes nothing, so its update returns normally
    without ever looking the optimizer up. *)
Example base_updater_missing_key :
  @LRUpdater.on_batch_end _ LRUpdater.base_schedule base_example
  = (Ok tt, base_example).
Proof. reflexivity. Qed.

Variable float_pow : Q -> Q -> Q.

(** X3. The range finder outside training. On a loader that is not a
    training loader, [on_loader_start] only zeroes the two readouts of its
    key. [on_batch_end] does the same and then still compares the counter
    with [n_steps]: it raises [TypeError] when [n_steps] is unset (no
    training loader has started yet), raises the end-of-range exception
    when the counter is already above [n_steps], and returns normally
    otherwise. No call of [calc_lr] is made and no optimizer is touched. *)
Theorem lr_finder_outside_training (w : LRUpdater.world t) :
  let s := LRUpdater.self w in
  let w' := LRUpdater.set_state
              (readouts_zeroed (optimizer_key s) (LRUpdater.state w)) w in
  RunState.is_train (LRUpdater.state w) = false ->
  on_loader_start float_pow w = (Ok tt, w') /\
  on_batch_end w
  = (match n_steps s with
     | None => Raise TypeError
     | Some n => if (find_iter s >? n)%Z then Raise NotImplementedError else Ok tt
     end, w').
Proof.
  intros s w' Htrain.
  destruct (update_optimizer_not_train w Htrain) as (w1 & E & Hs & Ho & Hst & _).
  assert (Ew : w1 = w').
  { destruct w1 as [s1 st1 o1]. destruct w as [s0 st o]. cbn in *.
    subst. reflexivity. }
  subst w1. split.
  - unfold on_loader_start, bind, get. rewrite Htrain. unfold ret. exact E.
  - unfold on_batch_end, LRUpdater.on_batch_end, bind. rewrite E.
    unfold get, lift. cbn [LRUpdater.self LRUpdater.set_state w']. fold s.
    destruct (n_steps s) as [n|]; [|reflexivity]. cbn [of_option].
    destruct (find_iter s >? n)%Z; reflexivity.
Qed.

(** X4. Degenerate parameters of the range finder at the start of a
    training loader. With [init_lr = 0] the quotient [final_lr / init_lr]
    raises [ZeroDivisionError] and nothing has changed. With [n_steps]
    unset or 0 and an empty loader, [n_steps] is stored as 0 and then
    [1 / n_steps] raises [ZeroDivisionError]. A configured [n_steps = 0]
    counts as unset: on a non-empty loader the number of steps becomes the
    loader's length. *)
Theorem lr_finder_degenerate_start (w : LRUpdater.world t) :
  let s := LRUpdater.self w in
  let len := RunState.loader_len (LRUpdater.state w) in
  RunState.is_train (LRUpdater.state w) = true ->
  (init_lr s == 0 ->
   on_loader_start float_pow w = (Raise ZeroDivisionError, w)) /\
  (~ init_lr s == 0 -> (n_steps s = None \/ n_steps s = Some 0%Z) -> len = 0%Z ->
   on_loader_start float_pow w
   = (Raise ZeroDivisionError, LRUpdater.set_self (set_n_steps 0 s) w)) /\
  (~ init_lr s == 0 -> n_steps s = Some 0%Z -> len <> 0%Z ->
   is_Some (dict_get (optimizer_key s) (LRUpdater.optimizer w)) ->
   exists w',
     on_loader_start float_pow w = (Ok tt, w') /\
     n_steps (LRUpdater.self w') = Some len /\
     multiplier (LRUpdater.self w')
     = float_pow (final_lr s / init_lr s) (1 / inject_Z len)).
Proof.
  intros s len Htrain. split; [|split].
  - intros H0. unfold on_loader_start, bind, get. rewrite Htrain.
    unfold lift, truediv. fold s.
    apply Qeq_bool_iff in H0. rewrite H0. destruct w; reflexivity.
  - intros Hinit Hn Hlen. unfold on_loader_start, bind, get. rewrite Htrain.
    unfold lift, zoom, modify. fold s.
    rewrite truediv_nonzero_Q by assumption.
    cbn [LRUpdater.self LRUpdater.set_self LRUpdater.state]. fold len.
    assert (En : n_steps_or (n_steps s) len = 0%Z).
    { destruct Hn as [-> | ->]; cbn; assumption. }
    rewrite En. reflexivity.
  - intros Hinit Hn Hlen Hkey.
    destruct (on_loader_start_train float_pow w Htrain) as (w' & E & Hs & _).
    + assumption.
    + fold s len. rewrite Hn. cbn. assumption.
    + assumption.
    + exists w'. split; [exact E|]. rewrite Hs. fold s len. rewrite Hn.
      cbn. split; reflexivity.
Qed.

(** X21. With an exact root the range finder ends on [final_lr]. On a
    fresh range finder ([find_iter = 0]) with [n] steps, when the power
    computed at loader-start is an exact [n]-th root, that is
    [multiplier ^ n = final_lr / init_lr], and the first training loader
    has at least [n] batches, that loader runs [n - 1] batch-ends normally
    and stops at batch-end number [n] with the end-of-range exception, and
    the learning rate written last, into the optimizer's readout
    [state.lr[key]], is [final_lr]. *)
Theorem lr_finder_reaches_final_lr (w : LRUpdater.world t) :
  let s := LRUpdater.self w in
  let n := n_steps_or (n_steps s) (RunState.loader_len (LRUpdater.state w)) in
  let m := float_pow (final_lr s / init_lr s) (1 / inject_Z n) in
  RunState.is_train (LRUpdater.state w) = true ->
  ~ init_lr s == 0 -> (0 < n)%Z -> find_iter s = 0%Z ->
  is_Some (dict_get (optimizer_key s) (LRUpdater.optimizer w)) ->
  m ^ n == final_lr s / init_lr s ->
  exists w1 w' v,
    run_loader float_pow (Z.to_nat n - 1) w = (Ok tt, w1) /\
    run_loader float_pow (Z.to_nat n) w = (Raise NotImplementedError, w') /\
    RunState.lr (LRUpdater.state w') !! optimizer_key s = Some v /\
    v == final_lr s.
Proof.
  intros s n m Htrain Hinit Hn Hfresh Hkey Hroot.
  destruct (on_loader_start_train float_pow w Htrain Hinit ltac:(fold s n; lia) Hkey)
    as (w1 & E1 & Hs1 & Ht1 & _ & Hk1).
  fold s n m in Hs1. rewrite Hfresh in Hs1. cbn [Z.add] in Hs1.
  assert (Hkey1 : optimizer_key (LRUpdater.self w1) = optimizer_key s)
    by (rewrite Hs1; reflexivity).
  assert (Hn1 : n_steps (LRUpdater.self w1) = Some n) by (rewrite Hs1; reflexivity).
  assert (Hf1 : find_iter (LRUpdater.self w1) = 1%Z) by (rewrite Hs1; reflexivity).
  destruct (batches_below (Z.to_nat n - 1) w1 n Ht1) as (w2 & E2 & Hs2 & Ht2 & Hk2 & _).
  { rewrite Hkey1. exact Hk1. }
  { exact Hn1. }
  { rewrite Hf1. lia. }
  rewrite Hf1 in Hs2.
  assert (Hf2 : find_iter (LRUpdater.self w2) = n).
  { rewrite Hs2. cbn [find_iter set_find_iter]. lia. }
  destruct (on_batch_end_train w2 n Ht2) as (w3 & E3 & _ & _ & Hl3 & _).
  { rewrite Hs2. cbn [optimizer_key set_find_iter]. exact Hk2. }
  { rewrite Hs2. cbn [n_steps set_find_iter]. exact Hn1. }
  rewrite Hf2 in E3, Hl3.
  destruct (Z.gtb_spec (n + 1) n) as [_|Hle]; [|lia].
  exists w2, w3. eexists.
  split; [|split; [|split]].
  - unfold run_loader, bind. rewrite E1. exact E2.
  - unfold run_loader, bind. rewrite E1.
    replace (Z.to_nat n) with (S (Z.to_nat n - 1)) by lia.
    cbn [batches]. unfold bind. rewrite E2. exact E3.
  - rewrite Hs2, Hs1 in Hl3.
    cbn [optimizer_key init_lr multiplier set_find_iter set_multiplier set_n_steps] in Hl3.
    exact Hl3.
  - cbv beta. fold s. rewrite Hroot. field. exact Hinit.
Qed.

End LRFinderMore.

Section LRFinderMoreExamples.
Import LRFinder LRFinderSpec UpdaterSpec.
Local Open Scope Q_scope.

Lemma lr_finder_outside_training_witness :
  on_batch_end validation_finder_example
  = (Raise TypeError,
     LRUpdater.set_state
       (readouts_zeroed "main" (LRUpdater.state validation_finder_example))
       validation_finder_example).
Proof.
  destruct (lr_finder_outside_training float_pow_example validation_finder_example)
    as (_ & H).
  - reflexivity.
  - exact H.
Defined.

Lemma lr_finder_degenerate_start_witness :
  on_loader_start float_pow_example empty_finder_example
  = (Raise ZeroDivisionError,
     LRUpdater.set_self (set_n_steps 0 (LRUpdater.self empty_finder_example))
       empty_finder_example).
Proof.
  destruct (lr_finder_degenerate_start float_pow_example empty_finder_example)
    as (_ & H & _).
  - reflexivity.
  - apply H.
    + cbn. intros E. discriminate E.
    + left. reflexivity.
    + reflexivity.
Defined.

Lemma lr_finder_reaches_final_lr_witness :
  exists w' v,
    run_loader (fun _ _ => 2) (Z.to_nat 10) doubling_finder_example
    = (Raise NotImplementedError, w') /\
    RunState.lr (LRUpdater.state w') !! "main" = Some v /\
    v == 1024.
Proof.
  destruct (lr_finder_reaches_final_lr (fun _ _ => 2) doubling_finder_example)
    as (_ & w' & v & _ & E & Hl & Hv).
  - reflexivity.
  - cbn. intros H. discriminate H.
  - cbn. lia.
  - reflexivity.
  - cbn. eauto.
  - vm_compute. reflexivity.
  - exists w', v. split; [exact E|]. split; [exact Hl|exact Hv].
Defined.

End LRFinderMoreExamples.

Section OneCycleMore.
Import OneCycleLR OneCycleLRSpec UpdaterSpec.
Local Open Scope Q_scope.

(** X5. On a loader that is not a training loader, both hooks of the
    one-cycle schedule return normally, whether or not the optimizer dict
    has the key: the schedule (its counters, and [total_iter] and
    [cut_point], set or not) and the optimizers stay as they are, and the
    readouts [state.lr[key]] and [state.momentum[key]] become 0. *)
Theorem one_cycle_outside_training (w : LRUpdater.world t) :
  let key := optimizer_key (LRUpdater.self w) in
  let w' := LRUpdater.set_state (readouts_zeroed key (LRUpdater.state w)) w in
  RunState.is_train (LRUpdater.state w) = false ->
  on_loader_start w = (Ok tt, w') /\
  on_batch_end w = (Ok tt, w') /\
  RunState.lr (LRUpdater.state w') !! key = Some 0 /\
  RunState.momentum (LRUpdater.state w') !! key = Some 0.
Proof.
  intros key w' Htrain.
  destruct (update_optimizer_not_train w Htrain) as (w1 & E & Hs & Ho & Hst & Hl & Hm).
  assert (Ew : w1 = w').
  { destruct w1 as [s1 st1 o1]. destruct w as [s st o]. cbn in *.
    subst. reflexivity. }
  subst w1.
  split.
  - unfold on_loader_start, bind, get. rewrite Htrain. unfold ret.
    exact E.
  - split; [exact E|]. split; assumption.
Qed.

Lemma one_cycle_outside_training_witness :
  on_loader_start validation_example
  = (Ok tt, LRUpdater.set_state
              (readouts_zeroed "main" (LRUpdater.state validation_example))
              validation_example).
Proof.
  destruct (one_cycle_outside_training validation_example) as (H & _).
  - reflexivity.
  - exact H.
Defined.

Lemma schedule_calc_lr (s s' : t) (v : Q) :
  calc_lr s = (Ok v, s') -> LRUpdater.calc_lr s = (Ok (Some v), s').
Proof. intros E. cbn. unfold bind. rewrite E. reflexivity. Qed.

Lemma schedule_calc_momentum (s s' : t) (m : Q) :
  calc_momentum s = (Ok m, s') -> LRUpdater.calc_momentum s = (Ok (Some m), s').
Proof. intros E. cbn. unfold bind. rewrite E. reflexivity. Qed.

Lemma succ_mod_small (i total : Z) :
  (0 <= i < total)%Z ->
  ((i + 1) mod total = if decide (i + 1 = total) then 0 else i + 1)%Z.
Proof.
  intros Hi. destruct (decide _) as [D|D].
  - rewrite D. apply Z.mod_same. lia.
  - apply Z.mod_small. lia.
Qed.

(** X6. One batch-end of the one-cycle schedule on a training loader, at
    iteration index [i] of a prepared cycle: every parameter group of the
    optimizer under the key gets the learning rate of index [i], and then
    the momentum of the index after it, [(i + 1) mod total_iter], because
    [calc_momentum] runs after [calc_lr] has advanced the counter. The
    same two values are the readouts [state.lr[key]] and
    [state.momentum[key]]; the other optimizers and the rest of the state
    are untouched. *)
Theorem one_cycle_training_update (w : LRUpdater.world t) (total cut : Z)
    (o : Torch.optimizer) :
  let s := LRUpdater.self w in
  let key := optimizer_key s in
  let i := cycle_iter s in
  let i' := ((i + 1) mod total)%Z in
  RunState.is_train (LRUpdater.state w) = true ->
  total_iter s = Some total -> cut_point s = Some cut ->
  (0 <= i < total)%Z -> cut <> 0%Z -> div s <> 0%Z ->
  dict_get key (LRUpdater.optimizer w) = Some o ->
  momentum_ready o ->
  exists v m,
    on_batch_end w
    = (Ok tt,
       LRUpdater.mk_world
         (set_cycle i' (if decide (i + 1 = total)%Z
                        then cycle_count s + 1 else cycle_count s)%Z s)
         (RunState.set_momentum key m (RunState.set_lr key v (LRUpdater.state w)))
         (dict_set key
            (Torch.set_param_groups
               (momentum_written m (map (Torch.set_lr v) (Torch.param_groups o))) o)
            (LRUpdater.optimizer w))) /\
    v == lr_spec (init_lr s) (div s) total cut i /\
    m == momentum_spec (momentum_range s) total cut i'.
Proof.
  intros s key i i' Htrain Ht Hc Hi Hcut Hdiv Ho Hready.
  destruct (calc_lr_step s total cut Ht Hc Hi Hcut Hdiv) as (v & Ev & Sv).
  set (s1 := set_cycle _ _ s) in Ev.
  assert (Hi1 : cycle_iter s1 = i').
  { unfold s1, i'. cbn [set_cycle cycle_iter]. fold i.
    rewrite succ_mod_small by assumption. reflexivity. }
  destruct (calc_momentum_step s1 total cut) as (m & Em & Sm);
    [exact Ht|exact Hc| |exact Hcut|].
  { rewrite Hi1. apply Z.mod_pos_bound. lia. }
  exists v, m. split; [|split].
  - unfold on_batch_end, LRUpdater.on_batch_end.
    rewrite (update_optimizer_train_both w v m s1 s1 o Htrain
               (schedule_calc_lr _ _ _ Ev) (schedule_calc_momentum _ _ _ Em) Ho Hready).
    cbn [LRUpdater.optimizer_key schedule]. fold s key.
    do 3 f_equal. unfold s1. fold i. unfold i'.
    rewrite succ_mod_small by assumption.
    destruct (decide _); reflexivity.
  - exact Sv.
  - rewrite Sm, Hi1. reflexivity.
Qed.

Lemma one_cycle_training_update_witness :
  exists v m w',
    on_batch_end prepared_example = (Ok tt, w') /\
    RunState.lr (LRUpdater.state w') !! "main" = Some v /\
    RunState.momentum (LRUpdater.state w') !! "main" = Some m /\
    v == 1 # 10 /\ m == 946 # 1000.
Proof.
  destruct (one_cycle_training_update prepared_example 100 25
              (Torch.mk_optimizer [Torch.mk_group [] 1 None None (Some (9 # 10))]))
    as (v & m & E & Sv & Sm).
  - reflexivity.
  - reflexivity.
  - reflexivity.
  - cbn. lia.
  - discriminate.
  - discriminate.
  - reflexivity.
  - left. reflexivity.
  - exists v, m. eexists. split; [exact E|].
    cbn [LRUpdater.state RunState.lr RunState.momentum RunState.set_lr
         RunState.set_momentum].
    split; [apply lookup_insert_eq|]. split; [apply lookup_insert_eq|].
    split.
    + rewrite Sv. vm_compute. reflexivity.
    + rewrite Sm. vm_compute. reflexivity.
Defined.

Lemma succ_div (k total : Z) :
  (0 < total)%Z ->
  ((k + 1) / total = if decide (k mod total + 1 = total) then k / total + 1 else k / total)%Z.
Proof.
  intros Ht.
  pose proof (Z.mod_pos_bound k total Ht) as Hb.
  pose proof (Z.div_mod k total ltac:(lia)) as Hk.
  destruct (decide _) as [D|D]; symmetry.
  - apply Z.div_unique with (r := 0%Z); lia.
  - apply Z.div_unique with (r := (k mod total + 1)%Z); lia.
Qed.

(** The state after [k] calls, in closed form. *)
Lemma after_calls_closed (s : t) (total cut : Z) (k : nat) :
  total_iter s = Some total -> cut_point s = Some cut ->
  cycle_iter s = 0%Z -> (0 < total)%Z -> cut <> 0%Z -> div s <> 0%Z ->
  after_calls k s
  = set_cycle (Z.of_nat k mod total) (cycle_count s + Z.of_nat k / total) s.
Proof.
  intros Ht Hc Hi Hpos Hcut Hdiv. induction k as [|k IH].
  - cbn [after_calls]. change (Z.of_nat 0) with 0%Z.
    rewrite Z.mod_0_l, Z.div_0_l, Z.add_0_r by lia.
    destruct s; cbn in *; subst; reflexivity.
  - cbn [after_calls]. rewrite IH.
    set (sk := set_cycle _ _ s).
    destruct (calc_lr_step sk total cut) as (v & Ev & _);
      [exact Ht|exact Hc| |exact Hcut|exact Hdiv|].
    { cbn. apply Z.mod_pos_bound. lia. }
    rewrite Ev. cbn [snd]. unfold sk. cbn [set_cycle cycle_iter cycle_count
      init_lr optimizer_key total_iter div cut_div cycle_len cut_point momentum_range].
    rewrite Nat2Z.inj_succ, <- Z.add_1_r.
    rewrite mod_succ, succ_div by lia.
    destruct (decide _); unfold set_cycle; cbn; f_equal; lia.
Qed.

Lemma calc_lr_fst_count (i c c' : Z) (s : t) :
  fst (calc_lr (set_cycle i c s)) = fst (calc_lr (set_cycle i c' s)).
Proof.
  unfold calc_lr, bind, get, lift, ret, modify, the_int.
  cbn [set_cycle cycle_iter cycle_count init_lr total_iter div cut_point].
  destruct (cut_point s) as [cut|]; [|reflexivity]. cbn [of_option].
  destruct (i >? cut)%Z.
  - destruct (total_iter s) as [total|]; [|reflexivity]. cbn [of_option].
    destruct (truediv _ _); [|reflexivity].
    destruct (truediv _ _); [|reflexivity].
    cbn. match goal with |- context [if ?d then _ else _] => destruct d end;
      reflexivity.
  - destruct (truediv _ _); [|reflexivity].
    destruct (truediv _ _); [|reflexivity].
    cbn. match goal with |- context [if ?d then _ else _] => destruct d end;
      reflexivity.
Qed.

(** X7. The one-cycle schedule is periodic. From a prepared schedule at
    the start of a cycle, after [k] calls of [calc_lr] the counter
    [cycle_iter] is [k mod total_iter] and [cycle_count] has grown by
    [k // total_iter], nothing else having changed; so the call made
    [total_iter] calls later returns the very same learning rate. *)
Theorem one_cycle_periodic (s : t) (total cut : Z) (k : nat) :
  total_iter s = Some total -> cut_point s = Some cut ->
  cycle_iter s = 0%Z -> (0 < total)%Z -> cut <> 0%Z -> div s <> 0%Z ->
  after_calls k s
  = set_cycle (Z.of_nat k mod total) (cycle_count s + Z.of_nat k / total) s /\
  fst (calc_lr (after_calls (k + Z.to_nat total) s)) = fst (calc_lr (after_calls k s)).
Proof.
  intros Ht Hc Hi Hpos Hcut Hdiv.
  split; [apply after_calls_closed with (cut := cut); assumption|].
  rewrite !after_calls_closed with (total := total) (cut := cut) by assumption.
  rewrite Nat2Z.inj_add, Z2Nat.id by lia.
  replace (Z.of_nat k + total)%Z with (Z.of_nat k + 1 * total)%Z by lia.
  rewrite Z.mod_add by lia.
  apply calc_lr_fst_count.
Qed.

Lemma one_cycle_periodic_witness :
  cycle_count (after_calls 250 (LRUpdater.self prepared_example)) = 2%Z /\
  cycle_iter (after_calls 250 (LRUpdater.self prepared_example)) = 50%Z /\
  fst (calc_lr (after_calls (50 + Z.to_nat 100) (LRUpdater.self prepared_example)))
  = fst (calc_lr (after_calls 50 (LRUpdater.self prepared_example))).
Proof.
  assert (Hcut : 25%Z <> 0%Z) by discriminate.
  assert (Hdiv : div (LRUpdater.self prepared_example) <> 0%Z) by discriminate.
  pose proof (one_cycle_periodic (LRUpdater.self prepared_example) 100 25 250
                eq_refl eq_refl eq_refl eq_refl Hcut Hdiv) as [E _].
  pose proof (one_cycle_periodic (LRUpdater.self prepared_example) 100 25 50
                eq_refl eq_refl eq_refl eq_refl Hcut Hdiv) as [_ P].
  rewrite E. split; [reflexivity|]. split; [reflexivity|exact P].
Defined.

Lemma percent_bounds (total cut i : Z) :
  (0 < cut)%Z -> (0 <= i < total)%Z ->
  0 <= percent_spec total cut i <= 1.
Proof.
  intros Hcut Hi. unfold percent_spec.
  assert (Hc : 0 < inject_Z cut) by (apply inject_Z_pos; assumption).
  destruct (Z.leb_spec i cut) as [Hle|Hgt].
  - assert (H0 : 0 <= inject_Z i) by (change 0 with (inject_Z 0); rewrite <- Zle_Qle; lia).
    assert (H1 : inject_Z i <= inject_Z cut) by (rewrite <- Zle_Qle; lia).
    split.
    + apply Qle_shift_div_l; [assumption|]. lra.
    + apply Qle_shift_div_r; [assumption|]. lra.
  - assert (Hd : 0 < inject_Z total - inject_Z cut).
    { rewrite <- inject_Z_sub. apply inject_Z_pos. lia. }
    assert (H0 : 0 <= inject_Z i - inject_Z cut).
    { rewrite <- inject_Z_sub. change 0 with (inject_Z 0). rewrite <- Zle_Qle. lia. }
    assert (H1 : inject_Z i - inject_Z cut <= inject_Z total - inject_Z cut).
    { rewrite <- !inject_Z_sub. rewrite <- Zle_Qle. lia. }
    assert (A : 0 <= (inject_Z i - inject_Z cut) / (inject_Z total - inject_Z cut)).
    { apply Qle_shift_div_l; [assumption|]. lra. }
    assert (B : (inject_Z i - inject_Z cut) / (inject_Z total - inject_Z cut) <= 1).
    { apply Qle_shift_div_r; [assumption|]. lra. }
    split; lra.
Qed.

(** X8. The values of a prepared one-cycle schedule stay in range. With
    a positive [cut_point], [init_lr >= 0], [div >= 1] and
    [momentum_range[0] >= momentum_range[1]], at every iteration index of
    the cycle [calc_lr] returns a learning rate between [init_lr / div]
    and [init_lr], and [calc_momentum] a momentum between
    [momentum_range[1]] and [momentum_range[0]]; the floor [init_lr / div]
    is the value at index 0 and the peak [init_lr] the value at
    [cut_point]. *)
Theorem one_cycle_values_in_range (s : t) (total cut : Z) :
  total_iter s = Some total -> cut_point s = Some cut ->
  (0 <= cycle_iter s < total)%Z -> (0 < cut)%Z ->
  0 <= init_lr s -> (1 <= div s)%Z ->
  snd (momentum_range s) <= fst (momentum_range s) ->
  exists v m,
    fst (calc_lr s) = Ok v /\ fst (calc_momentum s) = Ok m /\
    init_lr s / inject_Z (div s) <= v /\ v <= init_lr s /\
    snd (momentum_range s) <= m /\ m <= fst (momentum_range s) /\
    (cycle_iter s = 0%Z -> v == init_lr s / inject_Z (div s)) /\
    (cycle_iter s = cut -> v == init_lr s).
Proof.
  intros Ht Hc Hi Hcut Hinit Hdiv Hmr.
  destruct (calc_lr_step s total cut Ht Hc Hi ltac:(lia) ltac:(lia)) as (v & Ev & Sv).
  destruct (calc_momentum_step s total cut Ht Hc Hi ltac:(lia)) as (m & Em & Sm).
  pose proof (percent_bounds total cut (cycle_iter s) Hcut Hi) as [P0 P1].
  exists v, m. rewrite Ev, Em. split; [reflexivity|]. split; [reflexivity|].
  assert (Hd : 0 < inject_Z (div s)) by (apply inject_Z_pos; lia).
  assert (Hd1 : 1 <= inject_Z (div s)).
  { change 1 with (inject_Z 1). rewrite <- Zle_Qle. lia. }
  set (p := percent_spec total cut (cycle_iter s)) in *.
  set (d := inject_Z (div s)) in *.
  set (a := init_lr s) in *.
  set (hi := fst (momentum_range s)) in *.
  set (lo := snd (momentum_range s)) in *.
  assert (Hq1 : 0 <= a * (p * (d - 1))).
  { apply Qmult_le_0_compat; [assumption|].
    apply Qmult_le_0_compat; [assumption|lra]. }
  assert (Hq2 : 0 <= a * ((1 - p) * (d - 1))).
  { apply Qmult_le_0_compat; [assumption|].
    apply Qmult_le_0_compat; lra. }
  assert (Hq3 : 0 <= (1 - p) * (hi - lo)) by (apply Qmult_le_0_compat; lra).
  assert (Hq4 : 0 <= p * (hi - lo)) by (apply Qmult_le_0_compat; lra).
  split; [|split; [|split; [|split; [|split]]]].
  - rewrite Sv. unfold lr_spec. fold p d a.
    apply Qle_shift_div_l; [assumption|].
    assert (E : a / d * d == a) by (field; lra).
    rewrite E.
    assert (E2 : a * (1 + p * (d - 1)) == a + a * (p * (d - 1))) by ring.
    rewrite E2. lra.
  - rewrite Sv. unfold lr_spec. fold p d a.
    apply Qle_shift_div_r; [assumption|].
    assert (E2 : a * d == a * (1 + p * (d - 1)) + a * ((1 - p) * (d - 1))) by ring.
    rewrite E2. lra.
  - rewrite Sm. unfold momentum_spec. fold p hi lo. lra.
  - rewrite Sm. unfold momentum_spec. fold p hi lo.
    assert (E2 : hi == lo + (1 - p) * (hi - lo) + p * (hi - lo)) by ring.
    rewrite E2 at 2. lra.
  - intros H0. rewrite Sv. unfold lr_spec. subst p. unfold percent_spec.
    rewrite H0. destruct (Z.leb_spec 0 cut); [|lia].
    change (inject_Z 0) with 0. fold d.
    assert (Hc1 : 0 < inject_Z cut) by (apply inject_Z_pos; assumption).
    field. split; lra.
  - intros Hc0. rewrite Sv. unfold lr_spec. subst p. unfold percent_spec.
    rewrite Hc0, Z.leb_refl. fold d.
    assert (Hc1 : 0 < inject_Z cut) by (apply inject_Z_pos; assumption).
    field. split; lra.
Qed.

Lemma one_cycle_values_in_range_witness :
  exists v m,
    fst (calc_lr (at_iter 25 (LRUpdater.self prepared_example))) = Ok v /\
    fst (calc_momentum (at_iter 25 (LRUpdater.self prepared_example))) = Ok m /\
    v == 1 /\ 85 # 100 <= m /\ m <= 95 # 100.
Proof.
  destruct (one_cycle_values_in_range
              (at_iter 25 (LRUpdater.self prepared_example)) 100 25)
    as (v & m & Ev & Em & _ & _ & Hlo & Hhi & _ & Hpeak).
  - reflexivity.
  - reflexivity.
  - cbn. lia.
  - lia.
  - cbn. lra.
  - cbn. lia.
  - cbn. lra.
  - exists v, m. split; [exact Ev|]. split; [exact Em|].
    split; [apply Hpeak; reflexivity|]. split; [exact Hlo|exact Hhi].
Defined.

(** X9. A training loader too short for the cycle. [on_loader_start]
    stores [total_iter = len * cycle_len]; with [cut_div = 0] the floor
    division raises [ZeroDivisionError] and [cut_point] stays as it was;
    with [0 <= total_iter < cut_div] the cut point becomes 0 and the first
    [calc_lr] raises [ZeroDivisionError] on [0 / 0]. In both cases no
    optimizer and no readout of the state has been touched. *)
Theorem one_cycle_short_loader (w : LRUpdater.world t) :
  let s := LRUpdater.self w in
  let len := RunState.loader_len (LRUpdater.state w) in
  let total := (len * cycle_len s)%Z in
  RunState.is_train (LRUpdater.state w) = true ->
  (cut_div s = 0%Z ->
   on_loader_start w
   = (Raise ZeroDivisionError, LRUpdater.set_self (set_total_iter total s) w)) /\
  ((0 <= total < cut_div s)%Z -> cycle_iter s = 0%Z ->
   on_loader_start w
   = (Raise ZeroDivisionError,
      LRUpdater.set_self (set_cut_point 0 (set_total_iter total s)) w)).
Proof.
  intros s len total Htrain. split.
  - intros Hcd. unfold on_loader_start, bind, get. rewrite Htrain.
    unfold zoom, modify, lift, floordiv. fold s. rewrite Hcd. reflexivity.
  - intros Hshort Hi.
    rewrite on_loader_start_fixes by (fold s; lia || assumption).
    unfold LRUpdater.on_loader_start, LRUpdater.update_optimizer, bind, get.
    cbn [LRUpdater.state LRUpdater.set_self LRUpdater.self]. rewrite Htrain.
    unfold zoom. cbn [LRUpdater.self LRUpdater.calc_lr schedule].
    unfold fixed. fold s len total. rewrite Z.div_small by assumption.
    unfold bind, calc_lr, bind, get, lift, the_int.
    cbn [LRUpdater.self LRUpdater.set_self set_cut_point set_total_iter cut_point
         cycle_iter of_option].
    rewrite Hi. cbn. reflexivity.
Qed.

Lemma one_cycle_short_loader_witness :
  on_loader_start
    (LRUpdater.mk_world (__init__ 1 1 10 4 (95 # 100, 85 # 100) "main")
       (RunState.mk "train" true 3 PyNone PyNone [] ∅ ∅) [])
  = (Raise ZeroDivisionError,
     LRUpdater.mk_world
       (set_cut_point 0 (set_total_iter 3 (__init__ 1 1 10 4 (95 # 100, 85 # 100) "main")))
       (RunState.mk "train" true 3 PyNone PyNone [] ∅ ∅) []).
Proof.
  destruct (one_cycle_short_loader
              (LRUpdater.mk_world (__init__ 1 1 10 4 (95 # 100, 85 # 100) "main")
                 (RunState.mk "train" true 3 PyNone PyNone [] ∅ ∅) []))
    as (_ & H); [reflexivity|].
  apply H; [cbn; lia|reflexivity].
Defined.

End OneCycleMore.

Section BracketFacts.
Import Torch BasicOptimizerCallback OptimizerSpec BracketSpec.
Local Open Scope Q_scope.

Lemma dict_get_notin {V} (k : string) (d : dict V) :
  ~ In k (keys d) -> dict_get k d = None.
Proof.
  induction d as [|[k0 v0] d IH]; cbn; [reflexivity|].
  intros Hnot. destruct (String.eqb_spec k k0) as [->|Hne]; [tauto|].
  apply IH. tauto.
Qed.

Lemma keys_dict_set_present {V} (k : string) (v v' : V) (d : dict V) :
  dict_get k d = Some v' -> keys (dict_set k v d) = keys d.
Proof.
  induction d as [|[k0 v0] d IH]; cbn; [discriminate|].
  destruct (String.eqb_spec k k0) as [->|Hne]; cbn; [reflexivity|].
  intros Hget. f_equal. apply IH, Hget.
Qed.

(** Two dicts with the same keys in the same order, none repeated, and
    the same value under every key are the same dict. *)
Lemma dict_ext {V} (d1 d2 : dict V) :
  keys d1 = keys d2 -> List.NoDup (keys d1) ->
  (forall k, In k (keys d1) -> dict_get k d1 = dict_get k d2) -> d1 = d2.
Proof.
  revert d2. induction d1 as [|[k v] d1 IH]; intros [|[k2 v2] d2] Hk Hnd Hget;
    try discriminate; [reflexivity|].
  cbn in Hk. injection Hk as <- Hk.
  cbn in Hnd. apply List.NoDup_cons_iff in Hnd as [Hnot Hnd].
  pose proof (Hget k ltac:(cbn; auto)) as Hv. cbn in Hv.
  rewrite String.eqb_refl in Hv. injection Hv as <-.
  f_equal. apply IH; [assumption|assumption|].
  intros k' Hin. pose proof (Hget k' ltac:(cbn; auto)) as Hv. cbn in Hv.
  destruct (String.eqb_spec k' k) as [->|Hne]; [tauto|assumption].
Qed.

Lemma keys_restored (wds : dict Q) (d : dict Torch.optimizer) :
  keys (restored wds d) = keys d.
Proof.
  revert d. induction wds as [|[k v] wds IH]; intros d; [reflexivity|].
  cbn [restored fold_left fst snd].
  change (fold_left _ wds ?a) with (restored wds a).
  rewrite IH. destruct (dict_get k d) as [o|] eqn:E; [|reflexivity].
  eapply keys_dict_set_present, E.
Qed.

Lemma keys_zeroed (l : dict Torch.optimizer) : keys (map zeroed_item l) = keys l.
Proof.
  unfold keys. rewrite map_map. apply map_ext. intros [k o]. reflexivity.
Qed.

(** Writing the recorded value back undoes the zeroing. *)
Lemma with_wd_undo (o : Torch.optimizer) :
  0 < configured_wd o -> with_wd (configured_wd o) (with_wd 0 o) = o.
Proof.
  unfold configured_wd, with_wd. destruct o as [[|g0 gs]]; cbn.
  - intros H. exfalso. apply (Qlt_irrefl 0 H).
  - destruct g0 as [ps l [wd|] b m]; cbn; [reflexivity|].
    intros H. exfalso. apply (Qlt_irrefl 0 H).
Qed.

Lemma restored_zeroed (l : dict Torch.optimizer) :
  List.NoDup (keys l) -> Forall has_groups l ->
  restored (wds_of [] l) (map zeroed_item l) = l.
Proof.
  intros Hnd Hg. apply dict_ext.
  - rewrite keys_restored. apply keys_zeroed.
  - rewrite keys_restored, keys_zeroed. assumption.
  - intros k Hin. rewrite keys_restored, keys_zeroed in Hin.
    destruct (In_keys_dict_get k l Hin) as (o & Ho & _).
    pose proof (dict_get_wds_of id (fun _ => []) k o [] l Hnd Ho) as Hw.
    destruct (wds_of_keys (fun _ => []) [] l) as [Hndw _].
    destruct (Qlt_le_dec 0 (configured_wd o)) as [Hpos|Hle] eqn:Edec.
    + rewrite (dict_get_restored id (fun _ => []) k (configured_wd o)); [|apply Hndw; constructor|exact Hw].
      rewrite dict_get_zeroed, Ho. cbn. rewrite Edec.
      rewrite with_wd_undo by assumption. reflexivity.
    + rewrite (dict_get_restored_notin id (fun _ => [])).
      * rewrite dict_get_zeroed, Ho. cbn. rewrite Edec. reflexivity.
      * intros Hk. apply In_keys_dict_get in Hk as (v & Hv & _).
        cbn in Hw. congruence.
Qed.

(** X10. The weight-decay bracket is a round trip. For an optimizer dict
    with distinct keys whose optimizers all have a parameter group,
    [on_epoch_start] followed by [on_epoch_end] returns normally and
    leaves every optimizer exactly as it was before the epoch; in between,
    no optimizer has a positive [weight_decay] in its first group. Model
    and run state are never touched. *)
Theorem weight_decay_round_trip (w : world) :
  List.NoDup (keys (optimizer w)) -> Forall has_groups (optimizer w) ->
  exists w1 w2,
    on_epoch_start w = (Ok tt, w1) /\
    on_epoch_end w1 = (Ok tt, w2) /\
    Forall (fun item => configured_wd (snd item) <= 0) (optimizer w1) /\
    optimizer w2 = optimizer w /\
    model w1 = model w /\ state w1 = state w /\
    model w2 = model w /\ state w2 = state w.
Proof.
  intros Hnd Hg.
  destruct (epoch_start_bracket (fun _ => []) (optimizer w) Hg) as [Hndw Hhas].
  unfold on_epoch_start. rewrite for_items_epoch_start by assumption.
  cbn [optimizer_wds set_optimizer_wds].
  eexists. eexists. split; [reflexivity|].
  unfold on_epoch_end, bind, get.
  cbn [self set_self set_optimizer optimizer_wds set_optimizer_wds].
  rewrite for_each_restore by (cbn [optimizer set_optimizer]; exact Hhas).
  split; [reflexivity|].
  cbn [optimizer set_optimizer set_self model state].
  split; [|split; [apply restored_zeroed; assumption|tauto]].
  apply Forall_map. apply List.Forall_forall. intros [k o] Hin.
  assert (Hgo : param_groups o <> []).
  { rewrite List.Forall_forall in Hg. apply (Hg (k, o) Hin). }
  cbn [zeroed_item snd].
  destruct (Qlt_le_dec 0 (configured_wd o)) as [Hpos|Hle]; [|exact Hle].
  rewrite configured_wd_with_wd by assumption. apply Qle_refl.
Qed.

(** X11. What [on_epoch_start] records. Whatever [optimizer_wds] held
    before (records of an earlier epoch are dropped), afterwards a key is
    recorded exactly when the optimizer dict has it with a positive
    weight decay in the first parameter group, and the record is that
    value; an optimizer whose weight decay is absent, zero or negative is
    left exactly as it is. *)
Theorem epoch_start_records (w : world) (key : string) :
  List.NoDup (keys (optimizer w)) -> Forall has_groups (optimizer w) ->
  exists w1,
    on_epoch_start w = (Ok tt, w1) /\
    dict_get key (optimizer_wds (self w1))
    = match dict_get key (optimizer w) with
      | Some o => if Qlt_le_dec 0 (configured_wd o)
                  then Some (configured_wd o) else None
      | None => None
      end /\
    (forall o, dict_get key (optimizer w) = Some o -> configured_wd o <= 0 ->
               dict_get key (optimizer w1) = Some o) /\
    keys (optimizer w1) = keys (optimizer w).
Proof.
  intros Hnd Hg.
  unfold on_epoch_start. rewrite for_items_epoch_start by assumption.
  cbn [optimizer_wds set_optimizer_wds].
  eexists. split; [reflexivity|].
  cbn [self set_self set_optimizer optimizer optimizer_wds set_optimizer_wds].
  split; [|split].
  - destruct (dict_get key (optimizer w)) as [o|] eqn:Ho.
    + rewrite (dict_get_wds_of id (fun _ => []) key o [] _ Hnd Ho).
      destruct (Qlt_le_dec 0 (configured_wd o)); reflexivity.
    + rewrite (dict_get_wds_of_notin id (fun _ => [])); [reflexivity|].
      intros Hin. apply In_keys_dict_get in Hin as (o & Ho' & _). congruence.
  - intros o Ho Hle. rewrite dict_get_zeroed, Ho. cbn.
    destruct (Qlt_le_dec 0 (configured_wd o)) as [Hpos|_]; [|reflexivity].
    exfalso. apply (Qlt_not_le _ _ Hpos Hle).
  - apply keys_zeroed.
Qed.

Lemma for_items_epoch_start_stop (pre post : dict Torch.optimizer) (k : string)
    (o : Torch.optimizer) (s : t) :
  Forall has_groups pre -> param_groups o = [] ->
  for_items on_epoch_start_item (pre ++ (k, o) :: post)%list s
  = (Raise IndexError,
     (set_optimizer_wds (wds_of (optimizer_wds s) pre) s,
      (map zeroed_item pre ++ (k, o) :: post)%list)).
Proof.
  intros Hpre Ho. revert s. induction Hpre as [|[key o'] pre Hg Hpre IH]; intros s.
  - cbn. rewrite Ho, set_optimizer_wds_id. reflexivity.
  - cbn [for_items app]. unfold on_epoch_start_item at 1.
    unfold has_groups in Hg. cbn [snd] in Hg.
    cbn [wds_of fold_left map zeroed_item fst snd app].
    unfold configured_wd, with_wd.
    destruct (param_groups o') as [|g0 gs] eqn:Eg; [congruence|].
    destruct (Qlt_le_dec 0 _) as [Hpos|Hle]; rewrite IH; reflexivity.
Qed.

(** X12. An optimizer without parameter groups stops [on_epoch_start]
    half-way: the hook raises [IndexError] at that optimizer; the
    optimizers before it have already been recorded and zeroed, and the
    ones after it still carry their weight decay. *)
Theorem epoch_start_without_groups (w : world) (pre post : dict Torch.optimizer)
    (k : string) (o : Torch.optimizer) :
  optimizer w = (pre ++ (k, o) :: post)%list ->
  Forall has_groups pre -> param_groups o = [] ->
  on_epoch_start w
  = (Raise IndexError,
     set_optimizer (map zeroed_item pre ++ (k, o) :: post)%list
       (set_self (set_optimizer_wds (wds_of [] pre) (self w)) w)).
Proof.
  intros Hw Hpre Ho. unfold on_epoch_start. rewrite Hw.
  rewrite for_items_epoch_start_stop by assumption.
  cbn [optimizer_wds set_optimizer_wds]. reflexivity.
Qed.

End BracketFacts.

Section GradientFacts.
Import Torch BasicOptimizerCallback OptimizerSpec BracketSpec.
Local Open Scope Q_scope.

Variable step : Torch.optimizer -> Torch.optimizer.
Variable clip_grad_norm_ : list param -> Q -> list param.
Variable loss_grad : string -> list Q.

Lemma tadd_zero_scaled (c : Q) (g lg : list Q) :
  length g = length lg ->
  Forall2 (fun a y => a == c * y) (tadd (map (fun _ => 0) g) (tscale c lg)) lg.
Proof.
  unfold tadd, tscale. revert lg.
  induction g as [|x g IH]; intros [|y lg] Hlen; try discriminate; cbn.
  - constructor.
  - constructor; [ring|]. apply IH. cbn in Hlen. congruence.
Qed.

Lemma Forall_zero_map (g : list Q) : Forall (Qeq 0) (map (fun _ => 0) g).
Proof. induction g; cbn; constructor; [reflexivity|assumption]. Qed.

(** Zeroing and then one backward pass leaves this batch's gradient. *)
Lemma backward_zero_fresh (p : param) :
  grad_shaped loss_grad p ->
  fresh_grad loss_grad (backward_param loss_grad 1 (zero_grad_param p)).
Proof.
  unfold grad_shaped, fresh_grad, backward_param, zero_grad_param.
  intros Hlen. cbn [requires_grad set_grad grad name].
  destruct (requires_grad p) eqn:Er; cbn [requires_grad set_grad grad name];
    rewrite ?Er.
  - eapply Forall2_impl; [apply tadd_zero_scaled; assumption|].
    cbn beta. intros a y Ha. rewrite Ha. ring.
  - apply Forall_zero_map.
Qed.

Lemma all_params_backward_zero (o : Torch.optimizer) :
  all_params (backward loss_grad 1 (zero_grad o))
  = map (fun p => backward_param loss_grad 1 (zero_grad_param p)) (all_params o).
Proof.
  unfold all_params, backward, zero_grad. cbn [param_groups set_param_groups].
  induction (param_groups o) as [|g gs IH]; [reflexivity|].
  cbn [map flat_map]. rewrite IH, map_app.
  unfold backward_group at 1, zero_grad_group at 1.
  cbn [params set_params]. rewrite map_map. reflexivity.
Qed.

(** X13. In standard precision gradients do not accumulate across
    batches. At a training batch-end, for an optimizer without a recorded
    weight decay, the object handed to the optimizer's [step()] holds, for
    every parameter, the gradient of this batch's loss alone (zero for a
    parameter that takes no gradient), whatever gradient was left from
    before; parameter values, names and learning rates reach [step()]
    unchanged. *)
Theorem standard_step_sees_batch_gradient (w : world) (key : string)
    (o : Torch.optimizer) :
  let o3 := backward loss_grad 1 (zero_grad o) in
  RunState.is_train (state w) = true -> fp16 (self w) = false ->
  dict_get key (optimizer w) = Some o ->
  dict_get key (optimizer_wds (self w)) = None ->
  Forall (grad_shaped loss_grad) (all_params o) ->
  exists w',
    on_batch_end step clip_grad_norm_ loss_grad w = (Ok tt, w') /\
    dict_get key (optimizer w') = Some (step o3) /\
    Forall (fresh_grad loss_grad) (all_params o3) /\
    map data (all_params o3) = map data (all_params o) /\
    map name (all_params o3) = map name (all_params o) /\
    map lr (param_groups o3) = map lr (param_groups o).
Proof.
  intros o3 Htrain Hfp Ho Hwd Hshape.
  rewrite on_batch_end_standard; try assumption.
  2: { intros E. rewrite E in Ho. discriminate. }
  eexists. split; [reflexivity|].
  cbn [optimizer set_optimizer]. unfold grad_step.
  rewrite (dict_get_map_item (grad_step_item step clip_grad_norm_ (self w))).
  rewrite (dict_get_map_item (fun _ => backward loss_grad 1)).
  rewrite (dict_get_map_item (fun _ => zero_grad)).
  rewrite Ho. cbn [fmap option_fmap option_map].
  unfold grad_step_item. rewrite Hwd.
  split; [reflexivity|].
  unfold o3. rewrite all_params_backward_zero.
  split; [|split; [|split]].
  - apply Forall_map. eapply Forall_impl; [exact Hshape|].
    intros p Hp. apply backward_zero_fresh, Hp.
  - rewrite map_map. apply map_ext. intros p.
    unfold backward_param, zero_grad_param. cbn [requires_grad set_grad].
    destruct (requires_grad p); reflexivity.
  - rewrite map_map. apply map_ext. intros p.
    unfold backward_param, zero_grad_param. cbn [requires_grad set_grad].
    destruct (requires_grad p); reflexivity.
  - unfold backward, zero_grad. cbn [param_groups set_param_groups].
    rewrite !map_map. reflexivity.
Qed.

Lemma copy_grads_fields (source target : list param) :
  length target = length source ->
  map grad (copy_grads source target) = map grad source /\
  map data (copy_grads source target) = map data target /\
  map name (copy_grads source target) = map name target.
Proof.
  revert target. induction source as [|s0 source IH]; intros [|t0 target] Hlen;
    try discriminate; cbn; [auto|].
  destruct (IH target) as (Hg & Hd & Hn); [cbn in Hlen; congruence|].
  rewrite Hg, Hd, Hn. auto.
Qed.

Lemma scaled_backward_grad (scale : Q) (p0 : param) :
  grad_shaped loss_grad p0 -> requires_grad p0 = true ->
  let p := backward_param loss_grad scale (zero_grad_param p0) in
  name p = name p0 /\
  Forall2 (fun a y => a == scale * y) (grad p) (loss_grad (name p0)).
Proof.
  intros Hshape Hr. unfold backward_param, zero_grad_param.
  cbn [requires_grad set_grad grad name]. rewrite Hr.
  cbn [requires_grad set_grad grad name].
  split; [reflexivity|]. apply tadd_zero_scaled. exact Hshape.
Qed.

Lemma requires_grad_backward_zero (scale : Q) (p : param) :
  requires_grad (backward_param loss_grad scale (zero_grad_param p)) = requires_grad p.
Proof.
  unfold backward_param, zero_grad_param. cbn [requires_grad set_grad].
  destruct (requires_grad p) eqn:E; cbn [requires_grad set_grad]; auto.
Qed.

Lemma unscale_scaled (scale : Q) (g lg : list Q) :
  ~ scale == 0 ->
  Forall2 (fun a y => a == scale * y) g lg ->
  Forall2 Qeq (tscale (1 / scale) g) lg.
Proof.
  intros Hs. unfold tscale. induction 1 as [|a y g lg Ha Hrest IH]; cbn;
    constructor; [|assumption].
  rewrite Ha. field. exact Hs.
Qed.

(** X14. In reduced precision the gradient scale cancels. At a training
    batch-end with the one optimizer under ["main"] and a non-zero
    [fp16_grad_scale], the master parameters handed to [grad_step] carry,
    position by position, the gradient of the batch loss with respect to
    the model's trainable parameters, whatever the scale is, and keep
    their own values and names. The loss is scaled before the backward
    pass and the copied gradients are divided by the same scale; the copy
    itself is [copy_grads] of [common.utils.fp16], taken as position-wise. *)
Theorem fp16_gradient_scale_cancels (w : world) (o : Torch.optimizer)
    (g0 : param_group) (gs : list param_group) :
  let scale := fp16_grad_scale (self w) in
  let ps1 := map (backward_param loss_grad scale)
                 (map zero_grad_param (parameters (model w))) in
  let model_params := filter (fun p => requires_grad p = true) ps1 in
  let master := map (fun p => set_grad (tscale (1 / scale) (grad p)) p)
                    (copy_grads model_params (params g0)) in
  let o2 := grad_step_item step clip_grad_norm_ (self w) "main"
              (set_param_groups (set_params master g0 :: gs) o) in
  RunState.is_train (state w) = true -> fp16 (self w) = true ->
  optimizer w = [("main", o)] -> param_groups o = g0 :: gs ->
  ~ scale == 0 ->
  Forall (grad_shaped loss_grad) (parameters (model w)) ->
  length (params g0) = length model_params ->
  optimizer (snd (on_batch_end step clip_grad_norm_ loss_grad w)) = [("main", o2)] /\
  Forall2 (fun mp p => Forall2 Qeq (grad mp) (loss_grad (name p))) master model_params /\
  map data master = map data (params g0) /\
  map name master = map name (params g0).
Proof.
  intros scale ps1 model_params master o2 Htrain Hfp Hopt Hg Hscale Hshape Hlen.
  split; [|split].
  - destruct w as [s st m opt]. cbn [self state model optimizer] in *. subst opt.
    unfold on_batch_end, bind, get.
    cbn [self state model optimizer]. rewrite Htrain, Hfp. cbn [negb].
    unfold modify, ret, raise, set_model, set_optimizer, with_master_params.
    cbn [self state model optimizer length Nat.ltb Nat.leb Nat.eqb dict_get].
    cbn. rewrite Hg. cbn. rewrite !parameters_set_parameters.
    fold scale ps1 model_params.
    rewrite for_items_unscale by assumption. cbn.
    fold master.
    match goal with
    | |- context [grad_step_item step clip_grad_norm_ s "main" ?x] =>
        change (grad_step_item step clip_grad_norm_ s "main" x) with o2
    end.
    destruct (param_groups o2) as [|g0' gs'] eqn:Hg2; cbn; [reflexivity|].
    rewrite set_params_id. unfold set_param_groups. rewrite <- Hg2.
    destruct o2; reflexivity.
  - assert (Hmp : Forall (fun p => Forall2 (fun a y => a == scale * y)
                                     (grad p) (loss_grad (name p))) model_params).
    { unfold model_params, ps1. rewrite map_map.
      clear Hlen master o2. induction Hshape as [|p0 ps Hp Hps IH]; [constructor|].
      cbn [map]. rewrite filter_cons.
      destruct (decide _) as [Hr|Hr]; [|exact IH].
      constructor; [|exact IH].
      assert (Hr0 : requires_grad p0 = true).
      { rewrite requires_grad_backward_zero in Hr. exact Hr. }
      destruct (scaled_backward_grad scale p0 Hp Hr0) as [Hn Hgr].
      cbv zeta in Hn. rewrite Hn. exact Hgr. }
    destruct (copy_grads_fields model_params (params g0) Hlen) as (Hgrad & _ & _).
    unfold master.
    revert Hgrad Hlen. generalize (copy_grads model_params (params g0)) as cg.
    generalize (params g0) as tgt.
    induction Hmp as [|p mp Hp Hmp IH]; intros tgt cg Hgrad Hlen.
    + destruct cg; [constructor|discriminate].
    + destruct cg as [|c cg]; [discriminate|].
      destruct tgt as [|t0 tgt]; [discriminate|].
      cbn in Hgrad. injection Hgrad as Hc Hgrad.
      cbn [map]. constructor.
      * cbn [grad set_grad]. rewrite Hc. apply unscale_scaled; assumption.
      * apply (IH tgt); [assumption|cbn in Hlen; congruence].
  - destruct (copy_grads_fields model_params (params g0) Hlen) as (_ & Hd & Hn).
    unfold master. rewrite <- Hd, <- Hn, !map_map. split; reflexivity.
Qed.

End GradientFacts.

Section BracketExamples.
Import Torch BasicOptimizerCallback OptimizerSpec BracketSpec.
Local Open Scope Q_scope.

Lemma weight_decay_round_trip_witness :
  exists w1 w2,
    on_epoch_start two_optimizers_example = (Ok tt, w1) /\
    on_epoch_end w1 = (Ok tt, w2) /\
    optimizer w2 = optimizer two_optimizers_example.
Proof.
  destruct (weight_decay_round_trip two_optimizers_example)
    as (w1 & w2 & E1 & E2 & _ & Ho & _).
  - repeat constructor; cbn; intros H; decompose [or] H; discriminate || contradiction.
  - repeat constructor; discriminate.
  - exists w1, w2. auto.
Defined.

Lemma epoch_start_records_witness :
  exists w1,
    on_epoch_start two_optimizers_example = (Ok tt, w1) /\
    dict_get "old" (optimizer_wds (self w1)) = None.
Proof.
  destruct (epoch_start_records two_optimizers_example "old")
    as (w1 & E & Hrec & _).
  - repeat constructor; cbn; intros H; decompose [or] H; discriminate || contradiction.
  - repeat constructor; discriminate.
  - exists w1. split; [exact E|exact Hrec].
Defined.

Lemma epoch_start_without_groups_witness :
  exists w1,
    on_epoch_start broken_example = (Raise IndexError, w1) /\
    (configured_wd <$> dict_get "main" (optimizer w1)) = Some 0 /\
    (configured_wd <$> dict_get "aux" (optimizer w1)) = Some (1 # 10) /\
    optimizer_wds (self w1) = [("main", 1 # 10)].
Proof.
  eexists. split.
  - apply (epoch_start_without_groups broken_example
             [("main", decay_optimizer_example)] [("aux", decay_optimizer_example)]
             "empty" (mk_optimizer [])).
    + reflexivity.
    + repeat constructor. discriminate.
    + reflexivity.
  - repeat split; reflexivity.
Defined.

Lemma standard_step_sees_batch_gradient_witness :
  exists w',
    on_batch_end sgd_step clip_norm1 gradient_example stale_grad_example = (Ok tt, w') /\
    Forall (fresh_grad gradient_example)
      (all_params
         (backward gradient_example 1
            (zero_grad
               (mk_optimizer
                  [mk_group [mk_param "w" [1] [7] true] (1 # 10) None None None])))).
Proof.
  destruct (standard_step_sees_batch_gradient sgd_step clip_norm1 gradient_example
              stale_grad_example "main"
              (mk_optimizer
                 [mk_group [mk_param "w" [1] [7] true] (1 # 10) None None None]))
    as (w' & E & _ & Hfresh & _).
  - reflexivity.
  - reflexivity.
  - reflexivity.
  - reflexivity.
  - repeat constructor.
  - exists w'. split; [exact E|exact Hfresh].
Defined.

Lemma fp16_gradient_scale_cancels_witness :
  let master :=
    map (fun p => set_grad (tscale (1 / 128) (grad p)) p)
        (copy_grads
           (filter (fun p => requires_grad p = true)
              (map (backward_param gradient_example 128)
                 (map zero_grad_param (parameters (model scaled_example)))))
           [mk_param "master" [1] [0] true]) in
  Forall2 (fun mp p => Forall2 Qeq (grad mp) (gradient_example (name p)))
    master
    (filter (fun p => requires_grad p = true)
       (map (backward_param gradient_example 128)
          (map zero_grad_param (parameters (model scaled_example))))).
Proof.
  destruct (fp16_gradient_scale_cancels sgd_step clip_norm1 gradient_example
              scaled_example
              (mk_optimizer
                 [mk_group [mk_param "master" [1] [0] true] (1 # 10) None None None])
              (mk_group [mk_param "master" [1] [0] true] (1 # 10) None None None) [])
    as (_ & H & _).
  - reflexivity.
  - reflexivity.
  - reflexivity.
  - reflexivity.
  - cbn. intros E. discriminate E.
  - repeat constructor.
  - reflexivity.
  - exact H.
Defined.

End BracketExamples.

Section EpochEndFacts.
Import Torch CheckpointCallback CheckpointSpec ResumeSpec EpochEndSpec.
Local Open Scope Q_scope.

Variable module_load_state_dict : Torch.model -> pyval -> result Torch.model.
Variable optimizer_load_state_dict : Torch.optimizer -> pyval -> result Torch.optimizer.
Variable module_state_dict : Torch.model -> pyval.
Variable optimizer_state_dict : Torch.optimizer -> pyval.
Variable py_str : pyval -> string.
Variable sorted : bool -> list (string * pyval) -> result (list (string * pyval)).
Variable checkpoint_path : option string -> string -> string.
Variable best_path : option string -> string.

Abbreviation save_checkpoint' :=
  (CheckpointCallback.save_checkpoint py_str sorted checkpoint_path best_path).
Abbreviation on_epoch_end' :=
  (CheckpointCallback.on_epoch_end module_state_dict optimizer_state_dict
     py_str sorted checkpoint_path best_path).
Abbreviation prepare_checkpoint' :=
  (CheckpointCallback.prepare_checkpoint module_state_dict optimizer_state_dict).
Abbreviation load_checkpoint' :=
  (CheckpointCallback.load_checkpoint module_load_state_dict optimizer_load_state_dict).

(** *** The retained list at its bound *)

Lemma better_not_precedes (min : bool) (x y : string * pyval) :
  better_eq min x y -> precedes min y x = false.
Proof.
  unfold better_eq, precedes. destruct min; intros H;
    apply Qle_bool_iff in H; rewrite H; reflexivity.
Qed.

Lemma stable_sort_fixed (min : bool) (l : list (string * pyval)) :
  StronglySorted (better_eq min) l -> stable_sort min l = l.
Proof.
  induction 1 as [|x l Hl IH Hx]; [reflexivity|].
  cbn [stable_sort]. rewrite IH. destruct l as [|y l]; [reflexivity|].
  cbn [insert]. apply Forall_cons in Hx as [Hxy _].
  rewrite (better_not_precedes min x y Hxy). reflexivity.
Qed.

Lemma StronglySorted_snoc (min : bool) (l : list (string * pyval)) (x : string * pyval) :
  StronglySorted (better_eq min) l -> Forall (fun e => better_eq min e x) l ->
  StronglySorted (better_eq min) (l ++ [x])%list.
Proof.
  induction 1 as [|y l Hl IH Hy]; intros Hx; cbn.
  - repeat constructor.
  - apply Forall_cons in Hx as [Hyx Hx]. constructor; [apply IH, Hx|].
    apply Forall_app. split; [exact Hy|]. constructor; [exact Hyx|constructor].
Qed.

Lemma pop_last_app {A} (l : list A) (x : A) : pop_last (l ++ [x])%list = Some (l, x).
Proof.
  induction l as [|y l IH]; [reflexivity|].
  cbn [app pop_last]. rewrite IH. destruct (l ++ [x])%list eqn:E; [|reflexivity].
  destruct l; discriminate.
Qed.

Lemma retaining_same (w : world) (files : gmap string pyval) :
  retaining (top_best_metrics (self w)) files w = set_fs files w.
Proof. destruct w as [[] ? ? ? ? ?]. reflexivity. Qed.

(** X15. A newcomer that is not strictly better than a retained
    checkpoint does not displace it. When the retained list, of ordered
    numbers, is sorted and already holds [save_n_best] entries or more (in
    particular with [save_n_best <= 0]), saving a checkpoint whose metric
    is an ordered number no better than any retained one writes its file
    and removes it again in the same call: the list is unchanged (a tie
    keeps the older checkpoint) and the file is gone. Only the copy under
    the best-file name stays, when [is_best] was passed. *)
Theorem newcomer_evicted (w : world) (logdir : option string) (ck : pyval)
    (is_best : bool) (n : Z) (epoch metric : pyval) (v : Q) :
  let path := checkpoint_path logdir (py_str epoch) in
  let l := top_best_metrics (self w) in
  let min := minimize (self w) in
  sorts_numbers sorted ->
  epoch_of ck = Ok epoch ->
  metric_read ck (main_metric (self w)) = Ok metric -> number metric = Ok v ->
  Forall ordered l -> Sorted (better_eq min) l ->
  Forall (fun e => better_eq min e (path, metric)) l ->
  (n <= Z.of_nat (length l))%Z ->
  exists w',
    save_checkpoint' logdir ck is_best n w = (Ok tt, w') /\
    self w' = self w /\ state w' = state w /\
    fs w' = delete path (written (best_path logdir) path ck is_best (fs w)) /\
    fs w' !! path = None /\
    (is_best = true -> best_path logdir <> path ->
     fs w' !! best_path logdir = Some ck).
Proof.
  intros path l min Hsort He Hr Hv Hord Hsorted Hworse Hn.
  rewrite (save_checkpoint_sorted py_str sorted checkpoint_path best_path w logdir ck
             is_best n epoch metric v Hsort He Hr Hv Hord).
  cbv zeta. fold path l min.
  rewrite stable_sort_fixed
    by (apply StronglySorted_snoc; [apply Sorted_better_strong|]; assumption).
  rewrite length_app, pop_last_app. cbn [length fst].
  destruct (Z.gtb_spec (Z.of_nat (length l + 1)) n) as [_|Hle]; [|lia].
  assert (Hpath : is_Some (written (best_path logdir) path ck is_best (fs w) !! path)).
  { apply written_is_Some. right. reflexivity. }
  destruct Hpath as [x Hx]. rewrite Hx.
  eexists. split; [reflexivity|].
  unfold l. rewrite retaining_same. cbn [self state fs set_fs].
  split; [reflexivity|]. split; [reflexivity|]. split; [reflexivity|].
  split; [apply lookup_delete_eq|].
  intros -> Hne. rewrite lookup_delete_ne by (intros E; apply Hne; symmetry; exact E).
  unfold written. apply lookup_insert_eq.
Qed.

(** *** The end of a validation epoch *)

Lemma fold_valid_none (em : dict pyval) (acc : pyval) :
  no_valid em ->
  fold_left (fun valid_metrics kv =>
               if String.prefix "valid" (fst kv) then snd kv else valid_metrics)
            em acc = acc.
Proof.
  intros Hem. revert acc. induction Hem as [|kv em Hkv Hem IH]; intros acc;
    [reflexivity|].
  cbn [fold_left]. rewrite Hkv. apply IH.
Qed.

(** X16. With several validation loaders the last one decides.
    [process_epoch_metrics] takes as validation metrics the value under
    the last key of [epoch_metrics] that starts with ["valid"], whatever
    the earlier ones hold, and [None] when there is no such key; without a
    best snapshot so far, that value becomes the best one and [is_best] is
    true. *)
Theorem last_valid_decides (em : dict pyval) :
  (no_valid em -> last_valid em = PyNone) /\
  (forall pre post k v main min,
     em = (pre ++ (k, v) :: post)%list ->
     String.prefix "valid" k = true -> no_valid post ->
     last_valid em = v /\
     process_epoch_metrics em PyNone main min = Ok (v, v, true)).
Proof.
  split.
  - intros Hem. unfold last_valid. apply fold_valid_none, Hem.
  - intros pre post k v main min -> Hk Hpost.
    assert (E : last_valid (pre ++ (k, v) :: post)%list = v).
    { unfold last_valid. rewrite fold_left_app. cbn [fold_left fst snd].
      rewrite Hk. apply fold_valid_none, Hpost. }
    split; [exact E|].
    rewrite process_epoch_metrics_first, E. reflexivity.
Qed.

(** X17. When there is nothing to checkpoint. At the end of an epoch
    whose last loader is not a validation loader, [on_epoch_end] returns
    at once. On a validation loader whose [epoch_metrics] hold no
    validation entry, it raises before anything is written:
    [AttributeError] when there is no best snapshot yet ([None.items()]),
    [TypeError] when there is one ([None[main_metric]]). In all three
    cases the callback, the run state and the files are untouched. *)
Theorem epoch_end_nothing_to_checkpoint (w : world) :
  (String.prefix "valid" (RunState.loader_mode (state w)) = false ->
   on_epoch_end' w = (Ok tt, w)) /\
  (String.prefix "valid" (RunState.loader_mode (state w)) = true ->
   no_valid (RunState.epoch_metrics (state w)) ->
   (RunState.best_metrics (state w) = PyNone ->
    on_epoch_end' w = (Raise AttributeError, w)) /\
   (forall best, RunState.best_metrics (state w) = PyDict best ->
    on_epoch_end' w = (Raise TypeError, w))).
Proof.
  split.
  - intros Hmode. unfold CheckpointCallback.on_epoch_end, bind, get.
    rewrite Hmode. reflexivity.
  - intros Hmode Hem.
    assert (Hlast : last_valid (RunState.epoch_metrics (state w)) = PyNone).
    { unfold last_valid. apply fold_valid_none, Hem. }
    split.
    + intros Hbest. unfold CheckpointCallback.on_epoch_end, bind, get, lift.
      rewrite Hmode, Hbest. cbn [negb].
      rewrite process_epoch_metrics_first, Hlast. reflexivity.
    + intros best Hbest. unfold CheckpointCallback.on_epoch_end, bind, get, lift.
      rewrite Hmode, Hbest. cbn [negb].
      unfold process_epoch_metrics. rewrite Hlast. reflexivity.
Qed.

Lemma dict_get_only_floats (k : string) (q : Q) (d : dict pyval) :
  dict_get k d = Some (PyFloat q) -> dict_get k (only_floats d) = Some (PyFloat q).
Proof.
  unfold only_floats. induction d as [|[k0 v0] d IH]; cbn; [discriminate|].
  destruct (String.eqb_spec k k0) as [->|Hne].
  - intros [= ->]. cbn. rewrite String.eqb_refl. reflexivity.
  - intros Hget. destruct v0; cbn; auto;
      destruct (String.eqb_spec k k0); congruence || auto.
Qed.

(** The first validation epoch up to the save. *)
Lemma on_epoch_end_first (w : world) (valid : dict pyval) :
  String.prefix "valid" (RunState.loader_mode (state w)) = true ->
  last_valid (RunState.epoch_metrics (state w)) = PyDict valid ->
  RunState.best_metrics (state w) = PyNone ->
  let best := PyDict (only_floats valid) in
  let w1 := set_state (RunState.set_best_metrics best (state w)) w in
  let ck := prepare_checkpoint' (model w) (optimizer w) (scheduler w) best
              (RunState.epoch_metrics (state w)) best (RunState.epoch (state w)) in
  on_epoch_end' w = save_checkpoint' (logdir (self w)) ck true (save_n_best (self w)) w1.
Proof.
  intros Hmode Hlast Hbest best w1 ck.
  unfold CheckpointCallback.on_epoch_end at 1, bind, get, lift.
  rewrite Hmode, Hbest. cbn [negb].
  rewrite process_epoch_metrics_first, Hlast.
  cbn [items]. unfold modify. reflexivity.
Qed.

Lemma prepared_fields (m : option Torch.model) (o : option (dict Torch.optimizer))
    (sch : option (dict pyval)) (vm : pyval) (em : dict pyval) (best epoch : pyval) :
  let ck := prepare_checkpoint' m o sch vm em best epoch in
  epoch_of ck = Ok epoch /\
  getitem ck "epoch" = Ok epoch /\
  getitem ck "best_metrics" = Ok best /\
  getitem ck "valid_metrics" = Ok vm.
Proof. repeat split. Qed.

(** X18. A main metric that is not a float leaves an untracked file. At
    the end of a first validation epoch, when the main metric is missing
    from the validation metrics or its value is not a [float] (an [int],
    say), [on_epoch_end] raises [KeyError], but only after
    [state.best_metrics] has been replaced and the checkpoint file and the
    best file have been written; the retained list does not know the
    file. *)
Theorem epoch_end_unranked_metric (w : world) (valid : dict pyval) :
  let best := PyDict (only_floats valid) in
  let ck := prepare_checkpoint' (model w) (optimizer w) (scheduler w) best
              (RunState.epoch_metrics (state w)) best (RunState.epoch (state w)) in
  let path := checkpoint_path (logdir (self w)) (py_str (RunState.epoch (state w))) in
  String.prefix "valid" (RunState.loader_mode (state w)) = true ->
  last_valid (RunState.epoch_metrics (state w)) = PyDict valid ->
  RunState.best_metrics (state w) = PyNone ->
  dict_get (main_metric (self w)) (only_floats valid) = None ->
  on_epoch_end' w
  = (Raise KeyError,
     set_fs (written (best_path (logdir (self w))) path ck true (fs w))
       (set_state (RunState.set_best_metrics best (state w)) w)).
Proof.
  intros best ck path Hmode Hlast Hbest Hmain.
  rewrite (on_epoch_end_first w valid Hmode Hlast Hbest). fold best ck.
  unfold CheckpointCallback.save_checkpoint, helpers_save_checkpoint,
    bind, get, lift, modify, ret.
  cbn [self state fs set_fs set_state dict_get String.eqb Ascii.eqb Bool.eqb
       prepare_checkpoint helpers_prepare_checkpoint app ck getitem of_option].
  cbn [self state fs set_fs set_state getitem of_option best].
  rewrite Hmain. reflexivity.
Qed.

(** X19. The first validation epoch. With no best snapshot yet, an
    empty retained list, room for at least one checkpoint and a float main
    metric in the validation metrics, [on_epoch_end] returns normally:
    [state.best_metrics] is the float-valued part of the validation
    metrics, the checkpoint is on disk under its own name and under the
    best-file name, and it is the one retained entry, with its metric. The
    stored mapping is the one [prepare_checkpoint] of
    [common.utils.helpers] builds, taken as holding [epoch] and
    [best_metrics] under these keys. *)
Theorem first_validation_epoch (w : world) (valid : dict pyval) (new : Q) :
  let best := PyDict (only_floats valid) in
  let ck := prepare_checkpoint' (model w) (optimizer w) (scheduler w) best
              (RunState.epoch_metrics (state w)) best (RunState.epoch (state w)) in
  let path := checkpoint_path (logdir (self w)) (py_str (RunState.epoch (state w))) in
  String.prefix "valid" (RunState.loader_mode (state w)) = true ->
  last_valid (RunState.epoch_metrics (state w)) = PyDict valid ->
  RunState.best_metrics (state w) = PyNone ->
  sorts_numbers sorted ->
  dict_get (main_metric (self w)) valid = Some (PyFloat new) ->
  top_best_metrics (self w) = [] -> (1 <= save_n_best (self w))%Z ->
  exists w',
    on_epoch_end' w = (Ok tt, w') /\
    RunState.best_metrics (state w') = best /\
    top_best_metrics (self w') = [(path, PyFloat new)] /\
    fs w' !! path = Some ck /\
    fs w' !! best_path (logdir (self w)) = Some ck /\
    getitem ck "epoch" = Ok (RunState.epoch (state w)) /\
    getitem ck "best_metrics" = Ok best.
Proof.
  intros best ck path Hmode Hlast Hbest Hsort Hmain Hempty Hn.
  rewrite (on_epoch_end_first w valid Hmode Hlast Hbest). fold best ck.
  set (w1 := set_state _ w).
  destruct (prepared_fields (model w) (optimizer w) (scheduler w) best
              (RunState.epoch_metrics (state w)) best (RunState.epoch (state w)))
    as (He & Hge & Hgb & Hgv). fold ck in He, Hge, Hgb, Hgv.
  assert (Hrank : metric_read ck (main_metric (self w1)) = Ok (PyFloat new)).
  { unfold metric_read. rewrite Hgv. unfold best. cbn [getitem self w1 set_state].
    rewrite (dict_get_only_floats _ new _ Hmain). reflexivity. }
  assert (Hord : Forall ordered (top_best_metrics (self w1))).
  { cbn [self w1 set_state]. rewrite Hempty. constructor. }
  rewrite (save_checkpoint_sorted py_str sorted checkpoint_path best_path w1
             (logdir (self w)) ck true (save_n_best (self w)) _ (PyFloat new) new
             Hsort He Hrank eq_refl Hord).
  cbv zeta. cbn [self w1 set_state fs]. rewrite Hempty.
  cbn [app stable_sort insert length].
  destruct (Z.gtb_spec (Z.of_nat 1) (save_n_best (self w))) as [Hgt|_]; [lia|].
  eexists. split; [reflexivity|].
  unfold retaining, written.
  cbn [self state fs set_fs set_self set_state top_best_metrics set_top_best_metrics
       RunState.best_metrics RunState.set_best_metrics].
  fold path.
  split; [reflexivity|]. split; [reflexivity|].
  split; [|split; [apply lookup_insert_eq|split; assumption]].
  destruct (decide (best_path (logdir (self w)) = path)) as [E|E].
  - rewrite E. apply lookup_insert_eq.
  - rewrite lookup_insert_ne by assumption. apply lookup_insert_eq.
Qed.

(** *** Resuming from a damaged checkpoint *)

(** X20. A resume that fails half-way is not rolled back. With the file
    in place, [load_checkpoint] reads key after key: when ["epoch"] cannot
    be read nothing has changed; when ["best_metrics"] cannot be read,
    [state.epoch] is already the stored epoch; when a model is passed and
    ["model_state_dict"] cannot be read, both [state.epoch] and
    [state.best_metrics] are already the stored values. The exception is
    the one of the failed read ([KeyError] for a missing key), and the
    model, the optimizers and the schedulers are as before. *)
Theorem resume_not_rolled_back (w : world) (filename : string) (ck : pyval) (e : exn) :
  fs w !! filename = Some ck ->
  (getitem ck "epoch" = Raise e -> load_checkpoint' filename w = (Raise e, w)) /\
  (forall epoch,
     getitem ck "epoch" = Ok epoch -> getitem ck "best_metrics" = Raise e ->
     load_checkpoint' filename w
     = (Raise e, set_state (RunState.set_epoch epoch (state w)) w)) /\
  (forall epoch best m,
     getitem ck "epoch" = Ok epoch -> getitem ck "best_metrics" = Ok best ->
     model w = Some m -> getitem ck "model_state_dict" = Raise e ->
     load_checkpoint' filename w
     = (Raise e,
        set_state (RunState.set_best_metrics best
                     (RunState.set_epoch epoch (state w))) w)).
Proof.
  intros Hfile.
  destruct w as [s st files m o sch]. cbn [self state fs model optimizer scheduler] in *.
  unfold CheckpointCallback.load_checkpoint, helpers_load_checkpoint,
    bind, get, lift, modify, ret, raise.
  cbn [self state fs model optimizer scheduler set_state set_model set_optimizer
       set_scheduler].
  cbn -[getitem CheckpointCallback.load_model for_items]. rewrite !Hfile.
  cbn -[getitem CheckpointCallback.load_model for_items]. rewrite ?Hfile.
  cbn -[getitem CheckpointCallback.load_model for_items].
  split; [|split].
  - intros He. rewrite He. reflexivity.
  - intros epoch He Hb. rewrite He, Hb. reflexivity.
  - intros epoch best m0 He Hb Hm Hsd. rewrite He, Hb. subst m. rewrite Hsd.
    reflexivity.
Qed.

End EpochEndFacts.

Section EpochEndExamples.
Import Torch CheckpointCallback CheckpointSpec ResumeSpec EpochEndSpec.
Local Open Scope Q_scope.

Abbreviation save_checkpoint_example :=
  (CheckpointCallback.save_checkpoint str_example sorted_example
     checkpoint_path_example best_path_example).
Abbreviation epoch_end_example :=
  (CheckpointCallback.on_epoch_end state_dict_example optimizer_state_dict_example
     str_example sorted_example checkpoint_path_example best_path_example).

Lemma newcomer_evicted_witness :
  exists w',
    save_checkpoint_example (Some "logs") (checkpoint_example 3 (4 # 10)) false 2
      full_example = (Ok tt, w') /\
    top_best_metrics (self w')
    = [("checkpoint.1.pth.tar", PyFloat (3 # 10));
       ("checkpoint.2.pth.tar", PyFloat (4 # 10))] /\
    fs w' !! "checkpoint.3.pth.tar" = None.
Proof.
  destruct (newcomer_evicted str_example sorted_example checkpoint_path_example
              best_path_example full_example (Some "logs")
              (checkpoint_example 3 (4 # 10)) false 2 (PyInt 3) (PyFloat (4 # 10))
              (4 # 10))
    as (w' & E & Hs & _ & _ & Hf & _).
  - exact sorted_example_sorts_numbers.
  - reflexivity.
  - reflexivity.
  - reflexivity.
  - repeat constructor; eexists; reflexivity.
  - repeat constructor; cbn; discriminate.
  - repeat constructor; cbn; discriminate.
  - cbn. lia.
  - exists w'. split; [exact E|]. rewrite Hs. split; [reflexivity|exact Hf].
Defined.

Lemma last_valid_decides_witness :
  last_valid (RunState.epoch_metrics (state (first_epoch_example (PyFloat (7 # 10)))))
  = PyDict [("loss", PyFloat (7 # 10)); ("count", PyInt 4)].
Proof.
  destruct (last_valid_decides
              (RunState.epoch_metrics (state (first_epoch_example (PyFloat (7 # 10))))))
    as (_ & H).
  destruct (H [("train", PyDict [("loss", PyFloat (9 # 10))]);
               ("valid", PyDict [("loss", PyFloat (8 # 10))])]
              [] "valid_2" (PyDict [("loss", PyFloat (7 # 10)); ("count", PyInt 4)])
              "loss" true) as (E & _).
  - reflexivity.
  - reflexivity.
  - constructor.
  - exact E.
Defined.

Lemma epoch_end_nothing_to_checkpoint_witness :
  epoch_end_example retention_example = (Raise AttributeError, retention_example).
Proof.
  destruct (epoch_end_nothing_to_checkpoint state_dict_example
              optimizer_state_dict_example str_example sorted_example
              checkpoint_path_example best_path_example retention_example) as (_ & H).
  destruct H as (H & _).
  - reflexivity.
  - constructor.
  - apply H. reflexivity.
Defined.

Lemma epoch_end_unranked_metric_witness :
  exists w',
    epoch_end_example (first_epoch_example (PyInt 1)) = (Raise KeyError, w') /\
    is_Some (fs w' !! "checkpoint.0.pth.tar") /\
    top_best_metrics (self w') = [] /\
    RunState.best_metrics (state w') = PyDict [].
Proof.
  eexists. split.
  - apply (epoch_end_unranked_metric state_dict_example optimizer_state_dict_example
             str_example sorted_example checkpoint_path_example best_path_example
             (first_epoch_example (PyInt 1)) [("loss", PyInt 1); ("count", PyInt 4)]).
    + reflexivity.
    + reflexivity.
    + reflexivity.
    + reflexivity.
  - split; [vm_compute; eauto|]. split; reflexivity.
Defined.

Lemma first_validation_epoch_witness :
  exists w',
    epoch_end_example (first_epoch_example (PyFloat (7 # 10))) = (Ok tt, w') /\
    RunState.best_metrics (state w') = PyDict [("loss", PyFloat (7 # 10))] /\
    top_best_metrics (self w') = [("checkpoint.0.pth.tar", PyFloat (7 # 10))].
Proof.
  destruct (first_validation_epoch state_dict_example optimizer_state_dict_example
              str_example sorted_example checkpoint_path_example best_path_example
              (first_epoch_example (PyFloat (7 # 10)))
              [("loss", PyFloat (7 # 10)); ("count", PyInt 4)] (7 # 10))
    as (w' & E & Hb & Ht & _).
  - reflexivity.
  - reflexivity.
  - reflexivity.
  - exact sorted_example_sorts_numbers.
  - reflexivity.
  - reflexivity.
  - cbn. lia.
  - exists w'. split; [exact E|]. split; [exact Hb|exact Ht].
Defined.

Lemma resume_not_rolled_back_witness :
  CheckpointCallback.load_checkpoint load_values_example load_optimizer_example
    "last.pth.tar" (resume_example {["last.pth.tar" := truncated_example]})
  = (Raise KeyError,
     set_state
       (RunState.set_epoch (PyInt 7)
          (state (resume_example {["last.pth.tar" := truncated_example]})))
       (resume_example {["last.pth.tar" := truncated_example]})).
Proof.
  destruct (resume_not_rolled_back load_values_example load_optimizer_example
              (resume_example {["last.pth.tar" := truncated_example]})
              "last.pth.tar" truncated_example KeyError) as (_ & H & _).
  - reflexivity.
  - apply H; reflexivity.
Defined.

End EpochEndExamples.
